(** * Nova Barbearia backend: attendance lifecycle, client directory and
      period reporting, embedded from the Python services.

    The services of [services/client_service.py] and
    [services/attendance_service.py] are translated function by function.
    SQL tables are lists of rows in storage order, a SQLAlchemy session is a
    pair of a committed store and a working copy, [datetime.date] values are
    proleptic Gregorian ordinals and naive [datetime] values are microsecond
    counts; prices (SQL [Float]) are exact rationals. *)

From Stdlib Require Import ZArith List String Ascii Lia Bool QArith DecimalString Sorted.
Import ListNotations.
Open Scope string_scope.
Open Scope list_scope.
Open Scope Z_scope.

(** ** Exceptions and results *)

(** The exceptions the services can raise: [HTTPException(status_code,
    detail)] from the service code, and the errors of [datetime] and of
    [int]. *)
Inductive exn : Type :=
| HTTPException (status_code : Z) (detail : string)
| OverflowError
| ValueError.

Inductive result (A : Type) : Type :=
| Ok (a : A)
| Raise (e : exn).
Arguments Ok {A} a.
Arguments Raise {A} e.

Definition bind {A B : Type} (r : result A) (k : A -> result B) : result B :=
  match r with
  | Ok a => k a
  | Raise e => Raise e
  end.

Notation "'let*' x ':=' r 'in' k" := (bind r (fun x => k))
  (at level 10, x pattern, r at level 100, k at level 200).

Definition HTTP_404_NOT_FOUND : Z := 404.
Definition HTTP_400_BAD_REQUEST : Z := 400.

(** ** Python string primitives used by the services

    A [str] that the services only store, compare or concatenate is a
    [string]. Where the code looks at the characters of a [str]
    ([_only_digits], [_is_valid_cpf]) the [str] is the list of its code
    points, and the character tests are those of Unicode 14.0, the version
    of CPython 3.11. *)

Module PyStr.

(** The code points of a literal written in ASCII. *)
Definition of_ascii (s : string) : list N :=
  map (fun a => N.of_nat (nat_of_ascii a)) (list_ascii_of_string s).

(** The digit zero of each run of decimal digit characters (general
    category Nd): the digits one to nine of the script follow it. *)
Definition decimal_zeros : list N :=
  [
    48; 1632; 1776; 1984; 2406; 2534; 2662; 2790; 2918; 3046; 3174; 3302; 3430; 3558;
    3664; 3792; 3872; 4160; 4240; 6112; 6160; 6470; 6608; 6784; 6800; 6992; 7088; 7232;
    7248; 42528; 43216; 43264; 43472; 43504; 43600; 44016; 65296; 66720; 68912; 69734;
    69872; 69942; 70096; 70384; 70736; 70864; 71248; 71360; 71472; 71904; 72016; 72784;
    73040; 73120; 92768; 92864; 93008; 120782; 120792; 120802; 120812; 120822; 123200;
    123632; 125264; 130032
  ]%N.

(** The value of a decimal digit character, of whatever script. *)
Definition decimal (ch : N) : option Z :=
  match find (fun zero => (zero <=? ch)%N && (ch <=? zero + 9)%N) decimal_zeros with
  | Some zero => Some (Z.of_N (ch - zero))
  | None => None
  end.

(** The ranges of the characters that are digits without being decimal
    (Numeric_Type=Digit): superscript and subscript digits, circled and
    parenthesised digits and the like. *)
Definition other_digits : list (N * N) :=
  [
    (178, 179); (185, 185); (4969, 4977); (6618, 6618); (8304, 8304); (8308, 8313);
    (8320, 8329); (9312, 9320); (9332, 9340); (9352, 9360); (9450, 9450); (9461, 9469);
    (9471, 9471); (10102, 10110); (10112, 10120); (10122, 10130); (68160, 68163);
    (69216, 69224); (69714, 69722); (127232, 127242)
  ]%N.

(** [ch.isdigit()] *)
Definition isdigit (ch : N) : bool :=
  match decimal ch with
  | Some _ => true
  | None => existsb (fun r => (fst r <=? ch)%N && (ch <=? snd r)%N) other_digits
  end.

(** [int(ch)] for a one-character string: the value of a decimal digit,
    [ValueError] for every other character. *)
Definition int_of_char (ch : N) : result Z :=
  match decimal ch with
  | Some v => Ok v
  | None => Raise ValueError
  end.

(** [str(n)] for an integer. *)
Definition str (z : Z) : string := NilZero.string_of_int (Z.to_int z).

(** [a == b] on the code points of two strings. *)
Fixpoint eqb (a b : list N) : bool :=
  match a, b with
  | [], [] => true
  | x :: a', y :: b' => (x =? y)%N && eqb a' b'
  | _, _ => false
  end.

(** [s.endswith(suf)] *)
Definition endswith (s suf : list N) : bool :=
  (List.length suf <=? List.length s)%nat
  && eqb (skipn (List.length s - List.length suf) s) suf.

(** Python truthiness of a string. *)
Definition truthy (s : string) : bool :=
  match s with EmptyString => false | _ => true end.

(** The bytes of a code point in UTF-8. *)
Definition utf8 (ch : N) : list ascii :=
  (if ch <? 128 then [ascii_of_N ch]
   else if ch <? 2048 then
     [ascii_of_N (192 + ch / 64); ascii_of_N (128 + ch mod 64)]
   else if ch <? 65536 then
     [ascii_of_N (224 + ch / 4096); ascii_of_N (128 + (ch / 64) mod 64);
      ascii_of_N (128 + ch mod 64)]
   else
     [ascii_of_N (240 + ch / 262144); ascii_of_N (128 + (ch / 4096) mod 64);
      ascii_of_N (128 + (ch / 64) mod 64); ascii_of_N (128 + ch mod 64)])%N.

(** The [string] of a [str] given by its code points: a [string] holds the
    UTF-8 bytes of its text. *)
Definition to_string (s : list N) : string :=
  string_of_list_ascii (flat_map utf8 s).

End PyStr.

(** ** The [datetime] module, as far as the services use it *)

Module Calendar.

Definition MINYEAR : Z := 1.
Definition MAXYEAR : Z := 9999.
(** [date.max.toordinal()] *)
Definition _MAXORDINAL : Z := 3652059.

Definition _DAYS_IN_MONTH : list Z :=
  [-1; 31; 28; 31; 30; 31; 30; 31; 31; 30; 31; 30; 31].
Definition _DAYS_BEFORE_MONTH : list Z :=
  [-1; 0; 31; 59; 90; 120; 151; 181; 212; 243; 273; 304; 334].

Definition _is_leap (year : Z) : bool :=
  (year mod 4 =? 0) && (negb (year mod 100 =? 0) || (year mod 400 =? 0)).

Definition _days_before_year (year : Z) : Z :=
  let y := year - 1 in
  y * 365 + y / 4 - y / 100 + y / 400.

Definition _days_in_month (year month : Z) : Z :=
  if (month =? 2) && _is_leap year then 29
  else nth (Z.to_nat month) _DAYS_IN_MONTH 0.

Definition _days_before_month (year month : Z) : Z :=
  nth (Z.to_nat month) _DAYS_BEFORE_MONTH 0
  + (if (month >? 2) && _is_leap year then 1 else 0).

Definition _ymd2ord (year month day : Z) : Z :=
  _days_before_year year + _days_before_month year month + day.

Definition _DI400Y : Z := 146097.
Definition _DI100Y : Z := 36524.
Definition _DI4Y : Z := 1461.

Definition _ord2ymd (n0 : Z) : Z * Z * Z :=
  let n := n0 - 1 in
  let n400 := n / _DI400Y in
  let n := n mod _DI400Y in
  let year := n400 * 400 + 1 in
  let n100 := n / _DI100Y in
  let n := n mod _DI100Y in
  let n4 := n / _DI4Y in
  let n := n mod _DI4Y in
  let n1 := n / 365 in
  let n := n mod 365 in
  let year := year + n100 * 100 + n4 * 4 + n1 in
  if (n1 =? 4) || (n100 =? 4) then (year - 1, 12, 31)
  else
    let leapyear := (n1 =? 3) && (negb (n4 =? 24) || (n100 =? 3)) in
    let month := Z.shiftr (n + 50) 5 in
    let preceding :=
      nth (Z.to_nat month) _DAYS_BEFORE_MONTH 0
      + (if (month >? 2) && leapyear then 1 else 0) in
    if preceding >? n then
      let month := month - 1 in
      let preceding :=
        preceding - (nth (Z.to_nat month) _DAYS_IN_MONTH 0
                     + (if (month =? 2) && leapyear then 1 else 0)) in
      (year, month, n - preceding + 1)
    else (year, month, n - preceding + 1).

(** A [date] is held as its proleptic Gregorian ordinal
    ([date.toordinal()]); 0001-01-01 is day 1. *)
Definition date : Type := Z.

Definition year (d : date) : Z := fst (fst (_ord2ymd d)).
Definition month (d : date) : Z := snd (fst (_ord2ymd d)).
Definition day (d : date) : Z := snd (_ord2ymd d).

(** [date(year, month, day)], with the constructor's range checks. *)
Definition mkdate (y m d : Z) : result date :=
  if (MINYEAR <=? y) && (y <=? MAXYEAR) && (1 <=? m) && (m <=? 12)
     && (1 <=? d) && (d <=? _days_in_month y m)
  then Ok (_ymd2ord y m d)
  else Raise ValueError.

(** [date.fromordinal(n)] *)
Definition fromordinal (n : Z) : result date :=
  if (1 <=? n) && (n <=? _MAXORDINAL) then Ok n else Raise OverflowError.

(** [d + timedelta(days=n)] and [d - timedelta(days=n)] *)
Definition add_days (d : date) (n : Z) : result date := fromordinal (d + n).
Definition sub_days (d : date) (n : Z) : result date := fromordinal (d - n).

(** [(a - b).days] *)
Definition days_between (a b : date) : Z := a - b.

(** [d.weekday()], Monday is 0. *)
Definition weekday (d : date) : Z := (d + 6) mod 7.

(** A naive [datetime] is held as the number of microseconds since
    0001-01-01T00:00:00. *)
Definition datetime : Type := Z.

Definition usec_per_day : Z := 86400000000.

(** [dt.date()], and SQL [date(column)] on a stored timestamp. *)
Definition date_of (dt : datetime) : date := dt / usec_per_day + 1.

(** [dt - timedelta(days=n)]: the [timedelta] constructor refuses more than
    999999999 days, and the difference must stay within
    [datetime.min .. datetime.max]. *)
Definition datetime_sub_days (dt : datetime) (n : Z) : result datetime :=
  if Z.abs n <=? 999999999 then
    let r := dt - n * usec_per_day in
    if (0 <=? r) && (r <? _MAXORDINAL * usec_per_day) then Ok r
    else Raise OverflowError
  else Raise OverflowError.

End Calendar.

(** ** services/client_service.py: tax-id validation *)

(** [''.join(ch for ch in (value or '') if ch.isdigit())] *)
Definition _only_digits (value : list N) : list N :=
  filter PyStr.isdigit value.

(** [sum(int(base[i]) * (len(base) + 1 - i) for i in range(len(base)))],
    with [len1 = len(base) + 1] and [i] the index of the head of [base];
    [int] raises [ValueError] on a character that is not a decimal digit. *)
Fixpoint calc_total (len1 i : Z) (base : list N) : result Z :=
  match base with
  | [] => Ok 0
  | ch :: rest =>
      let* v := PyStr.int_of_char ch in
      let* total := calc_total len1 (i + 1) rest in
      Ok (v * (len1 - i) + total)
  end.

(** The local function [calc] of [_is_valid_cpf]. *)
Definition calc (base : list N) : result Z :=
  let* total := calc_total (Z.of_nat (List.length base) + 1) 0 base in
  let mod_ := total mod 11 in
  Ok (if mod_ <? 2 then 0 else 11 - mod_).

Definition _is_valid_cpf (cpf : list N) : result bool :=
  let digits := _only_digits cpf in
  if negb (List.length digits =? 11)%nat then Ok false
  else
    match digits with
    | [] => Ok false (* not reached: len(digits) == 11 *)
    | d0 :: _ =>
        if PyStr.eqb digits (repeat d0 11) then Ok false
        else
          let* d1 := calc (firstn 9 digits) in
          let* d2 := calc (firstn 9 digits ++ PyStr.of_ascii (PyStr.str d1)) in
          Ok (PyStr.endswith digits
                (PyStr.of_ascii (PyStr.str d1) ++ PyStr.of_ascii (PyStr.str d2)))
    end.

(** *** The validation rule as the specification words it *)

(** The digit sequence of a raw tax id: the values of its characters
    [0] to [9], in order. *)
Definition digit_values (s : list N) : list Z :=
  flat_map (fun ch => if (48 <=? ch)%N && (ch <=? 57)%N then [Z.of_N ch - 48] else []) s.

(** The digit sequence when the decimal digits of every script count as
    digits. *)
Definition decimal_values (s : list N) : list Z :=
  flat_map (fun ch => match PyStr.decimal ch with Some v => [v] | None => [] end) s.

(** Sum of [digit[i] * (N + 1 - i)] over the [N] preceding digits. *)
Fixpoint spec_weighted_sum (N i : Z) (ds : list Z) : Z :=
  match ds with
  | [] => 0
  | d :: rest => d * (N + 1 - i) + spec_weighted_sum N (i + 1) rest
  end.

Definition spec_check_digit (preceding : list Z) : Z :=
  let s := spec_weighted_sum (Z.of_nat (List.length preceding)) 0 preceding in
  if s mod 11 <? 2 then 0 else 11 - s mod 11.

(** Exactly 11 digits, not 11 copies of one digit, and the last two equal
    to the check digits of the digits before them. *)
Definition spec_valid_digits (ds : list Z) : Prop :=
  List.length ds = 11%nat
  /\ ~ (exists d, ds = repeat d 11)
  /\ nth 9 ds 0 = spec_check_digit (firstn 9 ds)
  /\ nth 10 ds 0 = spec_check_digit (firstn 10 ds).

Definition spec_valid_tax_id (s : list N) : Prop :=
  spec_valid_digits (digit_values s).

(** The rule as stated for every string, [sequence] being the reading of
    "its digit sequence". *)
Definition spec_tax_id_rule (sequence : list N -> list Z) : Prop :=
  forall s : list N, _is_valid_cpf s = Ok true <-> spec_valid_digits (sequence s).

(** A string whose digit characters are all among [0] to [9]. *)
Definition ascii_digits_only (s : list N) : Prop :=
  Forall (fun ch => PyStr.isdigit ch = true -> (48 <= ch <= 57)%N) s.

(** Auxiliaries of the tax-id proofs: the character of a digit value and the
    check digit of a weighted total. *)
Definition digit_code (v : Z) : N := Z.to_N (48 + v).

Definition check_of (total : Z) : Z :=
  if total mod 11 <? 2 then 0 else 11 - total mod 11.


(** ** models.py: the tables *)

Module Client.
Record t : Type := mk {
  id : Z;
  name : string;
  cpf : string;
  phone : string;
  email : option string;
  created_at : Calendar.datetime;
  updated_at : Calendar.datetime;
  is_active : bool
}.
End Client.

Module Service.
Record t : Type := mk {
  id : Z;
  name : string;
  description : option string;
  price : Q;
  duration_minutes : Z;
  is_active : bool;
  created_at : Calendar.datetime
}.
End Service.

Module Attendance.
Record t : Type := mk {
  id : Z;
  client_id : Z;
  service_id : option Z;
  appointment_date : Calendar.datetime;
  status : string;
  payment_method : option string;
  payment_status : string;
  notes : option string;
  created_at : Calendar.datetime;
  updated_at : Calendar.datetime
}.
End Attendance.

(** The database: one list of rows per table, in storage order;
    [attendance_services] holds the (attendance_id, service_id) pairs of the
    many-to-many association. *)
Record Store : Type := mkStore {
  clients : list Client.t;
  services : list Service.t;
  attendances : list Attendance.t;
  attendance_services : list (Z * Z)
}.

(** A SQLAlchemy session: what the database holds ([committed]) and the
    session's own view with its pending changes ([working]). *)
Record Session : Type := mkSession {
  committed : Store;
  working : Store
}.

(** [db.commit()] *)
Definition commit (db : Session) : Session :=
  {| committed := working db; working := working db |}.

(** [db.close()] in [get_db]: pending changes are dropped, the database keeps
    what was committed. *)
Definition close (db : Session) : Store := committed db.

(** A session opened on a database. *)
Definition open_session (st : Store) : Session :=
  {| committed := st; working := st |}.

(** [query.filter(p).first()] *)
Definition first {A : Type} (p : A -> bool) (rows : list A) : option A :=
  find p rows.

(** Assigning to the attributes of the object that [first()] returned: the
    first row satisfying [p] is replaced. *)
Fixpoint update_first {A : Type} (p : A -> bool) (f : A -> A) (rows : list A) : list A :=
  match rows with
  | [] => []
  | r :: rest => if p r then f r :: rest else r :: update_first p f rest
  end.

(** The id a serial primary key gives to the next row. *)
Definition next_id (ids : list Z) : Z := 1 + fold_right Z.max 0 ids.

(** SQL [sum(...)]: NULL over no rows. *)
Definition func_sum (l : list Q) : option Q :=
  match l with
  | [] => None
  | x :: rest => Some (fold_left Qplus rest x)
  end.

(** [query.scalar() or 0.0] *)
Definition scalar_or_zero (v : option Q) : Q :=
  match v with
  | None => 0%Q
  | Some q => if Qeq_bool q 0 then 0%Q else q
  end.

(** SQL [max(...)] over timestamps. *)
Definition func_max (l : list Calendar.datetime) : option Calendar.datetime :=
  match l with
  | [] => None
  | x :: rest => Some (fold_left Z.max rest x)
  end.

(** The rows of [select_from(Attendance).join(Attendance.services)]. *)
Definition attendance_service_rows (st : Store) : list (Attendance.t * Service.t) :=
  flat_map (fun a =>
    flat_map (fun link =>
      if fst link =? Attendance.id a
      then map (fun s => (a, s))
               (filter (fun s => Service.id s =? snd link) (services st))
      else [])
      (attendance_services st))
    (attendances st).

(** ** schemas.py *)

Record AttendanceCreate : Type := mkAttendanceCreate {
  ac_client_id : Z;
  ac_appointment_date : Calendar.datetime;
  ac_payment_method : option string;
  ac_notes : option string;
  ac_service_ids : list Z
}.

(** A field of a request body: left out of the body, or sent, possibly as
    [null]. [dict(exclude_unset=True)] keeps only the fields sent. *)
Inductive field (A : Type) : Type :=
| Unset
| Sent (v : option A).
Arguments Unset {A}.
Arguments Sent {A} v.

Record AttendanceUpdate : Type := mkAttendanceUpdate {
  au_status : field string;
  au_payment_method : field string;
  au_payment_status : field string;
  au_notes : field string
}.

(** [update_data.get(key)] *)
Definition dict_get {A : Type} (f : field A) : option A :=
  match f with
  | Unset => None
  | Sent v => v
  end.

(** ** services/client_service.py: listing and auto-inactivation *)

(** [query.offset(skip).limit(limit).all()] *)
Definition offset_limit {A : Type} (skip limit : nat) (rows : list A) : list A :=
  firstn limit (skipn skip rows).

Definition get_clients (db : Session) (skip limit : nat) : list Client.t :=
  offset_limit skip limit (clients (working db)).

Definition get_clients_with_status (db : Session) (status_filter : string)
    (skip limit : nat) : list Client.t :=
  let query := clients (working db) in
  let query :=
    if String.eqb status_filter "active" then
      filter (fun c => Bool.eqb (Client.is_active c) true) query
    else if String.eqb status_filter "inactive" then
      filter (fun c => Bool.eqb (Client.is_active c) false) query
    else query in
  offset_limit skip limit query.

(** The subquery of [auto_inactivate_clients]: the client ids having an
    attendance on or after the cutoff date. *)
Definition recent_client_ids (st : Store) (cutoff_date : Calendar.datetime) : list Z :=
  map Attendance.client_id
      (filter (fun a => Calendar.date_of (Attendance.appointment_date a)
                        >=? Calendar.date_of cutoff_date)
              (attendances st)).

(** The filter of [clients_to_inactivate]. *)
Definition to_inactivate (st : Store) (cutoff_date : Calendar.datetime)
    (c : Client.t) : bool :=
  Bool.eqb (Client.is_active c) true
  && negb (existsb (Z.eqb (Client.id c)) (recent_client_ids st cutoff_date)).

(** [for client in clients_to_inactivate: ...]. The objects of the query
    result are the rows of the session, so the loop walks the table and
    changes the selected rows in place; [tick] counts the readings of
    [datetime.utcnow()] made so far. *)
Fixpoint inactivate_loop (utcnow : nat -> Calendar.datetime)
    (selected : Client.t -> bool) (rows : list Client.t) (count : Z) (tick : nat)
    : list Client.t * Z * nat :=
  match rows with
  | [] => ([], count, tick)
  | client :: rest =>
      if selected client then
        let client' :=
          {| Client.id := Client.id client;
             Client.name := Client.name client;
             Client.cpf := Client.cpf client;
             Client.phone := Client.phone client;
             Client.email := Client.email client;
             Client.created_at := Client.created_at client;
             Client.updated_at := utcnow tick;
             Client.is_active := false |} in
        let '(rest', count', tick') :=
          inactivate_loop utcnow selected rest (count + 1) (S tick) in
        (client' :: rest', count', tick')
      else
        let '(rest', count', tick') :=
          inactivate_loop utcnow selected rest count tick in
        (client :: rest', count', tick')
  end.

(** [utcnow k] is the [k]-th reading of [datetime.utcnow()] during the call. *)
Definition auto_inactivate_clients (utcnow : nat -> Calendar.datetime)
    (db : Session) (days_inactive : Z) : Session * result Z :=
  match Calendar.datetime_sub_days (utcnow 0%nat) days_inactive with
  | Raise e => (db, Raise e)
  | Ok cutoff_date =>
      let st := working db in
      let '(clients', count, _) :=
        inactivate_loop utcnow (to_inactivate st cutoff_date) (clients st) 0 1 in
      let db := {| committed := committed db;
                   working := {| clients := clients';
                                 services := services st;
                                 attendances := attendances st;
                                 attendance_services := attendance_services st |} |} in
      (commit db, Ok count)
  end.

(** ** services/attendance_service.py: the attendance lifecycle *)

Definition set_client_active (now : Calendar.datetime) (client : Client.t) : Client.t :=
  {| Client.id := Client.id client;
     Client.name := Client.name client;
     Client.cpf := Client.cpf client;
     Client.phone := Client.phone client;
     Client.email := Client.email client;
     Client.created_at := Client.created_at client;
     Client.updated_at := now;
     Client.is_active := true |}.

Definition with_clients (st : Store) (cs : list Client.t) : Store :=
  {| clients := cs; services := services st; attendances := attendances st;
     attendance_services := attendance_services st |}.

Definition with_attendances (st : Store) (l : list Attendance.t) : Store :=
  {| clients := clients st; services := services st; attendances := l;
     attendance_services := attendance_services st |}.

(** [db.add(db_attendance)] with [db_attendance.services = services]. *)
Definition add_attendance (st : Store) (a : Attendance.t) (svcs : list Service.t) : Store :=
  {| clients := clients st; services := services st;
     attendances := attendances st ++ [a];
     attendance_services :=
       attendance_services st ++ map (fun s => (Attendance.id a, Service.id s)) svcs |}.

(** [now] is the reading of [get_recife_datetime()], [utcnow] the column
    default of [created_at] and [updated_at] at insertion. *)
Definition create_attendance (now utcnow : Calendar.datetime) (db : Session)
    (attendance : AttendanceCreate) : Session * result Attendance.t :=
  match first (fun c => Client.id c =? ac_client_id attendance) (clients (working db)) with
  | None => (db, Raise (HTTPException HTTP_404_NOT_FOUND "Cliente não encontrado"))
  | Some client =>
      let db :=
        if negb (Client.is_active client) then
          commit {| committed := committed db;
                    working := with_clients (working db)
                      (update_first (fun c => Client.id c =? ac_client_id attendance)
                                    (set_client_active now) (clients (working db))) |}
        else db in
      let services_ :=
        filter (fun s => existsb (Z.eqb (Service.id s)) (ac_service_ids attendance)
                         && Bool.eqb (Service.is_active s) true)
               (services (working db)) in
      if match services_ with [] => true | _ => false end
         || negb (List.length services_ =? List.length (ac_service_ids attendance))%nat
      then (db, Raise (HTTPException HTTP_400_BAD_REQUEST
                         "Um ou mais serviços inválidos/inativos"))
      else
        let db_attendance :=
          {| Attendance.id := next_id (map Attendance.id (attendances (working db)));
             Attendance.client_id := ac_client_id attendance;
             Attendance.service_id := None;
             Attendance.appointment_date := ac_appointment_date attendance;
             Attendance.status := "waiting";
             Attendance.payment_method := ac_payment_method attendance;
             Attendance.payment_status := "pending";
             Attendance.notes := ac_notes attendance;
             Attendance.created_at := utcnow;
             Attendance.updated_at := utcnow |} in
        let db := commit {| committed := committed db;
                            working := add_attendance (working db) db_attendance services_ |} in
        (db, Ok db_attendance)
  end.

(** The request [POST /attendance/]: a session is opened on the database,
    the service runs, and the session is closed. *)
Definition post_attendance (now utcnow : Calendar.datetime) (st : Store)
    (attendance : AttendanceCreate) : Store * result Attendance.t :=
  let '(db, r) := create_attendance now utcnow (open_session st) attendance in
  (close db, r).

Definition get_attendance (db : Session) (attendance_id : Z) : result Attendance.t :=
  match first (fun a => Attendance.id a =? attendance_id) (attendances (working db)) with
  | None => Raise (HTTPException HTTP_404_NOT_FOUND "Atendimento não encontrado")
  | Some attendance => Ok attendance
  end.

Definition set_status (v : string) (a : Attendance.t) : Attendance.t :=
  {| Attendance.id := Attendance.id a; Attendance.client_id := Attendance.client_id a;
     Attendance.service_id := Attendance.service_id a;
     Attendance.appointment_date := Attendance.appointment_date a;
     Attendance.status := v;
     Attendance.payment_method := Attendance.payment_method a;
     Attendance.payment_status := Attendance.payment_status a;
     Attendance.notes := Attendance.notes a;
     Attendance.created_at := Attendance.created_at a;
     Attendance.updated_at := Attendance.updated_at a |}.

Definition set_payment_method (v : option string) (a : Attendance.t) : Attendance.t :=
  {| Attendance.id := Attendance.id a; Attendance.client_id := Attendance.client_id a;
     Attendance.service_id := Attendance.service_id a;
     Attendance.appointment_date := Attendance.appointment_date a;
     Attendance.status := Attendance.status a;
     Attendance.payment_method := v;
     Attendance.payment_status := Attendance.payment_status a;
     Attendance.notes := Attendance.notes a;
     Attendance.created_at := Attendance.created_at a;
     Attendance.updated_at := Attendance.updated_at a |}.

Definition set_payment_status (v : string) (a : Attendance.t) : Attendance.t :=
  {| Attendance.id := Attendance.id a; Attendance.client_id := Attendance.client_id a;
     Attendance.service_id := Attendance.service_id a;
     Attendance.appointment_date := Attendance.appointment_date a;
     Attendance.status := Attendance.status a;
     Attendance.payment_method := Attendance.payment_method a;
     Attendance.payment_status := v;
     Attendance.notes := Attendance.notes a;
     Attendance.created_at := Attendance.created_at a;
     Attendance.updated_at := Attendance.updated_at a |}.

Definition set_notes (v : option string) (a : Attendance.t) : Attendance.t :=
  {| Attendance.id := Attendance.id a; Attendance.client_id := Attendance.client_id a;
     Attendance.service_id := Attendance.service_id a;
     Attendance.appointment_date := Attendance.appointment_date a;
     Attendance.status := Attendance.status a;
     Attendance.payment_method := Attendance.payment_method a;
     Attendance.payment_status := Attendance.payment_status a;
     Attendance.notes := v;
     Attendance.created_at := Attendance.created_at a;
     Attendance.updated_at := Attendance.updated_at a |}.

Definition set_updated_at (v : Calendar.datetime) (a : Attendance.t) : Attendance.t :=
  {| Attendance.id := Attendance.id a; Attendance.client_id := Attendance.client_id a;
     Attendance.service_id := Attendance.service_id a;
     Attendance.appointment_date := Attendance.appointment_date a;
     Attendance.status := Attendance.status a;
     Attendance.payment_method := Attendance.payment_method a;
     Attendance.payment_status := Attendance.payment_status a;
     Attendance.notes := Attendance.notes a;
     Attendance.created_at := Attendance.created_at a;
     Attendance.updated_at := v |}.

(** The assignments of [update_attendance] on the object found, in the
    order of the source. *)
Definition apply_update (now : Calendar.datetime) (update_data : AttendanceUpdate)
    (db_attendance : Attendance.t) : Attendance.t :=
  let new_status := dict_get (au_status update_data) in
  let db_attendance :=
    match new_status with
    | Some v =>
        if PyStr.truthy v then
          let db_attendance := set_status v db_attendance in
          if String.eqb v "finished" then set_payment_status "paid" db_attendance
          else db_attendance
        else db_attendance
    | None => db_attendance
    end in
  let db_attendance :=
    match au_payment_method update_data with
    | Sent (Some v) => set_payment_method (Some v) db_attendance
    | _ => db_attendance
    end in
  let db_attendance :=
    match au_payment_status update_data with
    | Sent (Some v) => set_payment_status v db_attendance
    | _ => db_attendance
    end in
  let db_attendance :=
    match au_notes update_data with
    | Sent v => set_notes v db_attendance
    | Unset => db_attendance
    end in
  set_updated_at now db_attendance.

(** [now] is the reading of [get_recife_datetime()]. *)
Definition update_attendance (now : Calendar.datetime) (db : Session)
    (attendance_id : Z) (attendance_update : AttendanceUpdate)
    : Session * result Attendance.t :=
  match get_attendance db attendance_id with
  | Raise e => (db, Raise e)
  | Ok db_attendance =>
      let db_attendance' := apply_update now attendance_update db_attendance in
      let db := commit {| committed := committed db;
                          working := with_attendances (working db)
                            (update_first (fun a => Attendance.id a =? attendance_id)
                                          (fun _ => db_attendance')
                                          (attendances (working db))) |} in
      (db, Ok db_attendance')
  end.

(** ** services/attendance_service.py: reporting *)

(** One row of [get_top_clients]. *)
Record TopClient : Type := mkTopClient {
  tc_id : Z;
  tc_name : string;
  tc_phone : string;
  totalVisits : Z;
  totalRevenue : Q;
  lastVisit : option Calendar.datetime;
  tc_status : string
}.

(** The joined rows of the query of [get_top_clients]:
    [Client JOIN Attendance ON Client.id == Attendance.client_id
     JOIN Attendance.services], filtered on [payment_status == "paid"]. *)
Definition top_clients_rows (st : Store) : list (Client.t * Attendance.t * Service.t) :=
  filter (fun row => String.eqb (Attendance.payment_status (snd (fst row))) "paid")
    (flat_map (fun c =>
       map (fun r => (c, fst r, snd r))
           (filter (fun r => Client.id c =? Attendance.client_id (fst r))
                   (attendance_service_rows st)))
       (clients st)).

Definition group_key : Type := Z * string * string.

Definition group_key_eqb (a b : group_key) : bool :=
  (fst (fst a) =? fst (fst b)) && String.eqb (snd (fst a)) (snd (fst b))
  && String.eqb (snd a) (snd b).

(** [GROUP BY]: the groups in order of first appearance, each with its rows. *)
Fixpoint insert_group {A : Type} (k : group_key) (r : A)
    (groups : list (group_key * list A)) : list (group_key * list A) :=
  match groups with
  | [] => [(k, [r])]
  | (k', rs) :: rest =>
      if group_key_eqb k k' then (k', rs ++ [r]) :: rest
      else (k', rs) :: insert_group k r rest
  end.

Definition group_by {A : Type} (key : A -> group_key) (rows : list A)
    : list (group_key * list A) :=
  fold_left (fun groups r => insert_group (key r) r groups) rows [].

(** The groups built from the rows seen so far: distinct keys, each group
    holding the rows of its key in order, and no key missing. *)
Definition grouped {A : Type} (key : A -> group_key) (seen : list A)
    (groups : list (group_key * list A)) : Prop :=
  NoDup (map fst groups)
  /\ (forall k rs, In (k, rs) groups ->
                   rs = filter (fun r => group_key_eqb (key r) k) seen)
  /\ (forall r, In r seen -> In (key r) (map fst groups)).

(** The aggregated row of one group:
    [count(Attendance.id)], [sum(Service.price)], [max(appointment_date)]. *)
Definition aggregate (g : group_key * list (Client.t * Attendance.t * Service.t))
    : group_key * Z * option Q * option Calendar.datetime :=
  (fst g,
   Z.of_nat (List.length (map (fun row => Attendance.id (snd (fst row))) (snd g))),
   func_sum (map (fun row => Service.price (snd row)) (snd g)),
   func_max (map (fun row => Attendance.appointment_date (snd (fst row))) (snd g))).

(** [ORDER BY attendance_count DESC]: a stable insertion sort. *)
Fixpoint insert_desc {A : Type} (count : A -> Z) (x : A) (l : list A) : list A :=
  match l with
  | [] => [x]
  | y :: rest => if count x <? count y then y :: insert_desc count x rest
                 else x :: y :: rest
  end.

Definition order_by_desc {A : Type} (count : A -> Z) (l : list A) : list A :=
  fold_right (insert_desc count) [] l.

(** The columns of [group_by(Client.id, Client.name, Client.phone)]. *)
Definition top_clients_key (row : Client.t * Attendance.t * Service.t) : group_key :=
  (Client.id (fst (fst row)), Client.name (fst (fst row)), Client.phone (fst (fst row))).

(** The rows the query of [get_top_clients] returns. *)
Definition top_clients_result (st : Store)
    : list (group_key * Z * option Q * option Calendar.datetime) :=
  firstn 10
    (order_by_desc (fun row => snd (fst (fst row)))
       (map aggregate (group_by top_clients_key (top_clients_rows st)))).

Definition get_top_clients (db : Session) : list TopClient :=
  let result_ := top_clients_result (working db) in
  map (fun row =>
         let '(key, attendance_count, total_spent, last_visit) := row in
         {| tc_id := fst (fst key);
            tc_name := snd (fst key);
            tc_phone := snd key;
            totalVisits := attendance_count;
            totalRevenue := scalar_or_zero total_spent;
            lastVisit := last_visit;
            tc_status := "active" |})
      result_.

(** What the report is documented to count: the paid attendances of a
    client, each once. *)
Definition spec_paid_attendances (st : Store) (client_id : Z) : list Attendance.t :=
  filter (fun a => (Attendance.client_id a =? client_id)
                   && String.eqb (Attendance.payment_status a) "paid")
         (attendances st).

Definition in_range (start_date end_date : Calendar.date) (a : Attendance.t) : bool :=
  (Calendar.date_of (Attendance.appointment_date a) >=? start_date)
  && (Calendar.date_of (Attendance.appointment_date a) <=? end_date).

(** Paid revenue of the attendances dated within [start_date .. end_date]. *)
Definition revenue_between (st : Store) (start_date end_date : Calendar.date) : Q :=
  scalar_or_zero
    (func_sum
       (map (fun r => Service.price (snd r))
            (filter (fun r => String.eqb (Attendance.payment_status (fst r)) "paid"
                              && in_range start_date end_date (fst r))
                    (attendance_service_rows st)))).

Record Metrics : Type := mkMetrics {
  m_totalClients : Z;
  m_activeClientsInPeriod : Z;
  m_totalAttendances : Z;
  m_totalRevenue : Q;
  m_averageTicket : Q
}.

Definition _get_metrics_for_period (db : Session) (start_date end_date : Calendar.date)
    : Metrics :=
  let st := working db in
  let total_clients :=
    Z.of_nat (List.length (filter (fun c => Bool.eqb (Client.is_active c) true) (clients st))) in
  let clients_in_period :=
    Z.of_nat (List.length
      (nodup Z.eq_dec
         (map Attendance.client_id (filter (in_range start_date end_date) (attendances st))))) in
  let attendances_in_period :=
    Z.of_nat (List.length (filter (in_range start_date end_date) (attendances st))) in
  let revenue_in_period := revenue_between st start_date end_date in
  let average_ticket :=
    if attendances_in_period >? 0
    then (revenue_in_period / inject_Z attendances_in_period)%Q else 0%Q in
  {| m_totalClients := total_clients;
     m_activeClientsInPeriod := clients_in_period;
     m_totalAttendances := attendances_in_period;
     m_totalRevenue := revenue_in_period;
     m_averageTicket := average_ticket |}.

Definition calculate_percentage (current_val previous_val : Q) : Q :=
  if Qeq_bool previous_val 0 then
    (if Qle_bool current_val 0 then 0%Q else 100%Q)
  else (((current_val - previous_val) / previous_val) * 100)%Q.

Record Growth : Type := mkGrowth {
  revenueGrowth : Q;
  clientsGrowth : Q;
  attendancesGrowth : Q;
  averageTicketGrowth : Q
}.

Definition _calculate_growth_percentages (current previous : Metrics) : Growth :=
  {| revenueGrowth := calculate_percentage (m_totalRevenue current) (m_totalRevenue previous);
     clientsGrowth := calculate_percentage (inject_Z (m_activeClientsInPeriod current))
                                           (inject_Z (m_activeClientsInPeriod previous));
     attendancesGrowth := calculate_percentage (inject_Z (m_totalAttendances current))
                                               (inject_Z (m_totalAttendances previous));
     averageTicketGrowth := calculate_percentage (m_averageTicket current)
                                                 (m_averageTicket previous) |}.

(** [d.replace(year=y, month=m, day=1)] *)
Definition first_of_month (y m : Z) : result Calendar.date := Calendar.mkdate y m 1.

(** [start_date and end_date] on two optional query parameters. *)
Definition both_given (start_date end_date : option string) : option (string * string) :=
  match start_date, end_date with
  | Some s, Some e => if PyStr.truthy s && PyStr.truthy e then Some (s, e) else None
  | _, _ => None
  end.

Record PeriodSummary : Type := mkPeriodSummary {
  ps_metrics : Metrics;
  ps_growthPercentages : Growth;
  ps_current : Calendar.date * Calendar.date;
  ps_previous : Calendar.date * Calendar.date
}.

Record DataPoint : Type := mkDataPoint {
  dp_date : string;
  dp_revenue : Q;
  dp_label : string
}.

(** What running a loop with a bounded number of iterations gives: the
    value returned, the exception raised, or neither within the bound. *)
Inductive outcome (A : Type) : Type :=
| Returned (a : A)
| Raised (e : exn)
| OutOfFuel.
Arguments Returned {A} a.
Arguments Raised {A} e.
Arguments OutOfFuel {A}.

Section Reports.

(** [datetime.strptime(s, '%Y-%m-%d').date()], [ValueError] on a malformed
    string; [d.strftime(format)]; [d.isoformat()]. *)
Variable strptime_date : string -> result Calendar.date.
Variable strftime : Calendar.date -> string -> string.
Variable isoformat : Calendar.date -> string.

(** Lines 260-288 of [get_reports_summary_by_period]: the current period. *)
Definition current_period (today : Calendar.date) (period : string)
    (start_date end_date : option string) : result (Calendar.date * Calendar.date) :=
  match both_given start_date end_date with
  | Some (s, e) =>
      let* current_start := strptime_date s in
      let* current_end := strptime_date e in
      Ok (current_start, current_end)
  | None =>
      if String.eqb period "day" then Ok (today, today)
      else if String.eqb period "week" then
        let* current_start := Calendar.sub_days today (Calendar.weekday today) in
        let* current_end := Calendar.add_days current_start 6 in
        Ok (current_start, current_end)
      else if String.eqb period "month" then
        let* current_start := first_of_month (Calendar.year today) (Calendar.month today) in
        let* next :=
          if Calendar.month today =? 12
          then first_of_month (Calendar.year today + 1) 1
          else first_of_month (Calendar.year today) (Calendar.month today + 1) in
        let* current_end := Calendar.sub_days next 1 in
        Ok (current_start, current_end)
      else if String.eqb period "quarter" then
        let quarter_start_month := ((Calendar.month today - 1) / 3) * 3 + 1 in
        let* current_start := first_of_month (Calendar.year today) quarter_start_month in
        let* next :=
          if quarter_start_month =? 10
          then first_of_month (Calendar.year today + 1) 1
          else first_of_month (Calendar.year today) (quarter_start_month + 3) in
        let* current_end := Calendar.sub_days next 1 in
        Ok (current_start, current_end)
      else if String.eqb period "year" then
        let* current_start := first_of_month (Calendar.year today) 1 in
        let* next := first_of_month (Calendar.year today + 1) 1 in
        let* current_end := Calendar.sub_days next 1 in
        Ok (current_start, current_end)
      else Ok (today, today)
  end.

(** Lines 290-293: the previous period. *)
Definition previous_period (current_start current_end : Calendar.date)
    : result (Calendar.date * Calendar.date) :=
  let days_diff := Calendar.days_between current_end current_start + 1 in
  let* previous_start := Calendar.sub_days current_start days_diff in
  let* previous_end := Calendar.sub_days current_start 1 in
  Ok (previous_start, previous_end).

Definition get_reports_summary_by_period (today : Calendar.date) (db : Session)
    (period : string) (start_date end_date : option string) : result PeriodSummary :=
  let* (current_start, current_end) := current_period today period start_date end_date in
  let* (previous_start, previous_end) := previous_period current_start current_end in
  let current_metrics := _get_metrics_for_period db current_start current_end in
  let previous_metrics := _get_metrics_for_period db previous_start previous_end in
  let growth_percentages := _calculate_growth_percentages current_metrics previous_metrics in
  Ok {| ps_metrics := current_metrics;
        ps_growthPercentages := growth_percentages;
        ps_current := (current_start, current_end);
        ps_previous := (previous_start, previous_end) |}.

(** Paid revenue of the attendances dated [d]. *)
Definition revenue_on (st : Store) (d : Calendar.date) : Q :=
  scalar_or_zero
    (func_sum
       (map (fun r => Service.price (snd r))
            (filter (fun r => String.eqb (Attendance.payment_status (fst r)) "paid"
                              && (Calendar.date_of (Attendance.appointment_date (fst r)) =? d))
                    (attendance_service_rows st)))).

(** Lines 400-423 of [get_revenue_by_period]: the range of the series. *)
Definition series_range (today : Calendar.date) (period : string)
    (start_date end_date : option string) : result (Calendar.date * Calendar.date) :=
  match both_given start_date end_date with
  | Some (s, e) =>
      let* start := strptime_date s in
      let* end_ := strptime_date e in
      Ok (start, end_)
  | None =>
      if String.eqb period "day" then
        let* start := Calendar.sub_days today 30 in Ok (start, today)
      else if String.eqb period "week" then
        let* start := Calendar.sub_days today (12 * 7) in Ok (start, today)
      else if String.eqb period "month" then
        let* first_ := first_of_month (Calendar.year today) (Calendar.month today) in
        let* start := Calendar.sub_days first_ 365 in Ok (start, today)
      else if String.eqb period "quarter" then
        let* start := Calendar.sub_days today (4 * 90) in Ok (start, today)
      else if String.eqb period "year" then
        let* first_ := first_of_month (Calendar.year today) 1 in
        let* start := Calendar.sub_days first_ (365 * 3) in Ok (start, today)
      else
        let* start := Calendar.sub_days today 30 in Ok (start, today)
  end.

(** One pass through the body of the [while] loop (lines 430-532): the
    data points appended and the new value of [current]. The chain of
    [if]/[elif] has no final [else]. *)
Definition series_body (st : Store) (period : string) (end_ current : Calendar.date)
    : result (list DataPoint * Calendar.date) :=
  if String.eqb period "day" then
    let revenue := revenue_on st current in
    let point := {| dp_date := isoformat current; dp_revenue := revenue;
                    dp_label := strftime current "%d/%m" |} in
    let* current' := Calendar.add_days current 1 in
    Ok ([point], current')
  else if String.eqb period "week" then
    let* plus6 := Calendar.add_days current 6 in
    let week_end := Z.min plus6 end_ in
    let revenue := revenue_between st current week_end in
    let point := {| dp_date := isoformat current; dp_revenue := revenue;
                    dp_label := ("Sem " ++ strftime current "%U")%string |} in
    let* current' := Calendar.add_days current 7 in
    Ok ([point], current')
  else if String.eqb period "month" then
    let* next :=
      if Calendar.month current =? 12
      then first_of_month (Calendar.year current + 1) 1
      else first_of_month (Calendar.year current) (Calendar.month current + 1) in
    let* month_end := Calendar.sub_days next 1 in
    let revenue := revenue_between st current month_end in
    let point := {| dp_date := isoformat current; dp_revenue := revenue;
                    dp_label := strftime current "%b/%Y" |} in
    let* current' :=
      if Calendar.month current =? 12
      then first_of_month (Calendar.year current + 1) 1
      else first_of_month (Calendar.year current) (Calendar.month current + 1) in
    Ok ([point], current')
  else if String.eqb period "quarter" then
    let quarter_end_month := ((Calendar.month current - 1) / 3) * 3 + 3 in
    let* first_ :=
      if quarter_end_month >? 12
      then first_of_month (Calendar.year current + 1) (quarter_end_month - 12)
      else first_of_month (Calendar.year current) quarter_end_month in
    let* quarter_end := Calendar.sub_days first_ 1 in
    let revenue := revenue_between st current quarter_end in
    let point := {| dp_date := isoformat current; dp_revenue := revenue;
                    dp_label := ("T" ++ PyStr.str ((Calendar.month current - 1) / 3 + 1)
                                 ++ "/" ++ PyStr.str (Calendar.year current))%string |} in
    let* current' := Calendar.add_days quarter_end 1 in
    Ok ([point], current')
  else if String.eqb period "year" then
    let* year_end := Calendar.mkdate (Calendar.year current) 12 31 in
    let revenue := revenue_between st current year_end in
    let point := {| dp_date := isoformat current; dp_revenue := revenue;
                    dp_label := PyStr.str (Calendar.year current) |} in
    let* current' := first_of_month (Calendar.year current + 1) 1 in
    Ok ([point], current')
  else Ok ([], current).

(** [while current <= end: ...], run for at most [fuel] tests of the
    condition. *)
Fixpoint series_loop (fuel : nat) (st : Store) (period : string)
    (end_ current : Calendar.date) (data_points : list DataPoint)
    : outcome (list DataPoint) :=
  match fuel with
  | O => OutOfFuel
  | S fuel' =>
      if current <=? end_ then
        match series_body st period end_ current with
        | Raise e => Raised e
        | Ok (points, current') =>
            series_loop fuel' st period end_ current' (data_points ++ points)
        end
      else Returned data_points
  end.

Definition get_revenue_by_period (fuel : nat) (today : Calendar.date) (db : Session)
    (period : string) (start_date end_date : option string)
    : outcome (list DataPoint) :=
  match series_range today period start_date end_date with
  | Raise e => Raised e
  | Ok (start, end_) => series_loop fuel (working db) period end_ start []
  end.

(** The series the fallback is documented to give: one point per day from
    30 days before [today] up to [today]. *)
Definition spec_daily_series (today : Calendar.date) (db : Session) : list DataPoint :=
  map (fun k =>
         let d := today - 30 + Z.of_nat k in
         {| dp_date := isoformat d; dp_revenue := revenue_on (working db) d;
            dp_label := strftime d "%d/%m" |})
      (seq 0 31).

End Reports.

(** ** Statements of the specification that are compared with the code *)

(** "update(status = finished) always yields paymentStatus = paid, regardless
    of prior value or any simultaneously supplied paymentStatus". *)
Definition spec_finished_forces_paid : Prop :=
  forall (now : Calendar.datetime) (db : Session) (attendance_id : Z)
         (upd : AttendanceUpdate) (a : Attendance.t),
    get_attendance db attendance_id = Ok a ->
    dict_get (au_status upd) = Some "finished" ->
    exists db' a',
      update_attendance now db attendance_id upd = (db', Ok a')
      /\ Attendance.payment_status a' = "paid".

(** "a failure partway rolls back the whole operation". *)
Definition spec_create_atomic : Prop :=
  forall (now utcnow : Calendar.datetime) (st : Store) (attendance : AttendanceCreate)
         (st' : Store) (e : exn),
    post_attendance now utcnow st attendance = (st', Raise e) ->
    st' = st.

(** "fields absent are untouched; explicit paymentStatus, paymentMethod and
    notes values are applied when present and non-null; updatedAt is always
    bumped to now". *)
Definition spec_update_frame : Prop :=
  forall (now : Calendar.datetime) (upd : AttendanceUpdate) (a : Attendance.t),
    let a' := apply_update now upd a in
    (au_status upd = Unset -> Attendance.status a' = Attendance.status a)
    /\ (au_payment_method upd = Unset \/ au_payment_method upd = Sent None ->
        Attendance.payment_method a' = Attendance.payment_method a)
    /\ (au_payment_status upd = Unset \/ au_payment_status upd = Sent None ->
        Attendance.payment_status a' = Attendance.payment_status a)
    /\ (au_notes upd = Unset \/ au_notes upd = Sent None ->
        Attendance.notes a' = Attendance.notes a)
    /\ (forall v, au_payment_method upd = Sent (Some v) ->
                  Attendance.payment_method a' = Some v)
    /\ (forall v, au_payment_status upd = Sent (Some v) ->
                  Attendance.payment_status a' = v)
    /\ (forall v, au_notes upd = Sent (Some v) -> Attendance.notes a' = Some v)
    /\ Attendance.updated_at a' = now.

(** The active services a list of requested ids resolves to. *)
Definition spec_resolved_active (st : Store) (service_ids : list Z) : list Service.t :=
  filter (fun s => Service.is_active s && existsb (Z.eqb (Service.id s)) service_ids)
         (services st).

(** A client is stale at a cutoff date when it is active and none of its
    attendances is dated on or after the cutoff date. *)
Definition spec_stale (st : Store) (cutoff : Calendar.date) (c : Client.t) : Prop :=
  Client.is_active c = true
  /\ forall a, In a (attendances st) ->
               Attendance.client_id a = Client.id c ->
               Calendar.date_of (Attendance.appointment_date a) < cutoff.

(** An inactivated copy of a client row: only [is_active] and [updated_at]
    differ, and [updated_at] is a reading of the clock made during the call. *)
Definition inactivated_from (utcnow : nat -> Calendar.datetime) (c c' : Client.t) : Prop :=
  Client.is_active c' = false
  /\ (exists k, (1 <= k)%nat /\ Client.updated_at c' = utcnow k)
  /\ Client.id c' = Client.id c
  /\ Client.name c' = Client.name c
  /\ Client.cpf c' = Client.cpf c
  /\ Client.phone c' = Client.phone c
  /\ Client.email c' = Client.email c
  /\ Client.created_at c' = Client.created_at c.

(** *** The inactivation rule with the dates of the specification

    The specification takes its dates from the Time Provider: the local
    date of an instant is its date at the fixed offset of three hours
    behind UTC. *)
Definition to_local_date (instant : Calendar.datetime) : Calendar.date :=
  Calendar.date_of (instant - 3 * 3600 * 1000000).

(** A client to inactivate as the specification words it: active, with no
    attendance whose local date is on or after the local date of
    [now - days_inactive] days. [appointment_local_date] reads the local
    date of a stored appointment timestamp. *)
Definition spec_stale_local (appointment_local_date : Calendar.datetime -> Calendar.date)
    (st : Store) (now : Calendar.datetime) (days_inactive : Z) (c : Client.t) : Prop :=
  Client.is_active c = true
  /\ forall a, In a (attendances st) ->
               Attendance.client_id a = Client.id c ->
               appointment_local_date (Attendance.appointment_date a)
               < to_local_date (now - days_inactive * Calendar.usec_per_day).

(** The claim on [auto_inactivate_clients] with those dates. *)
Definition spec_auto_inactivate_local
    (appointment_local_date : Calendar.datetime -> Calendar.date) : Prop :=
  forall (utcnow : nat -> Calendar.datetime) (db db' : Session) (days_inactive count : Z),
    auto_inactivate_clients utcnow db days_inactive = (db', Ok count) ->
    let stale := spec_stale_local appointment_local_date (working db) (utcnow 0%nat)
                   days_inactive in
    Forall2 (fun c c' => (stale c -> inactivated_from utcnow c c')
                         /\ (~ stale c -> c' = c))
            (clients (working db)) (clients (committed db'))
    /\ (exists selected : Client.t -> bool,
          (forall c, selected c = true <-> stale c)
          /\ count = Z.of_nat (List.length (filter selected (clients (working db))))).

(** ** Sample data *)

Module Sample.

(** 2025-03-10T12:00:00 *)
Definition noon_2025_03_10 : Calendar.datetime :=
  (Calendar._ymd2ord 2025 3 10 - 1) * Calendar.usec_per_day + 43200000000.

Definition ana : Client.t :=
  {| Client.id := 1; Client.name := "Ana"; Client.cpf := "52998224725";
     Client.phone := "11988887777"; Client.email := None;
     Client.created_at := 0; Client.updated_at := 0; Client.is_active := true |}.

Definition bruno_inactive : Client.t :=
  {| Client.id := 2; Client.name := "Bruno"; Client.cpf := "11144477735";
     Client.phone := "1133334444"; Client.email := None;
     Client.created_at := 0; Client.updated_at := 0; Client.is_active := false |}.

Definition corte : Service.t :=
  {| Service.id := 1; Service.name := "Corte"; Service.description := None;
     Service.price := 30; Service.duration_minutes := 30;
     Service.is_active := true; Service.created_at := 0 |}.

Definition barba : Service.t :=
  {| Service.id := 2; Service.name := "Barba"; Service.description := None;
     Service.price := 20; Service.duration_minutes := 30;
     Service.is_active := true; Service.created_at := 0 |}.

Definition sobrancelha_inactive : Service.t :=
  {| Service.id := 3; Service.name := "Sobrancelha"; Service.description := None;
     Service.price := 15; Service.duration_minutes := 15;
     Service.is_active := false; Service.created_at := 0 |}.

(** An attendance of Ana, with the services Corte and Barba. *)
Definition visit (status payment_status : string) : Attendance.t :=
  {| Attendance.id := 1; Attendance.client_id := 1; Attendance.service_id := None;
     Attendance.appointment_date := noon_2025_03_10;
     Attendance.status := status; Attendance.payment_method := Some "pix";
     Attendance.payment_status := payment_status; Attendance.notes := Some "sem pressa";
     Attendance.created_at := 0; Attendance.updated_at := 0 |}.

Definition store (status payment_status : string) : Store :=
  {| clients := [ana; bruno_inactive];
     services := [corte; barba; sobrancelha_inactive];
     attendances := [visit status payment_status];
     attendance_services := [(1, 1); (1, 2)] |}.

Definition finish_and_keep_pending : AttendanceUpdate :=
  {| au_status := Sent (Some "finished"); au_payment_method := Unset;
     au_payment_status := Sent (Some "pending"); au_notes := Unset |}.

Definition clear_notes : AttendanceUpdate :=
  {| au_status := Unset; au_payment_method := Unset;
     au_payment_status := Unset; au_notes := Sent None |}.

Definition finish_only : AttendanceUpdate :=
  {| au_status := Sent (Some "finished"); au_payment_method := Unset;
     au_payment_status := Unset; au_notes := Unset |}.

(** A booking for Bruno (inactive) asking for an inactive service. *)
Definition booking_bruno_bad_service : AttendanceCreate :=
  {| ac_client_id := 2; ac_appointment_date := noon_2025_03_10;
     ac_payment_method := None; ac_notes := None; ac_service_ids := [3] |}.

Definition booking_ana (service_ids : list Z) : AttendanceCreate :=
  {| ac_client_id := 1; ac_appointment_date := noon_2025_03_10;
     ac_payment_method := None; ac_notes := None; ac_service_ids := service_ids |}.

End Sample.

(** The granularities the reports know. *)
Definition recognised (period : string) : Prop :=
  period = "day" \/ period = "week" \/ period = "month" \/ period = "quarter"
  \/ period = "year".

(** The ordinals [date] can hold. *)
Definition representable (d : Z) : Prop := 1 <= d <= Calendar._MAXORDINAL.

Module Sample45.

(** The clock of a call made on 2025-03-10 at noon. *)
Definition utcnow (k : nat) : Calendar.datetime :=
  Sample.noon_2025_03_10 + Z.of_nat k.

Definition days_ago (n : Z) : Calendar.datetime :=
  Sample.noon_2025_03_10 - n * Calendar.usec_per_day.

Definition client (id : Z) (name : string) : Client.t :=
  {| Client.id := id; Client.name := name; Client.cpf := ""; Client.phone := "";
     Client.email := None; Client.created_at := 0; Client.updated_at := 0;
     Client.is_active := true |}.

Definition attendance (id client_id : Z) (appointment_date : Calendar.datetime)
    : Attendance.t :=
  {| Attendance.id := id; Attendance.client_id := client_id;
     Attendance.service_id := None; Attendance.appointment_date := appointment_date;
     Attendance.status := "finished"; Attendance.payment_method := None;
     Attendance.payment_status := "paid"; Attendance.notes := None;
     Attendance.created_at := 0; Attendance.updated_at := 0 |}.

(** Carla came 50 days ago, Davi 10 days ago, Eva never. *)
Definition store : Store :=
  {| clients := [client 1 "Carla"; client 2 "Davi"; client 3 "Eva"];
     services := [];
     attendances := [attendance 1 1 (days_ago 50); attendance 2 2 (days_ago 10)];
     attendance_services := [] |}.

(** A call made on 2025-03-11 at 01:00 UTC, which is 2025-03-10 at 22:00
    local time. *)
Definition utcnow_night (k : nat) : Calendar.datetime :=
  (Calendar._ymd2ord 2025 3 11 - 1) * Calendar.usec_per_day + 3600000000 + Z.of_nat k.

(** Carla came on 2025-01-24 at noon, 45 days before the local date of the
    call. *)
Definition store_night : Store :=
  {| clients := [client 1 "Carla"];
     services := [];
     attendances :=
       [attendance 1 1 ((Calendar._ymd2ord 2025 1 24 - 1) * Calendar.usec_per_day
                        + 43200000000)];
     attendance_services := [] |}.

End Sample45.

(** ** Definitions for the rest of the services *)

(** A civil date the [date] constructor accepts. *)
Definition valid_ymd (y m d : Z) : Prop :=
  1 <= y <= 9999 /\ 1 <= m <= 12 /\ 1 <= d <= Calendar._days_in_month y m.

(** The months since year 0 of a date, and the day after the last day of
    its month. *)
Definition month_index (d : Calendar.date) : Z :=
  Calendar.year d * 12 + Calendar.month d.

Definition next_month_start (d : Calendar.date) : Calendar.date :=
  Calendar._ymd2ord (Calendar.year d) (Calendar.month d)
    (Calendar._days_in_month (Calendar.year d) (Calendar.month d)) + 1.

(** [current], then the first days of the [n - 1] months that follow. *)
Fixpoint month_starts (n : nat) (current : Calendar.date) : list Calendar.date :=
  match n with
  | O => []
  | S k => current :: month_starts k (next_month_start current)
  end.

(** The first day of the year after that of a date. *)
Definition next_year_start (d : Calendar.date) : Calendar.date :=
  Calendar._ymd2ord (Calendar.year d + 1) 1 1.

Fixpoint year_starts (n : nat) (current : Calendar.date) : list Calendar.date :=
  match n with
  | O => []
  | S k => current :: year_starts k (next_year_start current)
  end.

(** The first day of the last month of the quarter of a date. *)
Definition quarter_last_month_start (d : Calendar.date) : Calendar.date :=
  Calendar._ymd2ord (Calendar.year d) (((Calendar.month d - 1) / 3) * 3 + 3) 1.

(** The data point the series gives for the month that starts on [d]. *)
Definition month_point (strftime : Calendar.date -> string -> string)
    (isoformat : Calendar.date -> string) (st : Store) (d : Calendar.date) : DataPoint :=
  {| dp_date := isoformat d;
     dp_revenue := revenue_between st d (next_month_start d - 1);
     dp_label := strftime d "%b/%Y" |}.

(** The data point the series gives for the quarter of [d], from [d] on. *)
Definition quarter_point (isoformat : Calendar.date -> string) (st : Store)
    (d : Calendar.date) : DataPoint :=
  {| dp_date := isoformat d;
     dp_revenue := revenue_between st d (quarter_last_month_start d - 1);
     dp_label := ("T" ++ PyStr.str ((Calendar.month d - 1) / 3 + 1)
                  ++ "/" ++ PyStr.str (Calendar.year d))%string |}.

(** The data point the series gives for the year of [d], from [d] on. *)
Definition year_point (isoformat : Calendar.date -> string) (st : Store)
    (d : Calendar.date) : DataPoint :=
  {| dp_date := isoformat d;
     dp_revenue := revenue_between st d (Calendar._ymd2ord (Calendar.year d) 12 31);
     dp_label := PyStr.str (Calendar.year d) |}.

(** ** services/client_service.py: finding, inactivating and reactivating clients

    The WhatsApp greeting that [login_client] sends is outside the database,
    and its failure is caught by the service. *)

(** [schemas.ClientLogin]: the identifier as typed. *)
Record ClientLogin : Type := mkClientLogin {
  cl_identifier : list N
}.

(** The filter of [login_client]: active, with the identifier as CPF or as
    phone. *)
Definition login_match (identifier : string) (c : Client.t) : bool :=
  Bool.eqb (Client.is_active c) true
  && (String.eqb (Client.cpf c) identifier || String.eqb (Client.phone c) identifier).

Definition login_client (db : Session) (login_data : ClientLogin) : result Client.t :=
  let identifier := PyStr.to_string (_only_digits (cl_identifier login_data)) in
  match first (login_match identifier) (clients (working db)) with
  | None => Raise (HTTPException HTTP_404_NOT_FOUND "Cliente não encontrado")
  | Some client => Ok client
  end.

Definition get_client (db : Session) (client_id : Z) : result Client.t :=
  match first (fun c => Client.id c =? client_id) (clients (working db)) with
  | None => Raise (HTTPException HTTP_404_NOT_FOUND "Cliente não encontrado")
  | Some client => Ok client
  end.

Definition set_client_inactive (now : Calendar.datetime) (client : Client.t) : Client.t :=
  {| Client.id := Client.id client;
     Client.name := Client.name client;
     Client.cpf := Client.cpf client;
     Client.phone := Client.phone client;
     Client.email := Client.email client;
     Client.created_at := Client.created_at client;
     Client.updated_at := now;
     Client.is_active := false |}.

(** [utcnow] is the reading of [datetime.utcnow()]. *)
Definition inactivate_client (utcnow : Calendar.datetime) (db : Session) (client_id : Z)
    : Session * result unit :=
  match get_client db client_id with
  | Raise e => (db, Raise e)
  | Ok _ =>
      let db := commit {| committed := committed db;
                          working := with_clients (working db)
                            (update_first (fun c => Client.id c =? client_id)
                                          (set_client_inactive utcnow)
                                          (clients (working db))) |} in
      (db, Ok tt)
  end.

(** ** main.py: the route [POST /admin/clients/{client_id}/reactivate]

    [utcnow] is the reading of [datetime.utcnow()]; the result is the message
    of the dictionary the route answers. *)
Definition reactivate_client (utcnow : Calendar.datetime) (db : Session) (client_id : Z)
    : Session * result string :=
  match get_client db client_id with
  | Raise e => (db, Raise e)
  | Ok client =>
      if Client.is_active client then
        (db, Raise (HTTPException 400 "Cliente já está ativo"))
      else
        let db := commit {| committed := committed db;
                            working := with_clients (working db)
                              (update_first (fun c => Client.id c =? client_id)
                                            (set_client_active utcnow)
                                            (clients (working db))) |} in
        (db, Ok "Cliente reativado com sucesso")
  end.
(** ** Theorems *)

Example cpf_reference_accepted :
  _is_valid_cpf (PyStr.of_ascii "529.982.247-25") = Ok true.
Proof. vm_compute. reflexivity. Qed.

Example cpf_repeated_rejected :
  _is_valid_cpf (PyStr.of_ascii "111.111.111-11") = Ok false.
Proof. vm_compute. reflexivity. Qed.

(** U+0661, the Arabic-Indic digit one, followed by ten [1]: eleven digits
    of value one that are not eleven copies of one character. *)
Example cpf_mixed_script_ones_accepted :
  _is_valid_cpf (1633%N :: PyStr.of_ascii "1111111111") = Ok true.
Proof. vm_compute. reflexivity. Qed.

(** U+00B2, superscript two, is a digit for [isdigit] and not for [int]. *)
Example cpf_superscript_raises :
  _is_valid_cpf (178%N :: PyStr.of_ascii "2998224725") = Raise ValueError.
Proof. vm_compute. reflexivity. Qed.

Example cpf_trailing_superscript_rejected :
  _is_valid_cpf (PyStr.of_ascii "529.982.247-25" ++ [178%N]) = Ok false.
Proof. vm_compute. reflexivity. Qed.

Example ymd2ord_2025_03_01 : Calendar._ymd2ord 2025 3 1 = 739311.
Proof. reflexivity. Qed.

Example ord2ymd_739311 : Calendar._ord2ymd 739311 = (2025, 3, 1).
Proof. reflexivity. Qed.

Example ord2ymd_leap_day : Calendar._ord2ymd (Calendar._ymd2ord 2024 2 29) = (2024, 2, 29).
Proof. reflexivity. Qed.

Example ord2ymd_year_end : Calendar._ord2ymd (Calendar._ymd2ord 2000 12 31) = (2000, 12, 31).
Proof. reflexivity. Qed.

Example maxordinal_is_9999_12_31 : Calendar._ymd2ord 9999 12 31 = Calendar._MAXORDINAL.
Proof. reflexivity. Qed.

(** *** Tax-id validation *)

Lemma digit_code_cases (v : Z) :
  0 <= v <= 9 ->
  v = 0 \/ v = 1 \/ v = 2 \/ v = 3 \/ v = 4 \/ v = 5 \/ v = 6 \/ v = 7 \/ v = 8 \/ v = 9.
Proof. lia. Qed.

Lemma int_of_digit_code (v : Z) :
  0 <= v <= 9 -> PyStr.int_of_char (digit_code v) = Ok v.
Proof.
  intro H. destruct (digit_code_cases v H) as [-> | [-> | [-> | [-> | [-> | [-> | [-> | [-> |
    [-> | ->]]]]]]]]]; vm_compute; reflexivity.
Qed.

Lemma isdigit_digit_code (v : Z) :
  0 <= v <= 9 -> PyStr.isdigit (digit_code v) = true.
Proof.
  intro H. destruct (digit_code_cases v H) as [-> | [-> | [-> | [-> | [-> | [-> | [-> | [-> |
    [-> | ->]]]]]]]]]; vm_compute; reflexivity.
Qed.

Lemma str_digit (v : Z) :
  0 <= v <= 9 -> PyStr.of_ascii (PyStr.str v) = [digit_code v].
Proof.
  intro H. destruct (digit_code_cases v H) as [-> | [-> | [-> | [-> | [-> | [-> | [-> | [-> |
    [-> | ->]]]]]]]]]; vm_compute; reflexivity.
Qed.

Lemma digit_code_inj (a b : Z) :
  0 <= a <= 9 -> 0 <= b <= 9 -> digit_code a = digit_code b -> a = b.
Proof. unfold digit_code. lia. Qed.

(** A character among [0] to [9] is the character of its value. *)
Lemma ascii_digit_code (ch : N) :
  (48 <= ch <= 57)%N ->
  0 <= Z.of_N ch - 48 <= 9 /\ ch = digit_code (Z.of_N ch - 48).
Proof. unfold digit_code. lia. Qed.

Lemma check_of_range (t : Z) : 0 <= check_of t <= 9.
Proof.
  unfold check_of. pose proof (Z.mod_pos_bound t 11 ltac:(lia)).
  destruct (t mod 11 <? 2) eqn:E; [lia |].
  apply Z.ltb_ge in E. lia.
Qed.

Lemma spec_check_digit_range (l : list Z) : 0 <= spec_check_digit l <= 9.
Proof. apply check_of_range. Qed.

Lemma pystr_eqb_eq (a b : list N) : PyStr.eqb a b = true <-> a = b.
Proof.
  revert b. induction a as [| x a IH]; intros [| y b]; cbn [PyStr.eqb];
    try (split; [discriminate | discriminate]); [split; reflexivity |].
  rewrite andb_true_iff, N.eqb_eq, IH. split; [intros [-> ->]; reflexivity |].
  intros [= -> ->]. split; reflexivity.
Qed.

Lemma only_digits_all (s : list N) :
  Forall (fun ch => PyStr.isdigit ch = true) (_only_digits s).
Proof.
  unfold _only_digits. apply Forall_forall. intros ch H.
  apply filter_In in H. tauto.
Qed.

(** On the characters [0] to [9] the weighted sum of the code is that of the
    rule, and [int] never fails. *)
Lemma calc_total_values (len1 i : Z) (vs : list Z) :
  Forall (fun v => 0 <= v <= 9) vs ->
  calc_total len1 i (map digit_code vs) = Ok (spec_weighted_sum (len1 - 1) i vs).
Proof.
  revert i. induction vs as [| v vs IH]; intros i H; cbn [map calc_total spec_weighted_sum];
    [reflexivity |].
  apply Forall_cons_iff in H. destruct H as [Hv Hvs].
  rewrite (int_of_digit_code v Hv). cbn [bind]. rewrite (IH (i + 1) Hvs). cbn [bind].
  f_equal. f_equal. f_equal. lia.
Qed.

Lemma calc_values (vs : list Z) :
  Forall (fun v => 0 <= v <= 9) vs ->
  calc (map digit_code vs) = Ok (spec_check_digit vs).
Proof.
  intro H. unfold calc, spec_check_digit. rewrite (calc_total_values _ _ vs H).
  cbn [bind]. rewrite length_map.
  replace (Z.of_nat (List.length vs) + 1 - 1) with (Z.of_nat (List.length vs)) by lia.
  reflexivity.
Qed.

(** The check digit the code computes, when it computes one, is a digit. *)
Lemma calc_range (base : list N) (d : Z) : calc base = Ok d -> 0 <= d <= 9.
Proof.
  unfold calc. destruct (calc_total (Z.of_nat (List.length base) + 1) 0 base) as [t | e];
    cbn [bind]; [| discriminate].
  intros [= <-]. apply check_of_range.
Qed.

(** With digit characters among [0] to [9] only, the digits the code keeps
    are the characters of the digit sequence of the rule. *)
Lemma only_digits_ascii (s : list N) :
  ascii_digits_only s ->
  _only_digits s = map digit_code (digit_values s)
  /\ Forall (fun v => 0 <= v <= 9) (digit_values s).
Proof.
  unfold ascii_digits_only, _only_digits, digit_values.
  induction s as [| ch s IH]; intro H; cbn [filter flat_map map]; [split; constructor |].
  apply Forall_cons_iff in H. destruct H as [Hch Hs]. destruct (IH Hs) as [E F].
  destruct ((48 <=? ch)%N && (ch <=? 57)%N) eqn:A.
  - apply andb_true_iff in A. destruct A as [A1 A2].
    apply N.leb_le in A1. apply N.leb_le in A2.
    destruct (ascii_digit_code ch (conj A1 A2)) as [R Ec].
    rewrite Ec at 1. rewrite (isdigit_digit_code _ R). cbn [app map].
    split; [rewrite <- Ec, E; reflexivity | constructor; assumption].
  - destruct (PyStr.isdigit ch) eqn:D.
    + exfalso. specialize (Hch eq_refl). apply andb_false_iff in A.
      destruct A as [A | A]; apply N.leb_gt in A; lia.
    + cbn [app]. split; assumption.
Qed.

(** Body of [_is_valid_cpf] on eleven or any other number of characters
    among [0] to [9]: it returns, and accepts exactly by the rule. *)
Lemma valid_codes_iff (vs : list Z) :
  Forall (fun v => 0 <= v <= 9) vs ->
  exists b : bool,
    (if negb (List.length (map digit_code vs) =? 11)%nat then Ok false
     else match map digit_code vs with
          | [] => Ok false
          | d0 :: _ =>
              if PyStr.eqb (map digit_code vs) (repeat d0 11) then Ok false
              else
                let* d1 := calc (firstn 9 (map digit_code vs)) in
                let* d2 := calc (firstn 9 (map digit_code vs)
                                 ++ PyStr.of_ascii (PyStr.str d1)) in
                Ok (PyStr.endswith (map digit_code vs)
                      (PyStr.of_ascii (PyStr.str d1) ++ PyStr.of_ascii (PyStr.str d2)))
          end) = Ok b
    /\ (b = true <-> spec_valid_digits vs).
Proof.
  intro Hall. unfold spec_valid_digits. rewrite length_map.
  destruct (List.length vs =? 11)%nat eqn:Hlen; cbn [negb].
  2:{ exists false. split; [reflexivity |]. split; [discriminate |].
      intros [L _]. apply Nat.eqb_neq in Hlen. contradiction. }
  apply Nat.eqb_eq in Hlen.
  destruct vs as [| v0 [| v1 [| v2 [| v3 [| v4 [| v5 [| v6 [| v7 [| v8
    [| v9 [| v10 [| v11 r]]]]]]]]]]]]; try discriminate Hlen.
  clear Hlen.
  repeat rewrite Forall_cons_iff in Hall.
  destruct Hall as (R0 & R1 & R2 & R3 & R4 & R5 & R6 & R7 & R8 & R9 & R10 & _).
  cbn [map firstn nth List.length].
  assert (Forall (fun v => 0 <= v <= 9) [v0; v1; v2; v3; v4; v5; v6; v7; v8]) as F9
    by (repeat (apply Forall_cons; [assumption |]); apply Forall_nil).
  pose proof (calc_values _ F9) as C1. cbn [map] in C1. rewrite C1. cbn [bind].
  set (k1 := spec_check_digit [v0; v1; v2; v3; v4; v5; v6; v7; v8]).
  pose proof (spec_check_digit_range [v0; v1; v2; v3; v4; v5; v6; v7; v8]) as Rk1.
  fold k1 in Rk1. rewrite (str_digit k1 Rk1). cbn [app].
  assert (Forall (fun v => 0 <= v <= 9) [v0; v1; v2; v3; v4; v5; v6; v7; v8; k1]) as F10
    by (repeat (apply Forall_cons; [assumption |]); apply Forall_nil).
  pose proof (calc_values _ F10) as C2. cbn [map] in C2.
  set (k2 := spec_check_digit [v0; v1; v2; v3; v4; v5; v6; v7; v8; k1]) in *.
  pose proof (spec_check_digit_range [v0; v1; v2; v3; v4; v5; v6; v7; v8; k1]) as Rk2.
  fold k2 in Rk2.
  destruct (PyStr.eqb _ (repeat (digit_code v0) 11)) eqn:Erep.
  - exists false. split; [reflexivity |]. split; [discriminate |].
    intros (_ & Nrep & _). exfalso. apply Nrep. exists v0.
    apply pystr_eqb_eq in Erep. cbn [repeat] in Erep |- *.
    injection Erep as Q1 Q2 Q3 Q4 Q5 Q6 Q7 Q8 Q9 Q10.
    repeat match goal with
           | H : digit_code ?a = digit_code ?b |- _ =>
               apply digit_code_inj in H; [| assumption | assumption]
           end.
    congruence.
  - rewrite C2. cbn [bind]. rewrite (str_digit k2 Rk2).
    eexists. split; [reflexivity |].
    unfold PyStr.endswith. cbn [List.length Nat.leb Nat.sub skipn andb].
    rewrite pystr_eqb_eq. split.
    + intros [= E9 E10].
      apply digit_code_inj in E9; [| assumption | assumption].
      apply digit_code_inj in E10; [| assumption | assumption].
      split; [reflexivity |]. split.
      * intros [d Hd]. cbn [repeat] in Hd.
        injection Hd as -> -> -> -> -> -> -> -> -> -> ->.
        assert (PyStr.eqb (repeat (digit_code d) 11) (repeat (digit_code d) 11) = true) as T
          by (apply pystr_eqb_eq; reflexivity).
        cbn [repeat] in T, Erep. rewrite T in Erep. discriminate Erep.
      * split; [exact E9 |]. rewrite E9. exact E10.
    + intros (_ & _ & E9 & E10). rewrite E9 in E10. fold k1 in E9. fold k2 in E10.
      rewrite E9, E10. reflexivity.
Qed.

(** What [endswith] means. *)
Lemma endswith_app (s suf : list N) :
  PyStr.endswith s suf = true -> exists pre, s = pre ++ suf.
Proof.
  unfold PyStr.endswith. intro H. apply andb_true_iff in H. destruct H as [_ H].
  apply pystr_eqb_eq in H. exists (firstn (List.length s - List.length suf) s).
  rewrite <- H at 2. symmetry. apply firstn_skipn.
Qed.

Lemma app_last_eq {A : Type} (l l' : list A) (x y : A) :
  l ++ [x] = l' ++ [y] -> x = y.
Proof. intro H. apply app_inj_tail in H. tauto. Qed.

(** C6. For a string whose digit characters are all among 0 to 9, the
    tax-id validator returns without error, and accepts exactly when the
    digit sequence has 11 digits, is not one digit repeated 11 times, and
    its two last digits are the mod-11 weighted-sum check digits of the
    digits before them. For every string, replacing only the last digit
    character of an accepted id by another digit character gives a
    rejected id. *)
Theorem is_valid_cpf_characterisation (s : list N) :
  (ascii_digits_only s ->
   exists b : bool, _is_valid_cpf s = Ok b /\ (b = true <-> spec_valid_tax_id s))
  /\ (forall (s' ds : list N) (c c' : N),
        _is_valid_cpf s = Ok true ->
        _only_digits s = ds ++ [c] ->
        _only_digits s' = ds ++ [c'] ->
        c' <> c ->
        _is_valid_cpf s' = Ok false).
Proof.
  split.
  - intro H. destruct (only_digits_ascii s H) as [E F].
    unfold _is_valid_cpf, spec_valid_tax_id. rewrite E.
    exact (valid_codes_iff (digit_values s) F).
  - intros s' ds c c' Hs Es Es' Hne.
    unfold _is_valid_cpf in Hs |- *. rewrite Es in Hs. rewrite Es'.
    rewrite !length_app in *. cbn [List.length] in *.
    destruct (List.length ds + 1 =? 11)%nat eqn:Hlen; cbn [negb] in *; [| discriminate Hs].
    apply Nat.eqb_eq in Hlen.
    destruct ds as [| c0 ds0]; [discriminate Hlen |]. cbn [app] in *.
    destruct (PyStr.eqb (c0 :: ds0 ++ [c]) (repeat c0 11)); [discriminate Hs |].
    destruct (PyStr.eqb (c0 :: ds0 ++ [c']) (repeat c0 11)); [reflexivity |].
    assert (firstn 9 (c0 :: ds0 ++ [c']) = firstn 9 (c0 :: ds0 ++ [c])) as Efirst.
    { change (c0 :: ds0 ++ [c']) with ((c0 :: ds0) ++ [c']).
      change (c0 :: ds0 ++ [c]) with ((c0 :: ds0) ++ [c]).
      rewrite !firstn_app.
      replace (9 - List.length (c0 :: ds0))%nat with 0%nat by (cbn [List.length] in *; lia).
      reflexivity. }
    rewrite Efirst.
    destruct (calc (firstn 9 (c0 :: ds0 ++ [c]))) as [d1 | e1]; cbn [bind] in *;
      [| discriminate Hs].
    destruct (calc (firstn 9 (c0 :: ds0 ++ [c]) ++ PyStr.of_ascii (PyStr.str d1)))
      as [d2 | e2] eqn:C2; cbn [bind] in *; [| discriminate Hs].
    injection Hs as Hend.
    destruct (PyStr.endswith (c0 :: ds0 ++ [c'])
                (PyStr.of_ascii (PyStr.str d1) ++ PyStr.of_ascii (PyStr.str d2))) eqn:Hend';
      [exfalso | reflexivity].
    rewrite (str_digit d2 (calc_range _ _ C2)) in Hend, Hend'.
    apply endswith_app in Hend. apply endswith_app in Hend'.
    destruct Hend as (pre & Hpre). destruct Hend' as (pre' & Hpre').
    rewrite app_assoc in Hpre, Hpre'.
    change (c0 :: ds0 ++ [c]) with ((c0 :: ds0) ++ [c]) in Hpre.
    change (c0 :: ds0 ++ [c']) with ((c0 :: ds0) ++ [c']) in Hpre'.
    apply app_last_eq in Hpre. apply app_last_eq in Hpre'. congruence.
Qed.

Lemma is_valid_cpf_characterisation_witness :
  (exists b : bool,
     _is_valid_cpf (PyStr.of_ascii "529.982.247-25") = Ok b
     /\ (b = true <-> spec_valid_tax_id (PyStr.of_ascii "529.982.247-25")))
  /\ _is_valid_cpf (PyStr.of_ascii "529.982.247-24") = Ok false.
Proof.
  split.
  - apply (proj1 (is_valid_cpf_characterisation (PyStr.of_ascii "529.982.247-25"))).
    unfold ascii_digits_only. vm_compute PyStr.of_ascii.
    repeat constructor; vm_compute; intros; try discriminate; split; discriminate.
  - apply (proj2 (is_valid_cpf_characterisation (PyStr.of_ascii "529.982.247-25"))
             (PyStr.of_ascii "529.982.247-24") (PyStr.of_ascii "5299822472") 53%N 52%N);
      [vm_compute; reflexivity | vm_compute; reflexivity | vm_compute; reflexivity
      | discriminate].
Defined.

(** The rule does not hold for every string, whether "digit" is read as a
    character 0 to 9 or as a decimal digit of any script: U+0661 followed by
    ten 1 is accepted, with ten digits 0 to 9, and eleven digits of value
    one. *)
Lemma tax_id_rule_fails_on_other_digits :
  ~ spec_tax_id_rule digit_values /\ ~ spec_tax_id_rule decimal_values.
Proof.
  split; intro H;
    specialize (H (1633%N :: PyStr.of_ascii "1111111111"));
    destruct H as [H _]; specialize (H ltac:(vm_compute; reflexivity));
    destruct H as (L & Nrep & _).
  - vm_compute in L. discriminate L.
  - apply Nrep. exists 1. vm_compute. reflexivity.
Qed.

(** *** Attendance update *)

Lemma first_update_first {A : Type} (p : A -> bool) (f : A -> A) (rows : list A) (x : A) :
  first p rows = Some x -> p (f x) = true ->
  first p (update_first p f rows) = Some (f x).
Proof.
  unfold first. induction rows as [| r rest IH]; simpl; [discriminate |].
  destruct (p r) eqn:E.
  - intros [= ->] Hf. simpl. rewrite Hf. reflexivity.
  - intros Hx Hf. simpl. rewrite E. auto.
Qed.

Lemma first_some_holds {A : Type} (p : A -> bool) (rows : list A) (x : A) :
  first p rows = Some x -> p x = true.
Proof. intro H. apply find_some in H. tauto. Qed.

Lemma apply_update_id (now : Calendar.datetime) (upd : AttendanceUpdate) (a : Attendance.t) :
  Attendance.id (apply_update now upd a) = Attendance.id a.
Proof.
  unfold apply_update.
  destruct (dict_get (au_status upd)) as [v |]; [destruct (PyStr.truthy v), (String.eqb v "finished") |];
    destruct (au_payment_method upd) as [| [m |]];
    destruct (au_payment_status upd) as [| [s |]];
    destruct (au_notes upd) as [| n]; reflexivity.
Qed.

(** An update of an existing attendance returns the changed row and stores
    it. *)
Lemma update_attendance_existing (now : Calendar.datetime) (db : Session)
    (attendance_id : Z) (upd : AttendanceUpdate) (a : Attendance.t) :
  get_attendance db attendance_id = Ok a ->
  exists db',
    update_attendance now db attendance_id upd = (db', Ok (apply_update now upd a))
    /\ get_attendance db' attendance_id = Ok (apply_update now upd a)
    /\ committed db' = working db'.
Proof.
  intro Hget. unfold update_attendance. rewrite Hget.
  eexists. split; [reflexivity |]. split; [| reflexivity].
  unfold get_attendance in *. cbn [working commit with_attendances attendances].
  destruct (first (fun a0 => Attendance.id a0 =? attendance_id) (attendances (working db)))
    as [x |] eqn:F; [| discriminate].
  injection Hget as ->.
  rewrite (first_update_first _ (fun _ => apply_update now upd a) _ a F).
  - reflexivity.
  - rewrite apply_update_id. apply (first_some_holds _ _ _ F).
Qed.

(** C1, as stated, fails: finishing an attendance while sending
    paymentStatus = pending leaves it pending. *)
Lemma finished_with_explicit_pending_stays_pending : ~ spec_finished_forces_paid.
Proof.
  intro H.
  destruct (H 0 (open_session (Sample.store "progress" "pending")) 1
              Sample.finish_and_keep_pending (Sample.visit "progress" "pending")
              eq_refl eq_refl) as (db' & a' & Hrun & Hpaid).
  vm_compute in Hrun. injection Hrun as _ <-. discriminate Hpaid.
Qed.

(** C1, amended. For every existing attendance and every update that
    supplies status = finished, the update returns and stores the attendance
    with paymentStatus equal to the non-null paymentStatus supplied in the
    same call when there is one, and to paid otherwise, whatever the prior
    paymentStatus was. *)
Theorem update_finished_payment_status (now : Calendar.datetime) (db : Session)
    (attendance_id : Z) (upd : AttendanceUpdate) (a : Attendance.t) :
  get_attendance db attendance_id = Ok a ->
  dict_get (au_status upd) = Some "finished" ->
  exists db' a',
    update_attendance now db attendance_id upd = (db', Ok a')
    /\ get_attendance db' attendance_id = Ok a'
    /\ Attendance.status a' = "finished"
    /\ Attendance.payment_status a' =
         match au_payment_status upd with
         | Sent (Some v) => v
         | _ => "paid"
         end.
Proof.
  intros Hget Hst.
  destruct (update_attendance_existing now db attendance_id upd a Hget) as (db' & Hrun & Hstored & _).
  exists db', (apply_update now upd a). split; [exact Hrun |]. split; [exact Hstored |].
  unfold apply_update. rewrite Hst. cbn [PyStr.truthy String.eqb Ascii.eqb Bool.eqb andb].
  destruct (au_payment_method upd) as [| [m |]];
    destruct (au_payment_status upd) as [| [s |]];
    destruct (au_notes upd) as [| n]; split; reflexivity.
Qed.

Lemma update_finished_payment_status_witness :
  exists db' a',
    update_attendance 7 (open_session (Sample.store "progress" "pending")) 1
                      Sample.finish_only = (db', Ok a')
    /\ get_attendance db' 1 = Ok a'
    /\ Attendance.status a' = "finished"
    /\ Attendance.payment_status a' = "paid".
Proof.
  exact (update_finished_payment_status 7 (open_session (Sample.store "progress" "pending")) 1
           Sample.finish_only (Sample.visit "progress" "pending") eq_refl eq_refl).
Defined.

(** C9, as stated, fails: an update that supplies only status = finished
    changes paymentStatus although the call leaves it out (and a supplied
    null notes value is written, clearing the notes). *)
Lemma update_frame_fails : ~ spec_update_frame.
Proof.
  intro H.
  destruct (H 0 Sample.finish_only (Sample.visit "progress" "pending"))
    as (_ & _ & Hps & _).
  specialize (Hps (or_introl eq_refl)). vm_compute in Hps. discriminate Hps.
Qed.

Lemma update_null_notes_clears :
  Attendance.notes (apply_update 0 Sample.clear_notes (Sample.visit "progress" "pending")) = None.
Proof. reflexivity. Qed.

(** C9, amended. For every update of an existing attendance: a field left
    out of the call keeps its value, except that paymentStatus becomes paid
    when the call supplies status = finished; a paymentMethod or
    paymentStatus supplied as null is treated as left out; a non-null
    paymentMethod, paymentStatus or notes supplied is applied; updatedAt is
    set to now; the identity, client, appointment date and creation time of
    the attendance and the other tables do not change. *)
Theorem update_attendance_frame (now : Calendar.datetime) (db : Session)
    (attendance_id : Z) (upd : AttendanceUpdate) (a : Attendance.t) :
  get_attendance db attendance_id = Ok a ->
  exists db' a',
    update_attendance now db attendance_id upd = (db', Ok a')
    /\ get_attendance db' attendance_id = Ok a'
    /\ (dict_get (au_status upd) = None -> Attendance.status a' = Attendance.status a)
    /\ (au_payment_method upd = Unset \/ au_payment_method upd = Sent None ->
        Attendance.payment_method a' = Attendance.payment_method a)
    /\ (au_payment_status upd = Unset \/ au_payment_status upd = Sent None ->
        Attendance.payment_status a' =
          if match dict_get (au_status upd) with
             | Some v => String.eqb v "finished"
             | None => false
             end
          then "paid" else Attendance.payment_status a)
    /\ (au_notes upd = Unset -> Attendance.notes a' = Attendance.notes a)
    /\ (forall v, au_payment_method upd = Sent (Some v) ->
                  Attendance.payment_method a' = Some v)
    /\ (forall v, au_payment_status upd = Sent (Some v) ->
                  Attendance.payment_status a' = v)
    /\ (forall v, au_notes upd = Sent (Some v) -> Attendance.notes a' = Some v)
    /\ Attendance.updated_at a' = now
    /\ Attendance.id a' = Attendance.id a
    /\ Attendance.client_id a' = Attendance.client_id a
    /\ Attendance.service_id a' = Attendance.service_id a
    /\ Attendance.appointment_date a' = Attendance.appointment_date a
    /\ Attendance.created_at a' = Attendance.created_at a
    /\ clients (committed db') = clients (working db)
    /\ services (committed db') = services (working db)
    /\ attendance_services (committed db') = attendance_services (working db).
Proof.
  intro Hget.
  destruct (update_attendance_existing now db attendance_id upd a Hget)
    as (db' & Hrun & Hstored & Hcommit).
  exists db', (apply_update now upd a).
  split; [exact Hrun |]. split; [exact Hstored |].
  assert (clients (committed db') = clients (working db)
          /\ services (committed db') = services (working db)
          /\ attendance_services (committed db') = attendance_services (working db)) as Hrest.
  { unfold update_attendance in Hrun. rewrite Hget in Hrun.
    injection Hrun as <-. repeat split. }
  unfold apply_update.
  destruct (au_status upd) as [| [v |]]; cbn [dict_get];
    [ | destruct v as [| c v']; cbn [PyStr.truthy];
        [ | destruct (String.eqb (String c v') "finished") eqn:Efin ] | ];
    destruct (au_payment_method upd) as [| [m |]];
    destruct (au_payment_status upd) as [| [s |]];
    destruct (au_notes upd) as [| n];
    cbn [set_status set_payment_status set_payment_method set_notes set_updated_at
         Attendance.status Attendance.payment_method Attendance.payment_status
         Attendance.notes Attendance.updated_at Attendance.id Attendance.client_id
         Attendance.service_id Attendance.appointment_date Attendance.created_at];
    repeat match goal with
           | |- _ /\ _ => split
           | |- _ -> _ => intro
           | |- forall _, _ => intro
           | H : _ \/ _ |- _ => destruct H
           | H : _ /\ _ |- _ => destruct H
           end;
    try discriminate; try congruence; try reflexivity; try assumption.
Qed.

Lemma update_attendance_frame_witness :
  exists db' a',
    update_attendance 7 (open_session (Sample.store "progress" "pending")) 1
                      Sample.clear_notes = (db', Ok a')
    /\ Attendance.status a' = "progress"
    /\ Attendance.payment_status a' = "pending"
    /\ Attendance.updated_at a' = 7.
Proof.
  destruct (update_attendance_frame 7 (open_session (Sample.store "progress" "pending")) 1
              Sample.clear_notes (Sample.visit "progress" "pending") eq_refl)
    as (db' & a' & Hrun & _ & Hs & _ & Hp & _ & _ & _ & _ & Hu & _).
  exists db', a'. split; [exact Hrun |]. split; [exact (Hs eq_refl) |].
  split; [exact (Hp (or_introl eq_refl)) | exact Hu].
Defined.

(** *** Attendance creation *)

(** The services fetched by [create_attendance] are the active services the
    requested ids resolve to. *)
Lemma fetched_services_resolved (st : Store) (service_ids : list Z) :
  filter (fun s => existsb (Z.eqb (Service.id s)) service_ids
                   && Bool.eqb (Service.is_active s) true) (services st)
  = spec_resolved_active st service_ids.
Proof.
  unfold spec_resolved_active. apply filter_ext. intro s.
  destruct (Service.is_active s), (existsb (Z.eqb (Service.id s)) service_ids); reflexivity.
Qed.

Lemma resolved_active_nil (st : Store) : spec_resolved_active st [] = [].
Proof.
  unfold spec_resolved_active. induction (services st) as [| s l IH]; simpl; [reflexivity |].
  rewrite andb_false_r. exact IH.
Qed.

(** Reactivating the client leaves the services table as it was. *)
Lemma services_after_reactivation (now : Calendar.datetime) (db : Session)
    (attendance : AttendanceCreate) (client : Client.t) :
  services (working
    (if negb (Client.is_active client) then
       commit {| committed := committed db;
                 working := with_clients (working db)
                   (update_first (fun c => Client.id c =? ac_client_id attendance)
                                 (set_client_active now) (clients (working db))) |}
     else db))
  = services (working db).
Proof. destruct (Client.is_active client); reflexivity. Qed.

(** C8. With an existing client, [create_attendance] fails with the 400
    validation error exactly when the list of requested service ids is empty
    or the number of active services matching the ids differs from the number
    of ids requested (duplicates, unknown ids and inactive ids all make the
    numbers differ); otherwise it succeeds, with status waiting and payment
    status pending. *)
Theorem create_attendance_validation (now utcnow : Calendar.datetime) (db : Session)
    (attendance : AttendanceCreate) (client : Client.t) :
  first (fun c => Client.id c =? ac_client_id attendance) (clients (working db)) = Some client ->
  let resolved := spec_resolved_active (working db) (ac_service_ids attendance) in
  let invalid := ac_service_ids attendance = []
                 \/ List.length resolved <> List.length (ac_service_ids attendance) in
  (invalid ->
     snd (create_attendance now utcnow db attendance)
     = Raise (HTTPException HTTP_400_BAD_REQUEST "Um ou mais serviços inválidos/inativos"))
  /\ (~ invalid ->
      exists a,
        snd (create_attendance now utcnow db attendance) = Ok a
        /\ Attendance.status a = "waiting"
        /\ Attendance.payment_status a = "pending"
        /\ Attendance.client_id a = ac_client_id attendance
        /\ In a (attendances (committed (fst (create_attendance now utcnow db attendance))))
        /\ map snd (filter (fun l => fst l =? Attendance.id a)
                      (attendance_services
                         (committed (fst (create_attendance now utcnow db attendance)))))
           = map snd (filter (fun l => fst l =? Attendance.id a)
                        (attendance_services (working db)))
             ++ map Service.id resolved).
Proof.
  intros Hclient resolved invalid.
  unfold create_attendance. rewrite Hclient.
  set (db1 := if negb (Client.is_active client) then _ else db).
  assert (services (working db1) = services (working db)) as Hsv
    by apply services_after_reactivation.
  assert (filter (fun s => existsb (Z.eqb (Service.id s)) (ac_service_ids attendance)
                           && Bool.eqb (Service.is_active s) true) (services (working db1))
          = resolved) as Hres.
  { rewrite Hsv. apply fetched_services_resolved. }
  rewrite Hres.
  assert (attendances (working db1) = attendances (working db)
          /\ attendance_services (working db1) = attendance_services (working db)) as [Hat Hln].
  { subst db1. destruct (Client.is_active client); split; reflexivity. }
  split.
  - intros [Hnil | Hlen].
    + subst resolved. rewrite Hnil, resolved_active_nil. reflexivity.
    + destruct resolved as [| s r]; [reflexivity |].
      apply Nat.eqb_neq in Hlen. rewrite Hlen. reflexivity.
  - intro Hvalid.
    assert (ac_service_ids attendance <> []) as Hne by (intro E; apply Hvalid; left; exact E).
    assert (List.length resolved = List.length (ac_service_ids attendance)) as Hlen.
    { destruct (Nat.eq_dec (List.length resolved) (List.length (ac_service_ids attendance)))
        as [E | N]; [exact E | exfalso; apply Hvalid; right; exact N]. }
    destruct resolved as [| s r] eqn:Er.
    { exfalso. destruct (ac_service_ids attendance); [congruence | discriminate Hlen]. }
    rewrite Hlen, Nat.eqb_refl. cbn [negb orb snd fst].
    eexists. split; [reflexivity |].
    cbn [Attendance.status Attendance.payment_status Attendance.client_id Attendance.id
         commit committed working add_attendance attendances attendance_services].
    repeat split.
    + apply in_or_app. right. left. reflexivity.
    + rewrite Hln, Hat, filter_app, map_app. f_equal.
      rewrite <- Er. clear.
      induction resolved as [| x l IH]; [reflexivity |].
      cbn [map filter fst snd]. rewrite Z.eqb_refl. cbn [map snd]. f_equal. exact IH.
Qed.

Lemma create_attendance_validation_witness :
  snd (create_attendance 7 9 (open_session (Sample.store "waiting" "pending"))
         (Sample.booking_ana [1; 1]))
  = Raise (HTTPException HTTP_400_BAD_REQUEST "Um ou mais serviços inválidos/inativos")
  /\ snd (create_attendance 7 9 (open_session (Sample.store "waiting" "pending"))
            (Sample.booking_ana [3]))
     = Raise (HTTPException HTTP_400_BAD_REQUEST "Um ou mais serviços inválidos/inativos")
  /\ exists a,
       snd (create_attendance 7 9 (open_session (Sample.store "waiting" "pending"))
              (Sample.booking_ana [2; 1])) = Ok a
       /\ Attendance.status a = "waiting".
Proof.
  split; [| split].
  - apply (proj1 (create_attendance_validation 7 9
             (open_session (Sample.store "waiting" "pending"))
             (Sample.booking_ana [1; 1]) Sample.ana eq_refl)).
    right. vm_compute. discriminate.
  - apply (proj1 (create_attendance_validation 7 9
             (open_session (Sample.store "waiting" "pending"))
             (Sample.booking_ana [3]) Sample.ana eq_refl)).
    right. vm_compute. discriminate.
  - destruct (proj2 (create_attendance_validation 7 9
             (open_session (Sample.store "waiting" "pending"))
             (Sample.booking_ana [2; 1]) Sample.ana eq_refl)) as (a & Ha & Hs & _).
    + vm_compute. intros [H | H]; [discriminate H | apply H; reflexivity].
    + exists a. split; assumption.
Defined.

(** C2, as stated, fails: a booking for an inactive client that is refused
    for its services leaves the client reactivated. *)
Lemma failed_create_keeps_reactivation : ~ spec_create_atomic.
Proof.
  intro H.
  specialize (H 7 9 (Sample.store "waiting" "pending") Sample.booking_bruno_bad_service
                _ _ eq_refl).
  vm_compute in H. discriminate H.
Qed.

(** C2, amended. When [create_attendance] fails because the client does not
    exist, or fails on the validation of the services for a client that is
    active, the database is unchanged afterwards; when it fails on the
    validation of the services for a client that was inactive, the
    reactivation of that client is already committed: that client has
    isActive = true and updatedAt = now, and nothing else has changed. *)
Theorem create_attendance_failure_state (now utcnow : Calendar.datetime) (st : Store)
    (attendance : AttendanceCreate) (st' : Store) (e : exn) :
  post_attendance now utcnow st attendance = (st', Raise e) ->
  match first (fun c => Client.id c =? ac_client_id attendance) (clients st) with
  | None =>
      e = HTTPException HTTP_404_NOT_FOUND "Cliente não encontrado" /\ st' = st
  | Some client =>
      e = HTTPException HTTP_400_BAD_REQUEST "Um ou mais serviços inválidos/inativos"
      /\ st' = if Client.is_active client then st
               else with_clients st
                      (update_first (fun c => Client.id c =? ac_client_id attendance)
                                    (set_client_active now) (clients st))
  end.
Proof.
  unfold post_attendance, create_attendance.
  cbn [open_session working committed].
  destruct (first (fun c => Client.id c =? ac_client_id attendance) (clients st))
    as [client |] eqn:Hc.
  - destruct (Client.is_active client) eqn:Hact; cbn [negb];
      match goal with
      | |- context [if ?b then (_, Raise _) else _] => destruct b
      end; cbn [close commit committed working]; intros [= <- <-];
      (split; [reflexivity |]); reflexivity.
  - cbn [close committed]. intros [= <- <-]. split; reflexivity.
Qed.

Lemma create_attendance_failure_state_witness :
  exists st',
    post_attendance 7 9 (Sample.store "waiting" "pending") Sample.booking_bruno_bad_service
    = (st', Raise (HTTPException HTTP_400_BAD_REQUEST "Um ou mais serviços inválidos/inativos"))
    /\ st' = with_clients (Sample.store "waiting" "pending")
               [Sample.ana; set_client_active 7 Sample.bruno_inactive].
Proof.
  eexists. split; [reflexivity |].
  exact (proj2 (create_attendance_failure_state 7 9 (Sample.store "waiting" "pending")
                  Sample.booking_bruno_bad_service _ _ eq_refl)).
Defined.

(** *** Client listing *)

(** C10. For every status filter other than active and inactive, the listing
    is the unfiltered client list with the same skip and limit: what
    [get_clients] returns, and what the filter all returns. *)
Theorem get_clients_with_status_other (db : Session) (status_filter : string)
    (skip limit : nat) :
  status_filter <> "active" ->
  status_filter <> "inactive" ->
  get_clients_with_status db status_filter skip limit = get_clients db skip limit
  /\ get_clients_with_status db status_filter skip limit
     = get_clients_with_status db "all" skip limit
  /\ get_clients_with_status db status_filter skip limit
     = firstn limit (skipn skip (clients (working db))).
Proof.
  intros Ha Hi. unfold get_clients_with_status, get_clients.
  apply String.eqb_neq in Ha. apply String.eqb_neq in Hi.
  rewrite Ha, Hi. repeat split.
Qed.

Lemma get_clients_with_status_other_witness :
  get_clients_with_status (open_session (Sample.store "waiting" "pending")) "blocked" 1 5
  = [Sample.bruno_inactive].
Proof.
  rewrite (proj1 (get_clients_with_status_other
                    (open_session (Sample.store "waiting" "pending")) "blocked" 1 5
                    ltac:(discriminate) ltac:(discriminate))).
  reflexivity.
Defined.

Example clients_filter_active :
  get_clients_with_status (open_session (Sample.store "waiting" "pending")) "active" 0 100
  = [Sample.ana].
Proof. reflexivity. Qed.

Example clients_filter_inactive :
  get_clients_with_status (open_session (Sample.store "waiting" "pending")) "inactive" 0 100
  = [Sample.bruno_inactive].
Proof. reflexivity. Qed.

(** *** Auto-inactivation *)

Lemma date_of_sub_days (dt n : Z) :
  Calendar.date_of (dt - n * Calendar.usec_per_day) = Calendar.date_of dt - n.
Proof.
  unfold Calendar.date_of.
  replace (dt - n * Calendar.usec_per_day) with (dt + (- n) * Calendar.usec_per_day) by lia.
  rewrite Z.div_add by (unfold Calendar.usec_per_day; lia). lia.
Qed.

Lemma datetime_sub_days_ok (dt n cutoff : Z) :
  Calendar.datetime_sub_days dt n = Ok cutoff ->
  Calendar.date_of cutoff = Calendar.date_of dt - n.
Proof.
  unfold Calendar.datetime_sub_days.
  destruct (Z.abs n <=? 999999999); [| discriminate].
  destruct ((0 <=? dt - n * Calendar.usec_per_day)
            && (dt - n * Calendar.usec_per_day <? Calendar._MAXORDINAL * Calendar.usec_per_day));
    [| discriminate].
  intros [= <-]. apply date_of_sub_days.
Qed.

(** The filter of the query selects the stale clients. *)
Lemma to_inactivate_stale (st : Store) (cutoff_date : Calendar.datetime) (c : Client.t) :
  to_inactivate st cutoff_date c = true
  <-> spec_stale st (Calendar.date_of cutoff_date) c.
Proof.
  unfold to_inactivate, spec_stale, recent_client_ids. rewrite andb_true_iff.
  rewrite negb_true_iff. split.
  - intros [Hact Hnone]. split.
    + destruct (Client.is_active c); [reflexivity | discriminate Hact].
    + intros a Hin Hid.
      destruct (Z.lt_ge_cases (Calendar.date_of (Attendance.appointment_date a))
                              (Calendar.date_of cutoff_date)) as [Hlt | Hge]; [exact Hlt |].
      exfalso.
      assert (existsb (Z.eqb (Client.id c))
                (map Attendance.client_id
                   (filter (fun a0 => Calendar.date_of (Attendance.appointment_date a0)
                                      >=? Calendar.date_of cutoff_date) (attendances st)))
              = true) as Hex.
      { apply existsb_exists. exists (Attendance.client_id a). split.
        - apply in_map. apply filter_In. split; [exact Hin |].
          apply Z.geb_le. exact Hge.
        - apply Z.eqb_eq. symmetry. exact Hid. }
      rewrite Hex in Hnone. discriminate Hnone.
  - intros [Hact Hall]. split; [rewrite Hact; reflexivity |].
    destruct (existsb (Z.eqb (Client.id c)) _) eqn:Hex; [exfalso | reflexivity].
    apply existsb_exists in Hex. destruct Hex as (i & Hin & Hi).
    apply in_map_iff in Hin. destruct Hin as (a & Ha & Hin).
    apply filter_In in Hin. destruct Hin as [Hin Hge].
    apply Z.geb_le in Hge. apply Z.eqb_eq in Hi.
    specialize (Hall a Hin ltac:(congruence)). lia.
Qed.

(** What the loop does to the table: the selected rows are inactivated, each
    stamped with its own reading of the clock, the others are kept, and the
    count grows by the number of selected rows. *)
Lemma inactivate_loop_spec (utcnow : nat -> Calendar.datetime) (selected : Client.t -> bool)
    (rows : list Client.t) :
  forall (count : Z) (tick : nat),
    (1 <= tick)%nat ->
    exists rows' tick',
      inactivate_loop utcnow selected rows count tick
      = (rows', count + Z.of_nat (List.length (filter selected rows)), tick')
      /\ Forall2 (fun c c' => if selected c then inactivated_from utcnow c c' else c' = c)
                 rows rows'.
Proof.
  induction rows as [| c rest IH]; intros count tick Htick; cbn [inactivate_loop filter].
  - exists [], tick. split; [rewrite Z.add_0_r; reflexivity | constructor].
  - destruct (selected c) eqn:Hsel.
    + destruct (IH (count + 1) (S tick) ltac:(lia)) as (rows' & tick' & Hrun & Hall).
      rewrite Hrun. eexists _, tick'. split.
      * f_equal. f_equal. cbn [List.length]. lia.
      * constructor; [| exact Hall]. rewrite Hsel.
        unfold inactivated_from. cbn.
        split; [reflexivity |]. split; [exists tick; split; [exact Htick | reflexivity] |].
        repeat split.
    + destruct (IH count tick Htick) as (rows' & tick' & Hrun & Hall).
      rewrite Hrun. eexists _, tick'. split; [reflexivity |].
      constructor; [| exact Hall]. rewrite Hsel. reflexivity.
Qed.

(** The night call of the sample data refutes the rule for every reading of
    the local date that dates Carla's attendance 2025-01-24. *)
Lemma night_call_refutes (appointment_local_date : Calendar.datetime -> Calendar.date) :
  appointment_local_date ((Calendar._ymd2ord 2025 1 24 - 1) * Calendar.usec_per_day
                          + 43200000000)
  = Calendar._ymd2ord 2025 1 24 ->
  ~ spec_auto_inactivate_local appointment_local_date.
Proof.
  intros Hdate H.
  assert (exists db' c',
             auto_inactivate_clients Sample45.utcnow_night
               (open_session Sample45.store_night) 45 = (db', Ok 1)
             /\ clients (committed db') = [c'] /\ Client.is_active c' = false)
    as (db' & c' & E & Hrows & Hoff).
  { eexists _, _. split; [vm_compute; reflexivity |]. split; reflexivity. }
  destruct (H _ _ _ _ _ E) as [Hall _]. rewrite Hrows in Hall.
  cbn [open_session working clients Sample45.store_night] in Hall.
  apply Forall2_cons_iff in Hall. destruct Hall as [[_ Hkeep] _].
  assert (c' = Sample45.client 1 "Carla") as Ec.
  { apply Hkeep. intros [_ Hs].
    specialize (Hs _ (or_introl eq_refl) eq_refl).
    cbn [Sample45.attendance Attendance.appointment_date] in Hs.
    rewrite Hdate in Hs. vm_compute in Hs. discriminate Hs. }
  rewrite Ec in Hoff. discriminate Hoff.
Qed.

(** With the local dates of the specification the rule fails, whether the
    stored appointment timestamp is read as local time or as an instant: on
    2025-03-11 at 01:00 UTC (22:00 of 2025-03-10 local time) a client whose
    only attendance is of 2025-01-24 at noon is inactivated for 45 days,
    although 2025-01-24 is the local date of the cutoff. *)
Lemma auto_inactivate_cutoff_is_utc_date :
  ~ spec_auto_inactivate_local Calendar.date_of
  /\ ~ spec_auto_inactivate_local to_local_date.
Proof.
  split; apply night_call_refutes; vm_compute; reflexivity.
Qed.

(** C5. [auto_inactivate_clients(days_inactive)] inactivates exactly the
    active clients that have no attendance whose stored timestamp is dated
    on or after the UTC date of (now - days_inactive days), now being the
    reading of [datetime.utcnow()], clients without any attendance included:
    such a client gets is_active = false and a fresh updated_at and keeps its
    other fields, every other client row and every other table is unchanged,
    the change is committed, and the number returned is the number of clients
    inactivated. *)
Theorem auto_inactivate_clients_spec (utcnow : nat -> Calendar.datetime) (db : Session)
    (days_inactive : Z) (cutoff_date : Calendar.datetime) :
  Calendar.datetime_sub_days (utcnow 0%nat) days_inactive = Ok cutoff_date ->
  let st := working db in
  let cutoff := Calendar.date_of (utcnow 0%nat) - days_inactive in
  exists db' count,
    auto_inactivate_clients utcnow db days_inactive = (db', Ok count)
    /\ Forall2 (fun c c' => (spec_stale st cutoff c -> inactivated_from utcnow c c')
                            /\ (~ spec_stale st cutoff c -> c' = c))
               (clients st) (clients (committed db'))
    /\ (exists stale : Client.t -> bool,
          (forall c, stale c = true <-> spec_stale st cutoff c)
          /\ count = Z.of_nat (List.length (filter stale (clients st))))
    /\ services (committed db') = services st
    /\ attendances (committed db') = attendances st
    /\ attendance_services (committed db') = attendance_services st
    /\ working db' = committed db'.
Proof.
  intros Hcut st cutoff.
  pose proof (datetime_sub_days_ok _ _ _ Hcut) as Hdate. fold cutoff in Hdate.
  unfold auto_inactivate_clients. rewrite Hcut. fold st.
  destruct (inactivate_loop_spec utcnow (to_inactivate st cutoff_date) (clients st) 0 1
              ltac:(lia)) as (rows' & tick' & Hrun & Hall).
  rewrite Hrun. eexists _, _. split; [reflexivity |].
  cbn [commit committed working clients services attendances attendance_services].
  split; [| split; [| repeat split]].
  - eapply Forall2_impl; [| exact Hall]. intros c c' Hc. cbv beta in Hc.
    pose proof (to_inactivate_stale st cutoff_date c) as Hiff. rewrite Hdate in Hiff.
    destruct (to_inactivate st cutoff_date c).
    + split; [intros _; exact Hc |]. intro Hn. exfalso. apply Hn, Hiff. reflexivity.
    + split; [| intros _; exact Hc]. intro Hs. apply Hiff in Hs. discriminate Hs.
  - exists (to_inactivate st cutoff_date). split.
    + intro c. rewrite <- Hdate. apply to_inactivate_stale.
    + reflexivity.
Qed.

Lemma auto_inactivate_clients_spec_witness :
  exists db',
    auto_inactivate_clients Sample45.utcnow (open_session Sample45.store) 45 = (db', Ok 2)
    /\ map Client.is_active (clients (committed db')) = [false; true; false].
Proof.
  destruct (auto_inactivate_clients_spec Sample45.utcnow (open_session Sample45.store) 45
              (Sample45.utcnow 0%nat - 45 * Calendar.usec_per_day) eq_refl)
    as (db' & count & Hrun & _).
  vm_compute in Hrun. injection Hrun as <- <-.
  eexists. split; reflexivity.
Defined.

(** *** The previous period of a report *)

Lemma sub_days_representable (d n : Z) :
  representable (d - n) -> Calendar.sub_days d n = Ok (d - n).
Proof.
  unfold representable, Calendar.sub_days, Calendar.fromordinal. intros [Hlo Hhi].
  apply Z.leb_le in Hlo. apply Z.leb_le in Hhi. rewrite Hlo, Hhi. reflexivity.
Qed.

Lemma add_days_representable (d n : Z) :
  representable (d + n) -> Calendar.add_days d n = Ok (d + n).
Proof.
  unfold representable, Calendar.add_days, Calendar.fromordinal. intros [Hlo Hhi].
  apply Z.leb_le in Hlo. apply Z.leb_le in Hhi. rewrite Hlo, Hhi. reflexivity.
Qed.

(** C7. Whatever the current period (start, end) resolves to, the report
    compares it with previousEnd = start - 1 day and previousStart =
    start - ((end - start) + 1) days, provided these are dates; the window
    has the length of the current one and ends the day before it. For
    2025-03-01 .. 2025-03-31 this is 2025-01-29 .. 2025-02-28, not February
    2025. *)
Theorem previous_period_is_preceding_window :
  (forall (strptime_date : string -> result Calendar.date) (today : Calendar.date)
          (db : Session) (period : string) (start_date end_date : option string)
          (current_start current_end : Calendar.date),
      current_period strptime_date today period start_date end_date
      = Ok (current_start, current_end) ->
      representable (current_start - ((current_end - current_start) + 1)) ->
      representable (current_start - 1) ->
      exists r,
        get_reports_summary_by_period strptime_date today db period start_date end_date = Ok r
        /\ ps_current r = (current_start, current_end)
        /\ ps_previous r = (current_start - ((current_end - current_start) + 1),
                            current_start - 1)
        /\ snd (ps_previous r) - fst (ps_previous r) = current_end - current_start)
  /\ previous_period (Calendar._ymd2ord 2025 3 1) (Calendar._ymd2ord 2025 3 31)
     = Ok (Calendar._ymd2ord 2025 1 29, Calendar._ymd2ord 2025 2 28)
  /\ Calendar._ymd2ord 2025 1 29 <> Calendar._ymd2ord 2025 2 1.
Proof.
  split; [| split; [reflexivity | discriminate]].
  intros strptime_date today db period start_date end_date cs ce Hcur Hps Hpe.
  unfold get_reports_summary_by_period. rewrite Hcur. cbn [bind].
  unfold previous_period, Calendar.days_between.
  rewrite (sub_days_representable cs (ce - cs + 1) Hps). cbn [bind].
  rewrite (sub_days_representable cs 1 Hpe). cbn [bind].
  eexists. split; [reflexivity |]. cbn [ps_current ps_previous fst snd].
  repeat split. lia.
Qed.

Lemma previous_period_is_preceding_window_witness :
  exists r,
    get_reports_summary_by_period
      (fun s => if String.eqb s "2025-03-01" then Ok (Calendar._ymd2ord 2025 3 1)
                else if String.eqb s "2025-03-31" then Ok (Calendar._ymd2ord 2025 3 31)
                else Raise ValueError)
      (Calendar._ymd2ord 2025 11 4) (open_session (Sample.store "finished" "paid"))
      "month" (Some "2025-03-01") (Some "2025-03-31") = Ok r
    /\ Calendar._ord2ymd (fst (ps_previous r)) = (2025, 1, 29)
    /\ Calendar._ord2ymd (snd (ps_previous r)) = (2025, 2, 28).
Proof.
  destruct (proj1 previous_period_is_preceding_window
              (fun s => if String.eqb s "2025-03-01" then Ok (Calendar._ymd2ord 2025 3 1)
                        else if String.eqb s "2025-03-31" then Ok (Calendar._ymd2ord 2025 3 31)
                        else Raise ValueError)
              (Calendar._ymd2ord 2025 11 4) (open_session (Sample.store "finished" "paid"))
              "month" (Some "2025-03-01") (Some "2025-03-31")
              (Calendar._ymd2ord 2025 3 1) (Calendar._ymd2ord 2025 3 31) eq_refl)
    as (r & Hr & _ & Hprev & _).
  - vm_compute. split; discriminate.
  - vm_compute. split; discriminate.
  - exists r. split; [exact Hr |]. rewrite Hprev. split; reflexivity.
Defined.

Example current_month_of_2025_03_15 :
  current_period (fun _ => Raise ValueError) (Calendar._ymd2ord 2025 3 15) "month" None None
  = Ok (Calendar._ymd2ord 2025 3 1, Calendar._ymd2ord 2025 3 31).
Proof. reflexivity. Qed.

Example current_week_of_2025_03_15 :
  current_period (fun _ => Raise ValueError) (Calendar._ymd2ord 2025 3 15) "week" None None
  = Ok (Calendar._ymd2ord 2025 3 10, Calendar._ymd2ord 2025 3 16).
Proof. reflexivity. Qed.

Example current_quarter_of_2025_11_04 :
  current_period (fun _ => Raise ValueError) (Calendar._ymd2ord 2025 11 4) "quarter" None None
  = Ok (Calendar._ymd2ord 2025 10 1, Calendar._ymd2ord 2025 12 31).
Proof. reflexivity. Qed.

(** *** Top clients *)

Lemma get_top_clients_at_most_10 (db : Session) :
  (List.length (get_top_clients db) <= 10)%nat.
Proof.
  unfold get_top_clients, top_clients_result. rewrite length_map. apply firstn_le_length.
Qed.

Lemma group_key_eqb_eq (a b : group_key) : group_key_eqb a b = true <-> a = b.
Proof.
  destruct a as [[i n] p], b as [[i' n'] p']. unfold group_key_eqb. cbn [fst snd].
  rewrite !andb_true_iff, Z.eqb_eq, !String.eqb_eq. split.
  - intros [[-> ->] ->]. reflexivity.
  - intros [= -> -> ->]. tauto.
Qed.

Lemma group_key_eqb_refl (a : group_key) : group_key_eqb a a = true.
Proof. apply group_key_eqb_eq. reflexivity. Qed.

Section Grouping.

Variable A : Type.
Variable key : A -> group_key.

Lemma insert_group_keys (k : group_key) (r : A) (groups : list (group_key * list A)) :
  (In k (map fst groups) -> map fst (insert_group k r groups) = map fst groups)
  /\ (~ In k (map fst groups) -> map fst (insert_group k r groups) = map fst groups ++ [k]).
Proof.
  induction groups as [| [k' rs] rest [IHin IHout]]; cbn [insert_group map fst In app].
  - split; [intros [] | reflexivity].
  - destruct (group_key_eqb k k') eqn:E.
    + apply group_key_eqb_eq in E. subst k'. split; [reflexivity | intro H; exfalso; auto].
    + assert (k' <> k) as Hne.
      { intro Heq. subst k'. rewrite group_key_eqb_refl in E. discriminate E. }
      cbn [map fst]. split.
      * intros [Heq | Hin]; [contradiction | rewrite (IHin Hin); reflexivity].
      * intro Hout. rewrite IHout by tauto. reflexivity.
Qed.

Lemma insert_group_members (k : group_key) (r : A) (groups : list (group_key * list A)) :
  NoDup (map fst groups) ->
  forall k0 rs0,
    In (k0, rs0) (insert_group k r groups) ->
    (k0 <> k /\ In (k0, rs0) groups)
    \/ (k0 = k /\ exists rs, In (k, rs) groups /\ rs0 = rs ++ [r])
    \/ (k0 = k /\ ~ In k (map fst groups) /\ rs0 = [r]).
Proof.
  induction groups as [| [k' rs] rest IH]; intros Hnd k0 rs0; cbn [insert_group].
  - intros [[= <- <-] | []]. right. right. repeat split. intros [].
  - cbn [map fst] in Hnd. inversion Hnd as [| ? ? Hnotin Hnd']; subst.
    destruct (group_key_eqb k k') eqn:E.
    + apply group_key_eqb_eq in E. subst k'.
      intros [[= <- <-] | Hin].
      * right. left. split; [reflexivity |]. exists rs. split; [left; reflexivity | reflexivity].
      * left. split; [| right; exact Hin].
        intro Heq. subst k0. apply Hnotin. change k with (fst (k, rs0)). apply in_map, Hin.
    + assert (k' <> k) as Hne.
      { intro Heq. subst k'. rewrite group_key_eqb_refl in E. discriminate E. }
      intros [[= <- <-] | Hin].
      * left. split; [exact Hne | left; reflexivity].
      * destruct (IH Hnd' k0 rs0 Hin) as [[Hk Hm] | [[Hk (rs1 & Hm & Hr)] | (Hk & Hm & Hr)]].
        -- left. split; [exact Hk | right; exact Hm].
        -- right. left. split; [exact Hk |]. exists rs1. split; [right; exact Hm | exact Hr].
        -- right. right. split; [exact Hk |]. split; [| exact Hr].
           simpl. intros [Heq | Hin']; [exact (Hne Heq) | exact (Hm Hin')].
Qed.

Lemma grouped_step (seen : list A) (groups : list (group_key * list A)) (r : A) :
  grouped key seen groups -> grouped key (seen ++ [r]) (insert_group (key r) r groups).
Proof.
  intros (Hnd & Hrows & Hkeys).
  destruct (insert_group_keys (key r) r groups) as [Kin Kout].
  destruct (in_dec (fun a b : group_key =>
                      match bool_dec (group_key_eqb a b) true with
                      | left e => left (proj1 (group_key_eqb_eq a b) e)
                      | right n => right (fun H => n (proj2 (group_key_eqb_eq a b) H))
                      end) (key r) (map fst groups)) as [Hin | Hout].
  - split; [rewrite (Kin Hin); exact Hnd |]. split.
    + intros k rs Hm. rewrite filter_app. cbn [filter].
      destruct (insert_group_members (key r) r groups Hnd k rs Hm)
        as [[Hk Hg] | [[Hk (rs1 & Hg & Hr)] | (Hk & Hno & _)]].
      * assert (group_key_eqb (key r) k = false) as ->.
        { destruct (group_key_eqb (key r) k) eqn:E; [| reflexivity].
          apply group_key_eqb_eq in E. congruence. }
        rewrite app_nil_r. apply Hrows, Hg.
      * subst k rs. rewrite group_key_eqb_refl. f_equal. apply Hrows, Hg.
      * contradiction.
    + intros x Hx. rewrite (Kin Hin). apply in_app_or in Hx.
      destruct Hx as [Hx | [<- | []]]; [apply Hkeys, Hx | exact Hin].
  - split.
    { rewrite (Kout Hout). apply NoDup_app; [exact Hnd | repeat constructor; intros [] |].
      intros k Hk [<- | []]. contradiction. }
    split.
    + intros k rs Hm. rewrite filter_app. cbn [filter].
      destruct (insert_group_members (key r) r groups Hnd k rs Hm)
        as [[Hk Hg] | [[Hk (rs1 & Hg & Hr)] | (Hk & _ & Hr)]].
      * assert (group_key_eqb (key r) k = false) as ->.
        { destruct (group_key_eqb (key r) k) eqn:E; [| reflexivity].
          apply group_key_eqb_eq in E. congruence. }
        rewrite app_nil_r. apply Hrows, Hg.
      * exfalso. apply Hout. change (key r) with (fst (key r, rs1)). apply in_map, Hg.
      * subst k rs. rewrite group_key_eqb_refl.
        assert (filter (fun r0 => group_key_eqb (key r0) (key r)) seen = []) as ->; [| reflexivity].
        destruct (filter (fun r0 => group_key_eqb (key r0) (key r)) seen) as [| x l] eqn:F;
          [reflexivity | exfalso].
        assert (In x (x :: l)) as Hx by (left; reflexivity).
        rewrite <- F in Hx. apply filter_In in Hx. destruct Hx as [Hx E].
        apply group_key_eqb_eq in E. apply Hout. rewrite <- E. apply Hkeys, Hx.
    + intros x Hx. rewrite (Kout Hout). apply in_or_app. apply in_app_or in Hx.
      destruct Hx as [Hx | [<- | []]]; [left; apply Hkeys, Hx | right; left; reflexivity].
Qed.

Lemma group_by_grouped (rows : list A) : grouped key rows (group_by key rows).
Proof.
  unfold group_by.
  assert (forall seen groups,
             grouped key seen groups ->
             grouped key (seen ++ rows)
                     (fold_left (fun g r => insert_group (key r) r g) rows groups)) as Gen.
  { induction rows as [| r rest IH]; intros seen groups Hg; cbn [fold_left].
    - rewrite app_nil_r. exact Hg.
    - replace (seen ++ r :: rest) with ((seen ++ [r]) ++ rest)
        by (rewrite <- app_assoc; reflexivity).
      apply IH, grouped_step, Hg. }
  apply (Gen [] []). split; [constructor |]. split; [intros k rs [] | intros r []].
Qed.

End Grouping.

Lemma insert_desc_in {A : Type} (count : A -> Z) (y : A) (m : list A) (x : A) :
  In x (insert_desc count y m) <-> x = y \/ In x m.
Proof.
  induction m as [| z m IH]; cbn [insert_desc In]; [intuition congruence |].
  destruct (count y <? count z); cbn [In]; [rewrite IH |]; intuition congruence.
Qed.

Lemma order_by_desc_in {A : Type} (count : A -> Z) (l : list A) (x : A) :
  In x (order_by_desc count l) <-> In x l.
Proof.
  unfold order_by_desc. induction l as [| y l IH]; cbn [fold_right In]; [tauto |].
  rewrite insert_desc_in, IH. intuition congruence.
Qed.

Lemma insert_desc_sorted {A : Type} (count : A -> Z) (x : A) (l : list A) :
  StronglySorted (fun a b => count b <= count a) l ->
  StronglySorted (fun a b => count b <= count a) (insert_desc count x l).
Proof.
  induction l as [| y l IH]; intro Hs; cbn [insert_desc].
  - constructor; constructor.
  - inversion Hs as [| ? ? Hl Hy]; subst.
    destruct (count x <? count y) eqn:E.
    + apply Z.ltb_lt in E. constructor; [apply IH, Hl |].
      apply Forall_forall. intros b Hb. apply insert_desc_in in Hb.
      destruct Hb as [-> | Hb]; [lia |]. rewrite Forall_forall in Hy. apply Hy, Hb.
    + apply Z.ltb_ge in E. constructor; [exact Hs |].
      constructor; [exact E |].
      rewrite Forall_forall in Hy |- *. intros b Hb. specialize (Hy b Hb). lia.
Qed.

Lemma order_by_desc_sorted {A : Type} (count : A -> Z) (l : list A) :
  StronglySorted (fun a b => count b <= count a) (order_by_desc count l).
Proof.
  unfold order_by_desc. induction l as [| y l IH]; cbn [fold_right]; [constructor |].
  apply insert_desc_sorted, IH.
Qed.

Lemma firstn_sorted {A : Type} (R : A -> A -> Prop) (n : nat) (l : list A) :
  StronglySorted R l -> StronglySorted R (firstn n l).
Proof.
  revert l. induction n as [| n IH]; intros l Hs; [constructor |].
  destruct l as [| x l]; [constructor |]. cbn [firstn].
  inversion Hs as [| ? ? Hl Hx]; subst. constructor; [apply IH, Hl |].
  rewrite Forall_forall in Hx |- *. intros b Hb. apply Hx.
  rewrite <- (firstn_skipn n l). apply in_or_app. left. exact Hb.
Qed.

(** The rows come in descending order of [totalVisits]. *)
Lemma get_top_clients_sorted (db : Session) :
  StronglySorted (fun a b => totalVisits b <= totalVisits a) (get_top_clients db).
Proof.
  unfold get_top_clients, top_clients_result.
  set (count := fun row : group_key * Z * option Q * option Calendar.datetime =>
                  snd (fst (fst row))).
  pose proof (firstn_sorted _ 10 _
                (order_by_desc_sorted count
                   (map aggregate (group_by top_clients_key
                                     (top_clients_rows (working db)))))) as Hs.
  induction Hs as [| [[[k n] sp] lv] l Hl IH Hx]; cbn [map]; constructor; [exact IH |].
  rewrite Forall_forall in Hx |- *. intros b Hb. apply in_map_iff in Hb.
  destruct Hb as ([[[k' n'] sp'] lv'] & <- & Hb). exact (Hx _ Hb).
Qed.

Lemma in_firstn {A : Type} (n : nat) (l : list A) (x : A) :
  In x (firstn n l) -> In x l.
Proof.
  intro H. rewrite <- (firstn_skipn n l). apply in_or_app. left. exact H.
Qed.

(** What [totalVisits] is: the number of joined rows of the client, one per
    service of each of its paid attendances. *)
Lemma get_top_clients_visits (db : Session) (row : TopClient) :
  In row (get_top_clients db) ->
  totalVisits row
  = Z.of_nat (List.length
      (filter (fun r => group_key_eqb (top_clients_key r) (tc_id row, tc_name row, tc_phone row))
              (top_clients_rows (working db)))).
Proof.
  unfold get_top_clients, top_clients_result. intro Hin.
  apply in_map_iff in Hin. destruct Hin as ([[[k n] sp] lv] & <- & Hin).
  cbn [totalVisits tc_id tc_name tc_phone].
  apply in_firstn, order_by_desc_in, in_map_iff in Hin.
  destruct Hin as ([k' rs] & Hagg & Hg). unfold aggregate in Hagg. cbn [fst snd] in Hagg.
  injection Hagg as -> <- _ _.
  destruct (group_by_grouped _ top_clients_key (top_clients_rows (working db)))
    as (_ & Hrows & _).
  rewrite length_map, (Hrows k rs Hg). destruct k as [[i nm] ph]. reflexivity.
Qed.

(** C3. [get_top_clients] counts one visit per service of a paid attendance,
    not one per attendance: for a client whose single paid attendance has two
    services the row reports totalVisits = 2, while the client has one paid
    attendance; totalRevenue is the sum of the two prices and lastVisit the
    appointment time. *)
Theorem get_top_clients_counts_service_rows :
  get_top_clients (open_session (Sample.store "finished" "paid"))
  = [ {| tc_id := 1; tc_name := "Ana"; tc_phone := "11988887777";
         totalVisits := 2; totalRevenue := 50;
         lastVisit := Some Sample.noon_2025_03_10; tc_status := "active" |} ]
  /\ List.length (spec_paid_attendances (Sample.store "finished" "paid") 1) = 1%nat.
Proof. split; reflexivity. Qed.

(** *** The revenue series *)

Lemma unrecognised_eqb (period : string) :
  ~ recognised period ->
  String.eqb period "day" = false /\ String.eqb period "week" = false
  /\ String.eqb period "month" = false /\ String.eqb period "quarter" = false
  /\ String.eqb period "year" = false.
Proof.
  unfold recognised. intro H.
  repeat split; apply String.eqb_neq; intro E; apply H; tauto.
Qed.

Section RevenueSeries.

Variable strptime_date : string -> result Calendar.date.
Variable strftime : Calendar.date -> string -> string.
Variable isoformat : Calendar.date -> string.

Lemma series_loop_succ (fuel : nat) (st : Store) (period : string)
    (end_ current : Calendar.date) (data_points : list DataPoint) :
  series_loop strftime isoformat (S fuel) st period end_ current data_points
  = if current <=? end_ then
      match series_body strftime isoformat st period end_ current with
      | Raise e => Raised e
      | Ok (points, current') =>
          series_loop strftime isoformat fuel st period end_ current'
                      (data_points ++ points)
      end
    else Returned data_points.
Proof. reflexivity. Qed.

(** With an unrecognised period the body of the loop changes nothing. *)
Lemma series_body_unrecognised (st : Store) (period : string) (end_ current : Calendar.date) :
  ~ recognised period ->
  series_body strftime isoformat st period end_ current = Ok ([], current).
Proof.
  intro H. destruct (unrecognised_eqb period H) as (D & W & M & Qr & Y).
  unfold series_body. rewrite D, W, M, Qr, Y. reflexivity.
Qed.

(** So the loop never leaves once entered. *)
Lemma series_loop_unrecognised (st : Store) (period : string) (end_ current : Calendar.date) :
  ~ recognised period ->
  current <= end_ ->
  forall (fuel : nat) (data_points : list DataPoint),
    series_loop strftime isoformat fuel st period end_ current data_points = OutOfFuel.
Proof.
  intros H Hle. apply Z.leb_le in Hle.
  induction fuel as [| fuel IH]; intro data_points; [reflexivity |].
  rewrite series_loop_succ, Hle, (series_body_unrecognised st period end_ current H).
  apply IH.
Qed.

(** The daily series: one point per day, then the loop returns. *)
Lemma series_loop_day (st : Store) (end_ : Calendar.date) :
  end_ < Calendar._MAXORDINAL ->
  forall (n : nat) (current : Calendar.date) (data_points : list DataPoint),
    1 <= current ->
    Z.of_nat n = end_ - current + 1 ->
    series_loop strftime isoformat (S n) st "day" end_ current data_points
    = Returned
        (data_points
         ++ map (fun k =>
                   let d := current + Z.of_nat k in
                   {| dp_date := isoformat d; dp_revenue := revenue_on st d;
                      dp_label := strftime d "%d/%m" |})
                (seq 0 n)).
Proof.
  intro Hend. induction n as [| n IH]; intros current data_points Hlo Hn.
  - rewrite series_loop_succ. cbn [seq map].
    assert ((current <=? end_) = false) as -> by (apply Z.leb_gt; lia).
    rewrite app_nil_r. reflexivity.
  - rewrite series_loop_succ.
    assert ((current <=? end_) = true) as -> by (apply Z.leb_le; lia).
    unfold series_body. cbn [String.eqb Ascii.eqb Bool.eqb andb].
    rewrite add_days_representable by (unfold representable; lia). cbn [bind].
    rewrite (IH (current + 1)) by lia.
    f_equal. rewrite <- app_assoc. f_equal. cbn [seq map app].
    rewrite Z.add_0_r. f_equal.
    rewrite <- seq_shift, map_map. apply map_ext. intro k.
    replace (current + 1 + Z.of_nat k) with (current + Z.of_nat (S k)) by lia.
    reflexivity.
Qed.

(** With the period day and no bounds the call returns the series of the
    last 30 days. *)
Lemma get_revenue_by_period_day (today : Calendar.date) (db : Session) :
  representable (today - 30) ->
  today < Calendar._MAXORDINAL ->
  get_revenue_by_period strptime_date strftime isoformat 32 today db "day" None None
  = Returned (spec_daily_series strftime isoformat today db).
Proof.
  intros Hr Ht. unfold get_revenue_by_period, series_range.
  cbn [both_given String.eqb Ascii.eqb Bool.eqb andb].
  rewrite (sub_days_representable today 30 Hr). cbn [bind].
  rewrite (series_loop_day (working db) today Ht 31 (today - 30) [])
    by (unfold representable in Hr; lia).
  reflexivity.
Qed.

(** With the period quarter the loop sticks on the first day of the last
    month of a quarter: from 2024-12-01 the body comes back to
    2024-12-01. *)
Lemma series_body_quarter_stuck (st : Store) (end_ : Calendar.date) :
  exists point,
    series_body strftime isoformat st "quarter" end_ (Calendar._ymd2ord 2024 12 1)
    = Ok ([point], Calendar._ymd2ord 2024 12 1).
Proof. eexists. reflexivity. Qed.

Lemma series_loop_quarter_stuck (st : Store) (end_ : Calendar.date) :
  Calendar._ymd2ord 2024 12 1 <= end_ ->
  forall (fuel : nat) (data_points : list DataPoint),
    series_loop strftime isoformat fuel st "quarter" end_ (Calendar._ymd2ord 2024 12 1)
                data_points = OutOfFuel.
Proof.
  intro Hle. apply Z.leb_le in Hle.
  destruct (series_body_quarter_stuck st end_) as (point & Hbody).
  induction fuel as [| fuel IH]; intro data_points; [reflexivity |].
  rewrite series_loop_succ, Hle, Hbody. apply IH.
Qed.

(** Called on 2025-11-04 with the period quarter and no bounds, the
    series starts on 2024-11-09, moves to 2024-12-01 and stays there. *)
Lemma get_revenue_by_period_quarter_never_returns (db : Session) (fuel : nat) :
  get_revenue_by_period strptime_date strftime isoformat fuel
    (Calendar._ymd2ord 2025 11 4) db "quarter" None None = OutOfFuel.
Proof.
  unfold get_revenue_by_period.
  change (series_range strptime_date (Calendar._ymd2ord 2025 11 4) "quarter" None None)
    with (Ok (Calendar._ymd2ord 2024 11 9, Calendar._ymd2ord 2025 11 4)).
  destruct fuel as [| fuel]; [reflexivity |].
  rewrite series_loop_succ.
  change (Calendar._ymd2ord 2024 11 9 <=? Calendar._ymd2ord 2025 11 4) with true.
  cbv iota.
  assert (exists point,
             series_body strftime isoformat (working db) "quarter"
               (Calendar._ymd2ord 2025 11 4) (Calendar._ymd2ord 2024 11 9)
             = Ok ([point], Calendar._ymd2ord 2024 12 1)) as (point & ->)
    by (eexists; reflexivity).
  apply series_loop_quarter_stuck. discriminate.
Qed.

End RevenueSeries.

(** C4. With a granularity outside day, week, month, quarter and year and no
    bounds, [get_revenue_by_period] does not return the daily series: the
    range is set to the last 30 days, but no branch of the loop body handles
    the granularity, [current] never advances, and the loop runs without end
    whatever the number of iterations allowed. *)
Theorem get_revenue_by_period_unrecognised_never_returns
    (strptime_date : string -> result Calendar.date)
    (strftime : Calendar.date -> string -> string)
    (isoformat : Calendar.date -> string)
    (today : Calendar.date) (db : Session) (period : string) :
  ~ recognised period ->
  representable (today - 30) ->
  forall fuel : nat,
    get_revenue_by_period strptime_date strftime isoformat fuel today db period None None
    = OutOfFuel.
Proof.
  intros H Hr fuel. destruct (unrecognised_eqb period H) as (D & W & M & Qr & Y).
  unfold get_revenue_by_period, series_range. cbn [both_given].
  rewrite D, W, M, Qr, Y. rewrite (sub_days_representable today 30 Hr). cbn [bind].
  apply series_loop_unrecognised; [exact H | lia].
Qed.

Lemma get_revenue_by_period_unrecognised_never_returns_witness :
  get_revenue_by_period (fun _ => Raise ValueError) (fun _ _ => "") (fun _ => "") 1000
    (Calendar._ymd2ord 2025 11 4) (open_session (Sample.store "finished" "paid"))
    "hour" None None
  = OutOfFuel.
Proof.
  apply (get_revenue_by_period_unrecognised_never_returns
           (fun _ => Raise ValueError) (fun _ _ => "") (fun _ => "")
           (Calendar._ymd2ord 2025 11 4) (open_session (Sample.store "finished" "paid"))
           "hour").
  - unfold recognised. intros [H | [H | [H | [H | H]]]]; discriminate H.
  - vm_compute. split; discriminate.
Defined.

(** *** The calendar: dates and ordinals *)

Ltac zlia := Z.to_euclidean_division_equations; lia.

(** Linear arithmetic over dates: the calendar terms are first replaced by
    variables, so that the arithmetic is decided, and checked, without
    looking into them. *)
Ltac abstract_term t :=
  repeat match goal with
         | H : context [t] |- _ => revert H
         end;
  let x := fresh "z" in generalize t; intro x; intros.

Ltac abstract_calendar :=
  repeat match goal with
         | |- context [Calendar._ymd2ord ?a ?b ?c] => abstract_term (Calendar._ymd2ord a b c)
         | H : context [Calendar._ymd2ord ?a ?b ?c] |- _ =>
             abstract_term (Calendar._ymd2ord a b c)
         | |- context [Calendar._days_in_month ?a ?b] => abstract_term (Calendar._days_in_month a b)
         | H : context [Calendar._days_in_month ?a ?b] |- _ =>
             abstract_term (Calendar._days_in_month a b)
         | |- context [Calendar.year ?a] => abstract_term (Calendar.year a)
         | H : context [Calendar.year ?a] |- _ => abstract_term (Calendar.year a)
         | |- context [Calendar.month ?a] => abstract_term (Calendar.month a)
         | H : context [Calendar.month ?a] |- _ => abstract_term (Calendar.month a)
         | |- context [Calendar.day ?a] => abstract_term (Calendar.day a)
         | H : context [Calendar.day ?a] |- _ => abstract_term (Calendar.day a)
         end.

Ltac cal_lia :=
  abstract_calendar; unfold representable, Calendar._MAXORDINAL in *; lia.

Lemma is_leap_decomp (a b c e : Z) :
  0 <= b < 4 -> 0 <= c < 25 -> 0 <= e < 4 ->
  Calendar._is_leap (400 * a + 100 * b + 4 * c + e + 1)
  = (e =? 3) && (negb (c =? 24) || (b =? 3)).
Proof.
  intros. unfold Calendar._is_leap.
  destruct (e =? 3) eqn:E3; destruct (c =? 24) eqn:E24; destruct (b =? 3) eqn:Eb;
  cbn [andb orb negb];
  repeat match goal with
  | |- context [?x =? ?y] => let E := fresh in destruct (x =? y) eqn:E
  end; cbn [andb orb negb]; try reflexivity; exfalso; zlia.
Qed.

Ltac eval_tables :=
  repeat match goal with
         | |- context [nth (Z.to_nat ?k) ?t 0] =>
             let v := eval vm_compute in (nth (Z.to_nat k) t 0) in
             change (nth (Z.to_nat k) t 0) with v
         end.

Lemma ord2ymd_sound (n : Z) :
  1 <= n <= Calendar._MAXORDINAL ->
  let '(y, m, d) := Calendar._ord2ymd n in
  valid_ymd y m d /\ Calendar._ymd2ord y m d = n.
Proof.
  intro Hn. unfold Calendar._ord2ymd, Calendar._MAXORDINAL, Calendar._DI400Y, Calendar._DI100Y, Calendar._DI4Y in *.
  set (n400 := (n - 1) / 146097).
  set (r1 := (n - 1) mod 146097).
  set (n100 := r1 / 36524).
  set (r2 := r1 mod 36524).
  set (n4 := r2 / 1461).
  set (r3 := r2 mod 1461).
  set (n1 := r3 / 365).
  set (r := r3 mod 365).
  assert (0 <= n400 <= 24 /\ 0 <= r1 < 146097 /\ n - 1 = 146097 * n400 + r1) as (B400 & Br1 & E1)
    by (subst n400 r1; zlia).
  assert (0 <= n100 <= 4 /\ 0 <= r2 < 36524 /\ r1 = 36524 * n100 + r2) as (B100 & Br2 & E2)
    by (subst n100 r2; zlia).
  assert (0 <= n4 <= 24 /\ 0 <= r3 < 1461 /\ r2 = 1461 * n4 + r3) as (B4 & Br3 & E3)
    by (subst n4 r3; zlia).
  assert (0 <= n1 <= 4 /\ 0 <= r < 365 /\ r3 = 365 * n1 + r) as (B1 & Br & E4)
    by (subst n1 r; zlia).
  clearbody n400 r1 n100 r2 n4 r3 n1 r.
  destruct ((n1 =? 4) || (n100 =? 4)) eqn:Elast.
  - apply orb_true_iff in Elast.
    assert (Calendar._is_leap (n400 * 400 + 1 + n100 * 100 + n4 * 4 + n1 - 1) = true) as Hleap.
    { destruct Elast as [E | E]; apply Z.eqb_eq in E.
      - replace (n400 * 400 + 1 + n100 * 100 + n4 * 4 + n1 - 1)
          with (400 * n400 + 100 * n100 + 4 * n4 + 3 + 1) by zlia.
        rewrite is_leap_decomp by zlia.
        assert (n4 <> 24) as N by zlia. apply Z.eqb_neq in N. rewrite N. reflexivity.
      - replace (n400 * 400 + 1 + n100 * 100 + n4 * 4 + n1 - 1)
          with (400 * n400 + 100 * 3 + 4 * 24 + 3 + 1) by zlia.
        rewrite is_leap_decomp by zlia. reflexivity. }
    unfold valid_ymd, Calendar._ymd2ord, Calendar._days_in_month, Calendar._days_before_month, Calendar._days_before_year.
    rewrite Hleap. eval_tables. cbn [Z.eqb Pos.eqb Z.gtb Z.compare Pos.compare Pos.compare_cont andb].
    destruct Elast as [E | E]; apply Z.eqb_eq in E; zlia.
  - apply orb_false_iff in Elast. destruct Elast as [N1 N100].
    apply Z.eqb_neq in N1. apply Z.eqb_neq in N100.
    rewrite Z.shiftr_div_pow2 by zlia. change (2 ^ 5) with 32.
    set (m0 := (r + 50) / 32).
    assert (1 <= m0 <= 12 /\ 32 * m0 <= r + 50 < 32 * m0 + 32) as [Bm Em] by (subst m0; zlia).
    clearbody m0.
    replace (n400 * 400 + 1 + n100 * 100 + n4 * 4 + n1)
      with (400 * n400 + 100 * n100 + 4 * n4 + n1 + 1) by zlia.
    set (leap := (n1 =? 3) && (negb (n4 =? 24) || (n100 =? 3))).
    assert (Calendar._is_leap (400 * n400 + 100 * n100 + 4 * n4 + n1 + 1) = leap) as Hleap
      by (apply is_leap_decomp; zlia).
    assert (Calendar._days_before_year (400 * n400 + 100 * n100 + 4 * n4 + n1 + 1)
            = 146097 * n400 + 36524 * n100 + 1461 * n4 + 365 * n1) as Hdby
      by (unfold Calendar._days_before_year; zlia).
    assert (m0 = 1 \/ m0 = 2 \/ m0 = 3 \/ m0 = 4 \/ m0 = 5 \/ m0 = 6 \/ m0 = 7 \/ m0 = 8
            \/ m0 = 9 \/ m0 = 10 \/ m0 = 11 \/ m0 = 12) as Hm by zlia.
    assert (leap = true -> r3 <> 1460 -> True) by trivial.
    clearbody leap.
    repeat (destruct Hm as [-> | Hm]); try subst m0; destruct leap;
      eval_tables;
      repeat match goal with
             | |- context [if ?b then _ else _] => destruct b eqn:?
             end;
      unfold valid_ymd, Calendar._ymd2ord, Calendar._days_in_month, Calendar._days_before_month;
      rewrite ?Hleap, ?Hdby; eval_tables;
      repeat match goal with
             | |- context [if ?b then _ else _] => destruct b eqn:?
             end;
      zlia.
Qed.

Ltac split_ifs :=
  repeat match goal with
         | |- context [if ?b then _ else _] => destruct b eqn:?
         end.

Ltac split_month m H :=
  assert (m = 1 \/ m = 2 \/ m = 3 \/ m = 4 \/ m = 5 \/ m = 6 \/ m = 7 \/ m = 8
          \/ m = 9 \/ m = 10 \/ m = 11 \/ m = 12) as H by zlia;
  repeat (destruct H as [-> | H]); try subst m.

Lemma day_of_year_bounds (y m d : Z) :
  valid_ymd y m d ->
  1 <= Calendar._days_before_month y m + d <= 365 + (if Calendar._is_leap y then 1 else 0).
Proof.
  unfold valid_ymd, Calendar._days_before_month, Calendar._days_in_month. intros (_ & Hm & Hd).
  destruct (Calendar._is_leap y); split_month m Hc; revert Hd; eval_tables; split_ifs; zlia.
Qed.

Lemma days_before_year_next (y : Z) :
  Calendar._days_before_year (y + 1) = Calendar._days_before_year y + 365 + (if Calendar._is_leap y then 1 else 0).
Proof.
  unfold Calendar._days_before_year, Calendar._is_leap.
  destruct (y mod 4 =? 0) eqn:E4; destruct (y mod 100 =? 0) eqn:E100;
    destruct (y mod 400 =? 0) eqn:E400; cbn [andb orb negb]; zlia.
Qed.

Lemma days_before_year_mono (y y' : Z) :
  y <= y' -> Calendar._days_before_year y <= Calendar._days_before_year y'.
Proof. unfold Calendar._days_before_year. zlia. Qed.

Lemma ymd2ord_inj (y m d y' m' d' : Z) :
  valid_ymd y m d -> valid_ymd y' m' d' ->
  Calendar._ymd2ord y m d = Calendar._ymd2ord y' m' d' ->
  (y, m, d) = (y', m', d').
Proof.
  intros V V' E.
  pose proof (day_of_year_bounds y m d V) as B.
  pose proof (day_of_year_bounds y' m' d' V') as B'.
  unfold Calendar._ymd2ord in E.
  assert (y = y') as <-.
  { destruct (Z.lt_trichotomy y y') as [L | [L | L]]; [exfalso | exact L | exfalso].
    - pose proof (days_before_year_next y). pose proof (days_before_year_mono (y + 1) y'). zlia.
    - pose proof (days_before_year_next y'). pose proof (days_before_year_mono (y' + 1) y). zlia. }
  assert (Calendar._days_before_month y m + d = Calendar._days_before_month y m' + d') as E2 by zlia.
  clear E B B'. destruct V as (_ & Hm & Hd), V' as (_ & Hm' & Hd').
  unfold Calendar._days_before_month, Calendar._days_in_month in *.
  destruct (Calendar._is_leap y); split_month m Hc; split_month m' Hc';
    revert E2 Hd Hd'; eval_tables; split_ifs; intros; try (exfalso; zlia);
    f_equal; zlia.
Qed.

Lemma ymd2ord_range (y m d : Z) :
  valid_ymd y m d -> representable (Calendar._ymd2ord y m d).
Proof.
  intro V. pose proof (day_of_year_bounds y m d V) as B.
  destruct V as (Hy & _ & _).
  pose proof (days_before_year_next y) as N.
  pose proof (days_before_year_mono 1 y ltac:(lia)) as L.
  pose proof (days_before_year_mono (y + 1) 10000 ltac:(lia)) as U.
  change (Calendar._days_before_year 1) with 0 in L.
  change (Calendar._days_before_year 10000) with 3652059 in U.
  unfold representable, Calendar._ymd2ord, Calendar._MAXORDINAL. lia.
Qed.

(** A date built from (year, month, day) gives these fields back. *)
Lemma ord2ymd_ymd2ord (y m d : Z) :
  valid_ymd y m d -> Calendar._ord2ymd (Calendar._ymd2ord y m d) = (y, m, d).
Proof.
  intro V. pose proof (ord2ymd_sound _ (ymd2ord_range y m d V)) as S.
  destruct (Calendar._ord2ymd (Calendar._ymd2ord y m d)) as [[y' m'] d'].
  destruct S as [V' E]. apply ymd2ord_inj; assumption.
Qed.

(** The fields of a date are a valid civil date, and rebuild the date. *)
Lemma date_fields (d : Calendar.date) :
  representable d ->
  valid_ymd (Calendar.year d) (Calendar.month d) (Calendar.day d)
  /\ Calendar._ymd2ord (Calendar.year d) (Calendar.month d) (Calendar.day d) = d.
Proof.
  intro R. pose proof (ord2ymd_sound d R) as S.
  unfold Calendar.year, Calendar.month, Calendar.day.
  destruct (Calendar._ord2ymd d) as [[y m] dd]. exact S.
Qed.

Lemma mkdate_valid (y m d : Z) :
  valid_ymd y m d -> Calendar.mkdate y m d = Ok (Calendar._ymd2ord y m d).
Proof.
  unfold valid_ymd, Calendar.mkdate, Calendar.MINYEAR, Calendar.MAXYEAR.
  intros ([Y1 Y2] & [M1 M2] & [D1 D2]).
  apply Z.leb_le in Y1, Y2, M1, M2, D1, D2.
  rewrite Y1, Y2, M1, M2, D1, D2. reflexivity.
Qed.

Lemma valid_first_day (y m : Z) :
  1 <= y <= 9999 -> 1 <= m <= 12 -> valid_ymd y m 1.
Proof.
  intros Hy Hm. unfold valid_ymd, Calendar._days_in_month.
  split; [exact Hy |]. split; [exact Hm |].
  split_month m Hc; eval_tables; split_ifs; lia.
Qed.

Lemma valid_last_day (y m : Z) :
  1 <= y <= 9999 -> 1 <= m <= 12 -> valid_ymd y m (Calendar._days_in_month y m).
Proof.
  intros Hy Hm. unfold valid_ymd.
  split; [exact Hy |]. split; [exact Hm |].
  unfold Calendar._days_in_month. split_month m Hc; eval_tables; split_ifs; lia.
Qed.

Lemma first_of_month_valid (y m : Z) :
  1 <= y <= 9999 -> 1 <= m <= 12 ->
  first_of_month y m = Ok (Calendar._ymd2ord y m 1).
Proof. intros Hy Hm. apply mkdate_valid, valid_first_day; assumption. Qed.

(** The day after the last day of a month is the first day of the next
    month. *)
Lemma next_month_first (y m : Z) :
  1 <= m <= 12 ->
  Calendar._ymd2ord y m (Calendar._days_in_month y m) + 1
  = if m =? 12 then Calendar._ymd2ord (y + 1) 1 1 else Calendar._ymd2ord y (m + 1) 1.
Proof.
  intro Hm. unfold Calendar._ymd2ord, Calendar._days_in_month, Calendar._days_before_month.
  pose proof (days_before_year_next y) as N.
  split_month m Hc; eval_tables; destruct (Calendar._is_leap y);
    cbn [Z.eqb Pos.eqb Z.gtb Z.compare Pos.compare Pos.compare_cont andb Z.add Pos.add
         Pos.succ Pos.add_carry];
    try change (Calendar._is_leap (y + 1)) with (Calendar._is_leap (y + 1));
    split_ifs; lia.
Qed.

Lemma ymd2ord_day_mono (y m d d' : Z) :
  Calendar._ymd2ord y m d' - Calendar._ymd2ord y m d = d' - d.
Proof. unfold Calendar._ymd2ord. lia. Qed.

Lemma ymd2ord_month_mono (y m m' : Z) :
  1 <= m -> m <= m' -> m' <= 12 ->
  Calendar._ymd2ord y m 1 <= Calendar._ymd2ord y m' 1.
Proof.
  intros H1 H2 H3. unfold Calendar._ymd2ord, Calendar._days_before_month.
  destruct (Calendar._is_leap y); split_month m Hc; split_month m' Hc';
    try lia; eval_tables; split_ifs; lia.
Qed.

Lemma date_le_month_end (y m d : Z) :
  valid_ymd y m d ->
  Calendar._ymd2ord y m 1 <= Calendar._ymd2ord y m d
  /\ Calendar._ymd2ord y m d <= Calendar._ymd2ord y m (Calendar._days_in_month y m).
Proof. intros (_ & _ & Hd). unfold Calendar._ymd2ord. lia. Qed.

Lemma month_end_before_later_month (y m m' : Z) :
  1 <= m -> m < m' -> m' <= 12 ->
  Calendar._ymd2ord y m (Calendar._days_in_month y m) + 1 <= Calendar._ymd2ord y m' 1.
Proof.
  intros H1 H2 H3. rewrite next_month_first by lia.
  assert ((m =? 12) = false) as -> by (apply Z.eqb_neq; lia).
  apply ymd2ord_month_mono; lia.
Qed.

Lemma year_below_max (d : Calendar.date) :
  representable d -> Calendar.year d < 9999 -> d <= Calendar._MAXORDINAL - 365.
Proof.
  intros R Hy. destruct (date_fields d R) as [V E].
  pose proof (day_of_year_bounds _ _ _ V) as B.
  pose proof (days_before_year_next (Calendar.year d)) as N.
  pose proof (days_before_year_mono (Calendar.year d + 1) 9999 ltac:(lia)) as U.
  change (Calendar._days_before_year 9999) with 3651694 in U.
  unfold Calendar._ymd2ord in E. unfold Calendar._MAXORDINAL. lia.
Qed.

(** X1. With no bounds given, the current period of a report always
    contains today: Monday to Sunday for week, the first to the last day of
    today's month, quarter (months 1-3, 4-6, 7-9, 10-12) or year, and today
    alone for day and for any unrecognised granularity. It holds for every
    today from day 7 of year 1 up to the end of year 9998. *)
Theorem current_period_contains_today
    (strptime_date : string -> result Calendar.date) (today : Calendar.date)
    (period : string) :
  representable today -> 7 <= today -> Calendar.year today < 9999 ->
  let y := Calendar.year today in
  let m := Calendar.month today in
  let q := ((m - 1) / 3) * 3 + 1 in
  exists s e,
    current_period strptime_date today period None None = Ok (s, e)
    /\ s <= today <= e
    /\ (period = "week" -> Calendar.weekday s = 0 /\ e = s + 6)
    /\ (period = "month" ->
        s = Calendar._ymd2ord y m 1
        /\ e = Calendar._ymd2ord y m (Calendar._days_in_month y m))
    /\ (period = "quarter" ->
        s = Calendar._ymd2ord y q 1
        /\ e = Calendar._ymd2ord y (q + 2) (Calendar._days_in_month y (q + 2)))
    /\ (period = "year" ->
        s = Calendar._ymd2ord y 1 1 /\ e = Calendar._ymd2ord y 12 31)
    /\ (period = "day" \/ ~ recognised period -> s = today /\ e = today).
Proof.
  intros R H7 Hy. cbv zeta. unfold current_period. cbn [both_given].
  destruct (date_fields today R) as [V E].
  pose proof (year_below_max today R Hy) as Hmax.
  set (y := Calendar.year today) in *. set (m := Calendar.month today) in *.
  set (q := ((m - 1) / 3) * 3 + 1) in *.
  assert ((q = 1 \/ q = 4 \/ q = 7 \/ q = 10) /\ q <= m <= q + 2 -> True) as _ by trivial.
  destruct V as (By & Bm & Bd).
  assert ((q = 1 \/ q = 4 \/ q = 7 \/ q = 10) /\ q <= m <= q + 2) as [Hq Hqm]
    by (subst q; zlia).
  assert (valid_ymd y m (Calendar.day today)) as V by (repeat split; lia).
  destruct (date_le_month_end _ _ _ V) as [Lo Hi]. rewrite E in Lo, Hi.
  clearbody q. clearbody m. clearbody y.
  unfold representable, Calendar._MAXORDINAL in *.
  destruct (String.eqb_spec period "day") as [-> | Nd].
  { exists today, today. split; [reflexivity |]. split; [lia |].
    repeat split; try discriminate; reflexivity. }
  destruct (String.eqb_spec period "week") as [-> | Nw].
  { pose proof (Z.mod_pos_bound (today + 6) 7 ltac:(lia)) as Bw.
    unfold Calendar.weekday at 1.
    rewrite sub_days_representable by (unfold representable, Calendar._MAXORDINAL; lia).
    cbn [bind].
    rewrite add_days_representable by (unfold representable, Calendar._MAXORDINAL; lia).
    cbn [bind]. eexists _, _. split; [reflexivity |]. split; [lia |].
    split; [intros _; split; [unfold Calendar.weekday; zlia | reflexivity] |].
    repeat split; try discriminate.
    - destruct H as [H | H]; [discriminate H | exfalso; apply H; unfold recognised; tauto].
    - destruct H as [H | H]; [discriminate H | exfalso; apply H; unfold recognised; tauto]. }
  destruct (String.eqb_spec period "month") as [-> | Nm].
  { rewrite (first_of_month_valid y m) by lia. cbn [bind].
    pose proof (next_month_first y m Bm) as Nx.
    assert ((if m =? 12 then first_of_month (y + 1) 1 else first_of_month y (m + 1))
            = Ok (Calendar._ymd2ord y m (Calendar._days_in_month y m) + 1)) as ->.
    { rewrite Nx. destruct (m =? 12) eqn:E12.
      - apply first_of_month_valid; lia.
      - apply Z.eqb_neq in E12. apply first_of_month_valid; lia. }
    cbn [bind].
    pose proof (ymd2ord_range _ _ _ (valid_last_day y m ltac:(lia) Bm)) as Rl.
    rewrite sub_days_representable
      by (unfold representable, Calendar._MAXORDINAL in *; lia).
    cbn [bind]. eexists _, _. split; [reflexivity |]. split; [lia |].
    repeat split; try discriminate; try lia.
    - destruct H as [H | H]; [discriminate H | exfalso; apply H; unfold recognised; tauto].
    - destruct H as [H | H]; [discriminate H | exfalso; apply H; unfold recognised; tauto]. }
  destruct (String.eqb_spec period "quarter") as [-> | Nq].
  { rewrite (first_of_month_valid y q) by lia. cbn [bind].
    pose proof (next_month_first y (q + 2) ltac:(lia)) as Nx.
    assert ((if q =? 10 then first_of_month (y + 1) 1 else first_of_month y (q + 3))
            = Ok (Calendar._ymd2ord y (q + 2) (Calendar._days_in_month y (q + 2)) + 1)) as ->.
    { rewrite Nx. destruct (q =? 10) eqn:E10.
      - apply Z.eqb_eq in E10. rewrite E10. apply first_of_month_valid; lia.
      - apply Z.eqb_neq in E10.
        assert ((q + 2 =? 12) = false) as -> by (apply Z.eqb_neq; lia).
        replace (q + 2 + 1) with (q + 3) by lia. apply first_of_month_valid; lia. }
    cbn [bind].
    pose proof (ymd2ord_range _ _ _ (valid_last_day y (q + 2) ltac:(lia) ltac:(lia))) as Rl.
    rewrite sub_days_representable
      by (unfold representable, Calendar._MAXORDINAL in *; lia).
    cbn [bind]. eexists _, _. split; [reflexivity |].
    pose proof (ymd2ord_month_mono y q m ltac:(lia) ltac:(lia) ltac:(lia)) as Mq.
    assert (today <= Calendar._ymd2ord y (q + 2) (Calendar._days_in_month y (q + 2))) as Hend.
    { destruct (Z.eq_dec m (q + 2)) as [Em | Hne]; [rewrite Em in Hi; lia |].
      pose proof (month_end_before_later_month y m (q + 2) ltac:(lia) ltac:(lia) ltac:(lia)).
      destruct (date_le_month_end y (q + 2) 1 (valid_first_day y (q + 2) ltac:(lia) ltac:(lia))).
      lia. }
    split; [lia |].
    repeat split; try discriminate; try lia.
    - destruct H as [H | H]; [discriminate H | exfalso; apply H; unfold recognised; tauto].
    - destruct H as [H | H]; [discriminate H | exfalso; apply H; unfold recognised; tauto]. }
  destruct (String.eqb_spec period "year") as [-> | Nyr].
  { rewrite (first_of_month_valid y 1) by lia. cbn [bind].
    rewrite (first_of_month_valid (y + 1) 1) by lia. cbn [bind].
    pose proof (next_month_first y 12 ltac:(lia)) as Nx.
    change (12 =? 12) with true in Nx. cbv iota in Nx.
    assert (Calendar._days_in_month y 12 = 31) as D12
      by (unfold Calendar._days_in_month; reflexivity).
    rewrite D12 in Nx.
    pose proof (ymd2ord_range y 12 31 ltac:(repeat split; try lia; rewrite D12; lia)) as Rl.
    rewrite sub_days_representable
      by (unfold representable, Calendar._MAXORDINAL in *; lia).
    cbn [bind]. eexists _, _. split; [reflexivity |].
    pose proof (ymd2ord_month_mono y 1 m ltac:(lia) ltac:(lia) ltac:(lia)) as M1.
    assert (today <= Calendar._ymd2ord y 12 31) as Hend.
    { destruct (Z.eq_dec m 12) as [E12 | Hne].
      - rewrite E12, D12 in Hi. exact Hi.
      - pose proof (month_end_before_later_month y m 12 ltac:(lia) ltac:(lia) ltac:(lia)).
        destruct (date_le_month_end y 12 31 ltac:(repeat split; try lia; rewrite D12; lia)).
        lia. }
    split; [lia |].
    repeat split; try discriminate; try lia.
    - destruct H as [H | H]; [discriminate H | exfalso; apply H; unfold recognised; tauto].
    - destruct H as [H | H]; [discriminate H | exfalso; apply H; unfold recognised; tauto]. }
  exists today, today. split; [reflexivity |]. split; [lia |].
  repeat split; try congruence.
Qed.

Lemma current_period_contains_today_witness :
  exists s e,
    current_period (fun _ => Raise ValueError) (Calendar._ymd2ord 2025 11 4) "quarter" None None
    = Ok (s, e)
    /\ s <= Calendar._ymd2ord 2025 11 4 <= e
    /\ s = Calendar._ymd2ord 2025 10 1 /\ e = Calendar._ymd2ord 2025 12 31.
Proof.
  destruct (current_period_contains_today (fun _ => Raise ValueError)
              (Calendar._ymd2ord 2025 11 4) "quarter")
    as (s & e & Hrun & Hin & _ & _ & Hq & _).
  - vm_compute. split; discriminate.
  - vm_compute. discriminate.
  - vm_compute. reflexivity.
  - exists s, e. split; [exact Hrun |]. split; [exact Hin |]. exact (Hq eq_refl).
Defined.

(** *** The revenue series: day and week *)

Section SeriesDayWeek.

Variable strftime : Calendar.date -> string -> string.
Variable isoformat : Calendar.date -> string.

Lemma series_loop_past_end (fuel : nat) (st : Store) (period : string)
    (end_ current : Calendar.date) (data_points : list DataPoint) :
  end_ < current ->
  series_loop strftime isoformat (S fuel) st period end_ current data_points
  = Returned data_points.
Proof.
  intro H. rewrite series_loop_succ.
  assert ((current <=? end_) = false) as -> by (apply Z.leb_gt; lia). reflexivity.
Qed.

(** The weekly series: one point every seven days, the last week cut at
    the end of the range. *)
Lemma series_loop_week (st : Store) (end_ : Calendar.date) :
  end_ + 7 <= Calendar._MAXORDINAL ->
  forall (n : nat) (current : Calendar.date) (data_points : list DataPoint),
    1 <= current ->
    Z.of_nat n = (if current <=? end_ then (end_ - current) / 7 + 1 else 0) ->
    series_loop strftime isoformat (S n) st "week" end_ current data_points
    = Returned
        (data_points
         ++ map (fun k =>
                   let d := current + 7 * Z.of_nat k in
                   {| dp_date := isoformat d;
                      dp_revenue := revenue_between st d (Z.min (d + 6) end_);
                      dp_label := ("Sem " ++ strftime d "%U")%string |})
                (seq 0 n)).
Proof.
  intro Hend. induction n as [| n IH]; intros current data_points Hlo Hn.
  - destruct (current <=? end_) eqn:E.
    + apply Z.leb_le in E. exfalso. zlia.
    + apply Z.leb_gt in E. rewrite series_loop_past_end by lia.
      cbn [seq map]. rewrite app_nil_r. reflexivity.
  - destruct (current <=? end_) eqn:E; [| lia].
    rewrite series_loop_succ, E. apply Z.leb_le in E.
    unfold series_body. cbn [String.eqb Ascii.eqb Bool.eqb andb].
    rewrite add_days_representable by (unfold representable; lia). cbn [bind].
    rewrite add_days_representable by (unfold representable; lia). cbn [bind].
    rewrite (IH (current + 7)).
    + f_equal. rewrite <- app_assoc. f_equal. cbn [seq map app].
      rewrite Z.mul_0_r, Z.add_0_r. f_equal.
      rewrite <- seq_shift, map_map. apply map_ext. intro k.
      replace (current + 7 + 7 * Z.of_nat k) with (current + 7 * Z.of_nat (S k)) by lia.
      reflexivity.
    + lia.
    + destruct (current + 7 <=? end_) eqn:E'.
      * apply Z.leb_le in E'. zlia.
      * apply Z.leb_gt in E'. zlia.
Qed.

(** The daily series up to the last date of the calendar: the step past it
    overflows. *)
Lemma series_loop_day_overflow (st : Store) (extra : nat) :
  forall (n : nat) (current : Calendar.date) (data_points : list DataPoint),
    1 <= current ->
    Z.of_nat n = Calendar._MAXORDINAL - current ->
    series_loop strftime isoformat (S n + extra) st "day" Calendar._MAXORDINAL current
                data_points
    = Raised OverflowError.
Proof.
  induction n as [| n IH]; intros current data_points Hlo Hn;
    change (S ?k + extra)%nat with (S (k + extra)); rewrite series_loop_succ.
  - assert (current = Calendar._MAXORDINAL) as -> by lia. reflexivity.
  - assert ((current <=? Calendar._MAXORDINAL) = true) as -> by (apply Z.leb_le; lia).
    unfold series_body. cbn [String.eqb Ascii.eqb Bool.eqb andb].
    rewrite add_days_representable by (unfold representable; lia). cbn [bind].
    apply IH; lia.
Qed.

End SeriesDayWeek.

(** X2. With the granularity day or week and bounds that parse to dates
    start and end, the revenue series is, for day and end before 9999-12-31,
    one point per day from start to end (none when start is after end),
    each with the paid revenue of that day; for week and end on or before
    9999-12-24, one point every seven days from start, each with the paid
    revenue of its week cut at end. For day with end 9999-12-31 and start
    on or before it the call raises OverflowError, on the step past the
    last date of the calendar. *)
Theorem get_revenue_by_period_day_week
    (strptime_date : string -> result Calendar.date)
    (strftime : Calendar.date -> string -> string)
    (isoformat : Calendar.date -> string)
    (today : Calendar.date) (db : Session) (start_date end_date : option string)
    (s e : string) (start end_ : Calendar.date) :
  both_given start_date end_date = Some (s, e) ->
  strptime_date s = Ok start -> strptime_date e = Ok end_ ->
  1 <= start ->
  let days := Z.to_nat (end_ - start + 1) in
  let weeks := Z.to_nat (if start <=? end_ then (end_ - start) / 7 + 1 else 0) in
  (end_ < Calendar._MAXORDINAL ->
   get_revenue_by_period strptime_date strftime isoformat (S days) today db "day"
                         start_date end_date
   = Returned (map (fun k =>
                      let d := start + Z.of_nat k in
                      {| dp_date := isoformat d; dp_revenue := revenue_on (working db) d;
                         dp_label := strftime d "%d/%m" |})
                   (seq 0 days)))
  /\ (end_ + 7 <= Calendar._MAXORDINAL ->
      get_revenue_by_period strptime_date strftime isoformat (S weeks) today db "week"
                            start_date end_date
      = Returned (map (fun k =>
                         let d := start + 7 * Z.of_nat k in
                         {| dp_date := isoformat d;
                            dp_revenue := revenue_between (working db) d
                                            (Z.min (d + 6) end_);
                            dp_label := ("Sem " ++ strftime d "%U")%string |})
                      (seq 0 weeks)))
  /\ (end_ = Calendar._MAXORDINAL -> start <= end_ ->
      get_revenue_by_period strptime_date strftime isoformat (S days) today db "day"
                            start_date end_date
      = Raised OverflowError).
Proof.
  intros Hb Hs He Hlo days weeks.
  unfold get_revenue_by_period, series_range. rewrite Hb, Hs, He. cbn [bind].
  split; [| split].
  - intro Hhi. destruct (Z.le_gt_cases start (end_ + 1)) as [L | G].
    + rewrite (series_loop_day strftime isoformat (working db) end_ Hhi days start [])
        by (subst days; lia).
      reflexivity.
    + assert (days = 0%nat) as -> by (subst days; lia).
      rewrite series_loop_past_end by lia. reflexivity.
  - intro Hhi.
    rewrite (series_loop_week strftime isoformat (working db) end_ Hhi weeks start []).
    + reflexivity.
    + exact Hlo.
    + subst weeks. destruct (start <=? end_) eqn:E; [| reflexivity].
      apply Z.leb_le in E. zlia.
  - intros -> Hle.
    assert (S days = (S (Z.to_nat (Calendar._MAXORDINAL - start)) + 1)%nat) as ->
      by (subst days; lia).
    apply series_loop_day_overflow; [exact Hlo | lia].
Qed.

Lemma get_revenue_by_period_day_week_witness :
  get_revenue_by_period
    (fun s => if String.eqb s "2025-03-01" then Ok (Calendar._ymd2ord 2025 3 1)
              else if String.eqb s "2025-03-10" then Ok (Calendar._ymd2ord 2025 3 10)
              else Raise ValueError)
    (fun _ _ => "") (fun _ => "") 3 (Calendar._ymd2ord 2025 11 4)
    (open_session (Sample.store "finished" "paid")) "week"
    (Some "2025-03-01") (Some "2025-03-10")
  = Returned [ {| dp_date := ""; dp_revenue := 0; dp_label := "Sem " |};
               {| dp_date := ""; dp_revenue := 50; dp_label := "Sem " |} ].
Proof.
  exact (proj1 (proj2 (get_revenue_by_period_day_week
                  (fun s => if String.eqb s "2025-03-01" then Ok (Calendar._ymd2ord 2025 3 1)
                            else if String.eqb s "2025-03-10" then Ok (Calendar._ymd2ord 2025 3 10)
                            else Raise ValueError)
                  (fun _ _ => "") (fun _ => "") (Calendar._ymd2ord 2025 11 4)
                  (open_session (Sample.store "finished" "paid"))
                  (Some "2025-03-01") (Some "2025-03-10") "2025-03-01" "2025-03-10"
                  (Calendar._ymd2ord 2025 3 1) (Calendar._ymd2ord 2025 3 10)
                  eq_refl eq_refl eq_refl ltac:(vm_compute; discriminate)))
           ltac:(vm_compute; discriminate)).
Defined.

(** *** The revenue series: month, year and quarter *)

Lemma month_index_eq (d : Calendar.date) :
  month_index d = Calendar.year d * 12 + Calendar.month d.
Proof. reflexivity. Qed.

Lemma next_month_start_eq (d : Calendar.date) :
  next_month_start d
  = Calendar._ymd2ord (Calendar.year d) (Calendar.month d)
      (Calendar._days_in_month (Calendar.year d) (Calendar.month d)) + 1.
Proof. reflexivity. Qed.

Lemma next_first_call (y m : Z) :
  1 <= y < 9999 -> 1 <= m <= 12 ->
  (if m =? 12 then first_of_month (y + 1) 1 else first_of_month y (m + 1))
  = Ok (Calendar._ymd2ord y m (Calendar._days_in_month y m) + 1).
Proof.
  intros Hy Hm. rewrite (next_month_first y m Hm). destruct (m =? 12) eqn:E12.
  - apply first_of_month_valid; lia.
  - apply Z.eqb_neq in E12. apply first_of_month_valid; lia.
Qed.

(** First days of months come in the order of their (year, month). *)
Lemma month_start_mono (y m y' m' : Z) :
  1 <= y <= 9999 -> 1 <= m <= 12 -> 1 <= y' <= 9999 -> 1 <= m' <= 12 ->
  y * 12 + m <= y' * 12 + m' ->
  Calendar._ymd2ord y m 1 <= Calendar._ymd2ord y' m' 1.
Proof.
  intros Hy Hm Hy' Hm' Hle.
  destruct (Z.eq_dec y y') as [<- | Hne].
  - apply ymd2ord_month_mono; lia.
  - assert (y < y') as Hlt by lia.
    pose proof (day_of_year_bounds y m 1 (valid_first_day y m Hy Hm)) as B.
    pose proof (day_of_year_bounds y' m' 1 (valid_first_day y' m' Hy' Hm')) as B'.
    pose proof (days_before_year_next y) as N.
    pose proof (days_before_year_mono (y + 1) y' ltac:(lia)) as M.
    unfold Calendar._ymd2ord. lia.
Qed.

Lemma month_start_le_date (b : Calendar.date) (y m : Z) :
  representable b -> 1 <= y <= 9999 -> 1 <= m <= 12 ->
  y * 12 + m <= month_index b ->
  Calendar._ymd2ord y m 1 <= b.
Proof.
  intros R Hy Hm Hle. destruct (date_fields b R) as [V E].
  pose proof V as (By & Bm & Bd).
  destruct (date_le_month_end _ _ _ V) as [Lo _]. rewrite E in Lo.
  pose proof (month_start_mono y m (Calendar.year b) (Calendar.month b) Hy Hm By Bm Hle).
  lia.
Qed.

Lemma date_ge_month_start (b : Calendar.date) (y m : Z) :
  representable b -> 1 <= y <= 9999 -> 1 <= m <= 12 ->
  Calendar._ymd2ord y m 1 <= b ->
  y * 12 + m <= month_index b.
Proof.
  intros R Hy Hm Hle. destruct (date_fields b R) as [V E].
  pose proof V as (By & Bm & Bd). unfold month_index.
  destruct (date_le_month_end _ _ _ V) as [_ Hi]. rewrite E in Hi.
  destruct (Z.le_gt_cases (y * 12 + m) (Calendar.year b * 12 + Calendar.month b))
    as [L | G]; [exact L | exfalso].
  pose proof (next_month_first (Calendar.year b) (Calendar.month b) Bm) as Nx.
  destruct (Calendar.month b =? 12) eqn:E12.
  - apply Z.eqb_eq in E12.
    assert (Calendar.year b < 9999) as Hyb by lia.
    pose proof (month_start_mono (Calendar.year b + 1) 1 y m ltac:(lia) ltac:(lia) Hy Hm
                  ltac:(lia)).
    lia.
  - apply Z.eqb_neq in E12.
    pose proof (month_start_mono (Calendar.year b) (Calendar.month b + 1) y m
                  ltac:(lia) ltac:(lia) Hy Hm ltac:(lia)).
    lia.
Qed.

Lemma month_index_mono (a b : Calendar.date) :
  representable a -> representable b -> a <= b -> month_index a <= month_index b.
Proof.
  intros Ra Rb Hle. destruct (date_fields a Ra) as [V E].
  pose proof V as (By & Bm & Bd).
  destruct (date_le_month_end _ _ _ V) as [Lo _]. rewrite E in Lo.
  apply (date_ge_month_start b _ _ Rb By Bm). lia.
Qed.

Lemma ymd_fields (y m d : Z) :
  valid_ymd y m d ->
  Calendar.year (Calendar._ymd2ord y m d) = y
  /\ Calendar.month (Calendar._ymd2ord y m d) = m
  /\ Calendar.day (Calendar._ymd2ord y m d) = d.
Proof.
  intro V. unfold Calendar.year, Calendar.month, Calendar.day.
  rewrite (ord2ymd_ymd2ord y m d V). repeat split.
Qed.

Lemma next_month_start_fields (d : Calendar.date) :
  representable d -> Calendar.year d < 9999 ->
  representable (next_month_start d)
  /\ d < next_month_start d
  /\ month_index (next_month_start d) = month_index d + 1
  /\ Calendar.day (next_month_start d) = 1.
Proof.
  intros R Hy. destruct (date_fields d R) as [V E]. pose proof V as (By & Bm & Bd).
  destruct (date_le_month_end _ _ _ V) as [_ Hi]. rewrite E in Hi.
  unfold next_month_start, month_index.
  pose proof (next_month_first (Calendar.year d) (Calendar.month d) Bm) as Nx.
  revert Hi Nx.
  generalize (Calendar._ymd2ord (Calendar.year d) (Calendar.month d)
                (Calendar._days_in_month (Calendar.year d) (Calendar.month d))) as last.
  intros last Hi Nx. rewrite Nx.
  destruct (Calendar.month d =? 12) eqn:E12.
  - apply Z.eqb_eq in E12.
    assert (valid_ymd (Calendar.year d + 1) 1 1) as V1 by (apply valid_first_day; lia).
    destruct (ymd_fields _ _ _ V1) as (-> & -> & ->).
    split; [apply ymd2ord_range, V1 |].
    repeat split; lia.
  - apply Z.eqb_neq in E12.
    assert (valid_ymd (Calendar.year d) (Calendar.month d + 1) 1) as V1
      by (apply valid_first_day; lia).
    destruct (ymd_fields _ _ _ V1) as (-> & -> & ->).
    split; [apply ymd2ord_range, V1 |].
    repeat split; lia.
Qed.

Ltac month_lia :=
  repeat match goal with
         | |- context [next_month_start ?a] => abstract_term (next_month_start a)
         | H : context [next_month_start ?a] |- _ => abstract_term (next_month_start a)
         | |- context [month_index ?a] => abstract_term (month_index a)
         | H : context [month_index ?a] |- _ => abstract_term (month_index a)
         end;
  cal_lia.

(** The next month starts on or before [end_] exactly when [end_] lies in a
    later month. *)
Lemma next_month_start_le (current end_ : Calendar.date) :
  representable current -> representable end_ -> Calendar.year current < 9999 ->
  next_month_start current <= end_ <-> month_index current < month_index end_.
Proof.
  intros R Re Hy.
  destruct (next_month_start_fields current R Hy) as (Rn & Hlt & Hidx & Hd1).
  split; intro H.
  - pose proof (month_index_mono (next_month_start current) end_ Rn Re H) as M.
    month_lia.
  - destruct (date_fields _ Rn) as [(Byn & Bmn & _) En]. rewrite Hd1 in En.
    assert (month_index (next_month_start current) <= month_index end_) as L
      by month_lia.
    rewrite (month_index_eq (next_month_start current)) in L.
    pose proof (month_start_le_date end_ (Calendar.year (next_month_start current))
                  (Calendar.month (next_month_start current)) Re Byn Bmn L) as C.
    rewrite En in C. exact C.
Qed.

Lemma next_first_call_date (d : Calendar.date) :
  representable d -> Calendar.year d < 9999 ->
  (if Calendar.month d =? 12
   then first_of_month (Calendar.year d + 1) 1
   else first_of_month (Calendar.year d) (Calendar.month d + 1))
  = Ok (next_month_start d).
Proof.
  intros R Hy. destruct (date_fields d R) as [(By & Bm & _) _].
  rewrite next_month_start_eq. apply next_first_call; [cal_lia | assumption].
Qed.

Lemma representable_pred (a b : Calendar.date) :
  representable a -> representable b -> a < b -> representable (b - 1).
Proof. unfold representable, Calendar._MAXORDINAL. lia. Qed.

Section SeriesCalendar.

Variable strftime : Calendar.date -> string -> string.
Variable isoformat : Calendar.date -> string.

Lemma series_body_month (st : Store) (end_ current : Calendar.date) :
  representable current -> Calendar.year current < 9999 ->
  series_body strftime isoformat st "month" end_ current
  = Ok ([month_point strftime isoformat st current], next_month_start current).
Proof.
  intros R Hy. destruct (date_fields current R) as [(By & Bm & _) _].
  destruct (next_month_start_fields current R Hy) as (Rn & Hlt & _).
  pose proof (representable_pred _ _ R Rn Hlt) as Rp.
  unfold series_body. cbn [String.eqb Ascii.eqb Bool.eqb andb].
  rewrite (next_first_call_date current R Hy).
  cbn [bind].
  rewrite (sub_days_representable _ _ Rp).
  reflexivity.
Qed.

Lemma series_loop_month (st : Store) (end_ : Calendar.date) :
  representable end_ -> Calendar.year end_ < 9999 ->
  forall (n : nat) (current : Calendar.date) (data_points : list DataPoint),
    representable current ->
    Z.of_nat n = (if current <=? end_ then month_index end_ - month_index current + 1 else 0) ->
    series_loop strftime isoformat (S n) st "month" end_ current data_points
    = Returned (data_points
                ++ map (month_point strftime isoformat st) (month_starts n current)).
Proof.
  intros Re Hye. induction n as [| n IH]; intros current data_points R Hn.
  - destruct (current <=? end_) eqn:E.
    + apply Z.leb_le in E. pose proof (month_index_mono current end_ R Re E).
      exfalso. month_lia.
    + apply Z.leb_gt in E. rewrite (series_loop_past_end _ _ _ _ _ _ _ _ E).
      cbn [month_starts map]. rewrite app_nil_r. reflexivity.
  - destruct (current <=? end_) eqn:E; [| exfalso; lia].
    rewrite series_loop_succ, E. apply Z.leb_le in E.
    pose proof (month_index_mono current end_ R Re E) as Hmi.
    destruct (date_fields current R) as [(By & Bm & _) _].
    destruct (date_fields end_ Re) as [(Bye & Bme & _) _].
    assert (Calendar.year current < 9999) as Hy.
    { rewrite (month_index_eq current), (month_index_eq end_) in Hmi. cal_lia. }
    rewrite (series_body_month st end_ current R Hy).
    destruct (next_month_start_fields current R Hy) as (Rn & Hlt & Hidx & _).
    pose proof (next_month_start_le current end_ R Re Hy) as Hle.
    rewrite (IH (next_month_start current) _ Rn).
    + rewrite <- app_assoc. reflexivity.
    + destruct (next_month_start current <=? end_) eqn:E'.
      * apply Z.leb_le in E'. month_lia.
      * apply Z.leb_gt in E'. month_lia.
Qed.

(** More fuel does not change what the loop returns. *)
Lemma series_loop_more_fuel (k : nat) (st : Store) (period : string) (end_ : Calendar.date)
    (r : list DataPoint) :
  forall (fuel : nat) (current : Calendar.date) (data_points : list DataPoint),
    series_loop strftime isoformat fuel st period end_ current data_points = Returned r ->
    series_loop strftime isoformat (fuel + k) st period end_ current data_points
    = Returned r.
Proof.
  induction fuel as [| fuel IH]; intros current data_points H.
  - discriminate H.
  - change (S fuel + k)%nat with (S (fuel + k)).
    rewrite series_loop_succ in *.
    destruct (current <=? end_); [| exact H].
    destruct (series_body strftime isoformat st period end_ current) as [[points c'] | e];
      [apply IH; exact H | exact H].
Qed.

End SeriesCalendar.

(** A year back from the first day of a month: the same month of the year
    before, on day 2 when a 29 February lies in between. *)
Lemma first_of_month_year_back (y m : Z) :
  2 <= y <= 9999 -> 1 <= m <= 12 ->
  Calendar._ymd2ord y m 1 - 365
  = Calendar._ymd2ord (y - 1) m
      (if (if m <=? 2 then Calendar._is_leap (y - 1) else Calendar._is_leap y)
       then 2 else 1).
Proof.
  intros Hy Hm. pose proof (days_before_year_next (y - 1)) as N.
  replace (y - 1 + 1) with y in N by lia.
  unfold Calendar._ymd2ord, Calendar._days_before_month. rewrite N.
  destruct (Calendar._is_leap (y - 1)); destruct (Calendar._is_leap y);
    split_month m Hc; eval_tables;
    cbn [Z.gtb Z.leb Z.compare Pos.compare Pos.compare_cont andb]; lia.
Qed.

(** The dates of [month_starts]: after the first, the first days of the
    months that follow, one by one. *)
Lemma month_starts_nth (n : nat) :
  forall (current : Calendar.date) (i : nat) (d : Calendar.date),
    representable current ->
    month_index current + Z.of_nat n <= 9999 * 12 + 1 ->
    nth_error (month_starts n current) i = Some d ->
    representable d
    /\ month_index d = month_index current + Z.of_nat i
    /\ (i <> 0%nat -> Calendar.day d = 1).
Proof.
  induction n as [| n IH]; intros current i d R Hn H.
  - destruct i; discriminate H.
  - destruct i as [| i]; cbn [month_starts nth_error] in H.
    + injection H as <-. split; [exact R |]. split; [lia | intro N; contradiction N; reflexivity].
    + destruct n as [| n']; [destruct i; discriminate H |].
      destruct (date_fields current R) as [(By & Bm & _) _].
      assert (Calendar.year current < 9999) as Hy.
      { rewrite (month_index_eq current) in Hn. cal_lia. }
      destruct (next_month_start_fields current R Hy) as (Rn & _ & Hidx & Hd1).
      destruct (IH (next_month_start current) i d Rn ltac:(month_lia) H) as (Rd & Hi & Hday).
      split; [exact Rd |]. split; [month_lia |]. intros _.
      destruct i as [| i'].
      * cbn [month_starts nth_error] in H. injection H as <-. exact Hd1.
      * apply Hday. discriminate.
Qed.

(** X3. With the granularity month and bounds that parse to dates start and
    end (end before year 9999), the revenue series returns one point for
    each month from that of start to that of end, none when start is after
    end. The first point begins on start itself, every later one on the
    first day of its month, and each carries the paid revenue from its
    first day to the last day of that month, which for the last point may
    lie after end. *)
Theorem get_revenue_by_period_month
    (strptime_date : string -> result Calendar.date)
    (strftime : Calendar.date -> string -> string)
    (isoformat : Calendar.date -> string)
    (today : Calendar.date) (db : Session) (start_date end_date : option string)
    (s e : string) (start end_ : Calendar.date) (extra : nat) :
  both_given start_date end_date = Some (s, e) ->
  strptime_date s = Ok start -> strptime_date e = Ok end_ ->
  representable start -> representable end_ -> Calendar.year end_ < 9999 ->
  let n := Z.to_nat (if start <=? end_
                     then month_index end_ - month_index start + 1 else 0) in
  get_revenue_by_period strptime_date strftime isoformat (S n + extra) today db "month"
                        start_date end_date
  = Returned (map (fun d =>
                     {| dp_date := isoformat d;
                        dp_revenue := revenue_between (working db) d (next_month_start d - 1);
                        dp_label := strftime d "%b/%Y" |})
                  (month_starts n start))
  /\ forall (i : nat) (d : Calendar.date),
       nth_error (month_starts n start) i = Some d ->
       month_index d = month_index start + Z.of_nat i
       /\ (i <> 0%nat -> Calendar.day d = 1).
Proof.
  intros Hb Hs He Rs Re Hy n.
  assert (Z.of_nat n = (if start <=? end_
                        then month_index end_ - month_index start + 1 else 0)) as Hn.
  { subst n. destruct (start <=? end_) eqn:E; [| reflexivity].
    apply Z.leb_le in E. pose proof (month_index_mono start end_ Rs Re E). lia. }
  split.
  - unfold get_revenue_by_period, series_range. rewrite Hb, Hs, He. cbn [bind].
    apply series_loop_more_fuel.
    exact (series_loop_month strftime isoformat (working db) end_ Re Hy n start [] Rs Hn).
  - intros i d H.
    destruct (date_fields end_ Re) as [(Bye & Bme & _) _].
    assert (month_index start + Z.of_nat n <= 9999 * 12 + 1) as Hbound.
    { rewrite Hn. destruct (start <=? end_).
      - rewrite (month_index_eq end_). cal_lia.
      - assert (n = 0%nat) as N by lia. rewrite N in H. destruct i; discriminate H. }
    destruct (month_starts_nth n start i d Rs Hbound H) as (_ & Hi & Hd).
    split; assumption.
Qed.

Lemma get_revenue_by_period_month_witness :
  get_revenue_by_period
    (fun s => if String.eqb s "2025-01-15" then Ok (Calendar._ymd2ord 2025 1 15)
              else if String.eqb s "2025-03-10" then Ok (Calendar._ymd2ord 2025 3 10)
              else Raise ValueError)
    (fun _ _ => "") (fun _ => "") 4 (Calendar._ymd2ord 2025 11 4)
    (open_session (Sample.store "finished" "paid")) "month"
    (Some "2025-01-15") (Some "2025-03-10")
  = Returned [ {| dp_date := ""; dp_revenue := 0; dp_label := "" |};
               {| dp_date := ""; dp_revenue := 0; dp_label := "" |};
               {| dp_date := ""; dp_revenue := 50; dp_label := "" |} ].
Proof.
  exact (proj1 (get_revenue_by_period_month
                  (fun s => if String.eqb s "2025-01-15" then Ok (Calendar._ymd2ord 2025 1 15)
                            else if String.eqb s "2025-03-10" then Ok (Calendar._ymd2ord 2025 3 10)
                            else Raise ValueError)
                  (fun _ _ => "") (fun _ => "") (Calendar._ymd2ord 2025 11 4)
                  (open_session (Sample.store "finished" "paid"))
                  (Some "2025-01-15") (Some "2025-03-10") "2025-01-15" "2025-03-10"
                  (Calendar._ymd2ord 2025 1 15) (Calendar._ymd2ord 2025 3 10) 0
                  eq_refl eq_refl eq_refl
                  ltac:(vm_compute; split; discriminate)
                  ltac:(vm_compute; split; discriminate)
                  ltac:(vm_compute; reflexivity))).
Defined.

Lemma days_in_month_ge_28 (y m : Z) :
  1 <= m <= 12 -> 28 <= Calendar._days_in_month y m.
Proof.
  intro Hm. unfold Calendar._days_in_month.
  split_month m Hc; eval_tables; split_ifs; lia.
Qed.

Lemma month_default_range
    (strptime_date : string -> result Calendar.date) (today : Calendar.date) (y m : Z) :
  representable today -> 2 <= y < 9999 ->
  Calendar.year today = y -> Calendar.month today = m ->
  let start :=
    Calendar._ymd2ord (y - 1) m
      (if (if m <=? 2 then Calendar._is_leap (y - 1) else Calendar._is_leap y)
       then 2 else 1) in
  series_range strptime_date today "month" None None = Ok (start, today)
  /\ representable start
  /\ start <= today
  /\ month_index start = month_index today - 12.
Proof.
  intros R Hy Ey Em.
  destruct (date_fields today R) as [V E]. rewrite Ey, Em in V, E.
  pose proof V as (By & Bm & Bd).
  set (d0 := if (if m <=? 2 then Calendar._is_leap (y - 1) else Calendar._is_leap y)
             then 2 else 1).
  assert (1 <= d0 <= 2) as Hd0 by (subst d0; split_ifs; lia).
  pose proof (first_of_month_year_back y m ltac:(lia) Bm) as Back. fold d0 in Back.
  clearbody d0. intro start. subst start.
  assert (valid_ymd (y - 1) m d0) as Vs.
  { split; [lia |]. split; [exact Bm |].
    pose proof (days_in_month_ge_28 (y - 1) m Bm) as L28. cal_lia. }
  pose proof (ymd2ord_range _ _ _ Vs) as Rs.
  destruct (ymd_fields _ _ _ Vs) as (Ys & Ms & _).
  destruct (date_le_month_end _ _ _ V) as [Lo _]. rewrite E in Lo.
  split; [| split; [exact Rs | split]].
  - unfold series_range. cbn [both_given String.eqb Ascii.eqb Bool.eqb andb].
    rewrite Ey, Em, (first_of_month_valid y m ltac:(lia) Bm). cbn [bind].
    rewrite sub_days_representable by (rewrite Back; exact Rs).
    cbn [bind]. rewrite Back. reflexivity.
  - cal_lia.
  - rewrite (month_index_eq (Calendar._ymd2ord (y - 1) m d0)), (month_index_eq today).
    rewrite Ys, Ms, Ey, Em. lia.
Qed.

(** X4. With the granularity month and no bounds, the revenue series has
    exactly thirteen points, for today's month of last year up to today's
    month. It starts 365 days before the first day of today's month: on
    day 1 of that month of last year, or on day 2 when a 29 February lies
    in between. It holds for every today of the years 2 to 9998. *)
Theorem get_revenue_by_period_month_default
    (strptime_date : string -> result Calendar.date)
    (strftime : Calendar.date -> string -> string)
    (isoformat : Calendar.date -> string)
    (today : Calendar.date) (db : Session) (extra : nat) (y m : Z) :
  representable today -> 2 <= y < 9999 ->
  Calendar.year today = y -> Calendar.month today = m ->
  let leap_day_between := if m <=? 2 then Calendar._is_leap (y - 1) else Calendar._is_leap y in
  let start := Calendar._ymd2ord (y - 1) m (if leap_day_between then 2 else 1) in
  get_revenue_by_period strptime_date strftime isoformat (14 + extra) today db "month"
                        None None
  = Returned (map (fun d =>
                     {| dp_date := isoformat d;
                        dp_revenue := revenue_between (working db) d (next_month_start d - 1);
                        dp_label := strftime d "%b/%Y" |})
                  (month_starts 13 start))
  /\ forall (i : nat) (d : Calendar.date),
       nth_error (month_starts 13 start) i = Some d ->
       month_index d = month_index today - 12 + Z.of_nat i
       /\ (i <> 0%nat -> Calendar.day d = 1).
Proof.
  intros R Hy Ey Em. cbv zeta.
  destruct (month_default_range strptime_date today y m R Hy Ey Em)
    as (Hrange & Rs & Hle & Hidx).
  revert Hrange Rs Hle Hidx.
  generalize (Calendar._ymd2ord (y - 1) m
                (if (if m <=? 2 then Calendar._is_leap (y - 1) else Calendar._is_leap y)
                 then 2 else 1)) as start.
  intros start Hrange Rs Hle Hidx.
  assert (Calendar.year today < 9999) as Hy' by (rewrite Ey; lia).
  assert (Z.of_nat 13 = (if start <=? today
                         then month_index today - month_index start + 1 else 0)) as Hn.
  { apply Z.leb_le in Hle. rewrite Hle, Hidx. lia. }
  split.
  - unfold get_revenue_by_period. rewrite Hrange.
    apply (series_loop_more_fuel strftime isoformat extra (working db) "month" today _ 14).
    exact (series_loop_month strftime isoformat (working db) today R Hy' 13 start []
             Rs Hn).
  - intros i d H.
    assert (month_index start + Z.of_nat 13 <= 9999 * 12 + 1) as Hbound.
    { rewrite Hidx, (month_index_eq today), Ey.
      destruct (date_fields today R) as [(_ & Bm & _) _]. cal_lia. }
    destruct (month_starts_nth 13 start i d Rs Hbound H) as (_ & Hi & Hd).
    split; [lia | exact Hd].
Qed.

Lemma get_revenue_by_period_month_default_witness :
  get_revenue_by_period (fun _ => Raise ValueError) (fun _ _ => "") (fun _ => "") 14
    (Calendar._ymd2ord 2024 3 10) (open_session (Sample.store "finished" "paid")) "month"
    None None
  = Returned (map (fun d =>
                     {| dp_date := "";
                        dp_revenue := revenue_between (Sample.store "finished" "paid") d
                                        (next_month_start d - 1);
                        dp_label := "" |})
                  (month_starts 13 (Calendar._ymd2ord 2023 3 2))).
Proof.
  exact (proj1 (get_revenue_by_period_month_default
                  (fun _ => Raise ValueError) (fun _ _ => "") (fun _ => "")
                  (Calendar._ymd2ord 2024 3 10)
                  (open_session (Sample.store "finished" "paid")) 0 2024 3
                  ltac:(vm_compute; split; discriminate)
                  ltac:(lia) ltac:(vm_compute; reflexivity)
                  ltac:(vm_compute; reflexivity))).
Defined.
(** *** The revenue series: quarter *)

Lemma quarter_end_month_cases (m : Z) :
  1 <= m <= 12 ->
  let q := ((m - 1) / 3) * 3 + 3 in
  (q = 3 \/ q = 6 \/ q = 9 \/ q = 12) /\ m <= q <= m + 2 /\ ((q - 1) / 3) * 3 + 3 = q.
Proof. intros Hm q. subst q. zlia. Qed.

(** The first day of the last month of a quarter is at most 62 days after
    the first day of any month of that quarter. *)
Lemma quarter_month_gap (y m q : Z) :
  1 <= m <= 12 -> (q = 3 \/ q = 6 \/ q = 9 \/ q = 12) -> m <= q <= m + 2 ->
  Calendar._ymd2ord y q 1 <= Calendar._ymd2ord y m 1 + 62.
Proof.
  intros Hm Hq Hmq. unfold Calendar._ymd2ord, Calendar._days_before_month.
  destruct (Calendar._is_leap y);
    destruct Hq as [-> | [-> | [-> | ->]]]; split_month m Hc; try lia; eval_tables;
    cbn [Z.gtb Z.compare Pos.compare Pos.compare_cont andb]; lia.
Qed.

Lemma quarter_last_month_start_eq (d : Calendar.date) :
  quarter_last_month_start d
  = Calendar._ymd2ord (Calendar.year d) (((Calendar.month d - 1) / 3) * 3 + 3) 1.
Proof. reflexivity. Qed.

(** The date the quarter branch moves to: a representable date of the same
    year, at most 62 days later, and a date the branch maps to itself. *)
Lemma quarter_last_month_start_fields (d : Calendar.date) :
  representable d ->
  representable (quarter_last_month_start d)
  /\ 2 <= quarter_last_month_start d <= d + 62
  /\ quarter_last_month_start (quarter_last_month_start d) = quarter_last_month_start d.
Proof.
  intro R. destruct (date_fields d R) as [V E]. pose proof V as (By & Bm & Bd).
  destruct (date_le_month_end _ _ _ V) as [Lo _]. rewrite E in Lo.
  rewrite (quarter_last_month_start_eq (quarter_last_month_start d)).
  rewrite (quarter_last_month_start_eq d).
  destruct (quarter_end_month_cases (Calendar.month d) Bm) as (Hq & Hmq & Hfix).
  revert Hq Hmq Hfix.
  generalize (((Calendar.month d - 1) / 3) * 3 + 3) as q. intros q Hq Hmq Hfix.
  assert (valid_ymd (Calendar.year d) q 1) as Vq by (apply valid_first_day; [exact By | lia]).
  destruct (ymd_fields _ _ _ Vq) as (-> & -> & _).
  split; [apply ymd2ord_range, Vq |].
  split; [| rewrite Hfix; reflexivity].
  pose proof (quarter_month_gap (Calendar.year d) (Calendar.month d) q Bm Hq Hmq) as G.
  pose proof (month_end_before_later_month (Calendar.year d) 1 q ltac:(lia) ltac:(lia)
                ltac:(lia)) as L.
  destruct (date_le_month_end _ _ _ (valid_last_day (Calendar.year d) 1 By ltac:(lia)))
    as [L1 _].
  pose proof (ymd2ord_range _ _ _ (valid_first_day (Calendar.year d) 1 By ltac:(lia))) as R1.
  cal_lia.
Qed.

Lemma quarter_first_call (d : Calendar.date) :
  representable d ->
  (if ((Calendar.month d - 1) / 3) * 3 + 3 >? 12
   then first_of_month (Calendar.year d + 1) (((Calendar.month d - 1) / 3) * 3 + 3 - 12)
   else first_of_month (Calendar.year d) (((Calendar.month d - 1) / 3) * 3 + 3))
  = Ok (quarter_last_month_start d).
Proof.
  intro R. destruct (date_fields d R) as [(By & Bm & _) _].
  rewrite (quarter_last_month_start_eq d).
  destruct (quarter_end_month_cases (Calendar.month d) Bm) as (Hq & Hmq & _).
  revert Hq Hmq. generalize (((Calendar.month d - 1) / 3) * 3 + 3) as q. intros q Hq Hmq.
  assert ((q >? 12) = false) as -> by lia.
  apply first_of_month_valid; [exact By | lia].
Qed.

Section SeriesQuarter.

Variable strftime : Calendar.date -> string -> string.
Variable isoformat : Calendar.date -> string.

(** One pass of the quarter branch: a point for the rest of the first two
    months of the quarter, and [current] moved to the first day of the
    quarter's last month. *)
Lemma series_body_quarter (st : Store) (end_ current : Calendar.date) :
  representable current ->
  series_body strftime isoformat st "quarter" end_ current
  = Ok ([quarter_point isoformat st current], quarter_last_month_start current).
Proof.
  intro R. destruct (quarter_last_month_start_fields current R) as (Rq & [Lo Hi] & _).
  assert (representable (quarter_last_month_start current - 1)) as Rp.
  { revert Rq Lo. generalize (quarter_last_month_start current).
    unfold representable, Calendar._MAXORDINAL. lia. }
  assert (representable (quarter_last_month_start current - 1 + 1)) as Rp1.
  { rewrite Z.sub_add. exact Rq. }
  unfold series_body. cbn [String.eqb Ascii.eqb Bool.eqb andb]. cbv zeta.
  rewrite (quarter_first_call current R). cbn [bind].
  rewrite (sub_days_representable _ _ Rp). cbn [bind].
  rewrite (add_days_representable _ _ Rp1). cbn [bind].
  rewrite Z.sub_add. reflexivity.
Qed.

(** Once the first day of the quarter's last month is within the range, the
    loop never leaves it. *)
Lemma series_loop_quarter_diverges (st : Store) (end_ : Calendar.date) :
  forall (fuel : nat) (current : Calendar.date) (data_points : list DataPoint),
    representable current -> current <= end_ -> quarter_last_month_start current <= end_ ->
    series_loop strftime isoformat fuel st "quarter" end_ current data_points = OutOfFuel.
Proof.
  induction fuel as [| fuel IH]; intros current data_points R Hle Hq; [reflexivity |].
  rewrite series_loop_succ. apply Z.leb_le in Hle. rewrite Hle.
  rewrite (series_body_quarter st end_ current R).
  destruct (quarter_last_month_start_fields current R) as (Rq & _ & Hfix).
  apply IH; [exact Rq | exact Hq | rewrite Hfix; exact Hq].
Qed.

End SeriesQuarter.

(** X5. With the granularity quarter and bounds that parse to dates start
    and end, the revenue series returns the empty list when start is after
    end, and a single point (the paid revenue from start to the day before
    the first day of the last month of start's quarter) when end lies
    before that first day. In every other case the loop moves to that first
    day and stays there: the call never returns. *)
Theorem get_revenue_by_period_quarter
    (strptime_date : string -> result Calendar.date)
    (strftime : Calendar.date -> string -> string)
    (isoformat : Calendar.date -> string)
    (today : Calendar.date) (db : Session) (start_date end_date : option string)
    (s e : string) (start end_ : Calendar.date) :
  both_given start_date end_date = Some (s, e) ->
  strptime_date s = Ok start -> strptime_date e = Ok end_ ->
  representable start ->
  let run fuel := get_revenue_by_period strptime_date strftime isoformat fuel today db
                    "quarter" start_date end_date in
  (end_ < start -> forall fuel, run (S fuel) = Returned [])
  /\ (start <= end_ -> end_ < quarter_last_month_start start ->
      forall fuel,
        run (S (S fuel))
        = Returned [ {| dp_date := isoformat start;
                        dp_revenue := revenue_between (working db) start
                                        (quarter_last_month_start start - 1);
                        dp_label := ("T" ++ PyStr.str ((Calendar.month start - 1) / 3 + 1)
                                     ++ "/" ++ PyStr.str (Calendar.year start))%string |} ])
  /\ (start <= end_ -> quarter_last_month_start start <= end_ ->
      forall fuel, run fuel = OutOfFuel).
Proof.
  intros Hb Hs He Rs. cbv zeta.
  unfold get_revenue_by_period, series_range. rewrite Hb, Hs, He. cbn [bind].
  split; [| split].
  - intros H fuel. apply series_loop_past_end. exact H.
  - intros Hle Hq fuel. rewrite series_loop_succ.
    apply Z.leb_le in Hle. rewrite Hle.
    rewrite (series_body_quarter strftime isoformat (working db) end_ start Rs).
    rewrite series_loop_past_end by exact Hq. reflexivity.
  - intros Hle Hq fuel. apply series_loop_quarter_diverges; assumption.
Qed.

Lemma get_revenue_by_period_quarter_witness :
  get_revenue_by_period
    (fun s => if String.eqb s "2025-01-15" then Ok (Calendar._ymd2ord 2025 1 15)
              else if String.eqb s "2025-03-10" then Ok (Calendar._ymd2ord 2025 3 10)
              else Raise ValueError)
    (fun _ _ => "") (fun _ => "") 1000 (Calendar._ymd2ord 2025 11 4)
    (open_session (Sample.store "finished" "paid")) "quarter"
    (Some "2025-01-15") (Some "2025-03-10")
  = OutOfFuel.
Proof.
  exact (proj2 (proj2 (get_revenue_by_period_quarter
                  (fun s => if String.eqb s "2025-01-15" then Ok (Calendar._ymd2ord 2025 1 15)
                            else if String.eqb s "2025-03-10" then Ok (Calendar._ymd2ord 2025 3 10)
                            else Raise ValueError)
                  (fun _ _ => "") (fun _ => "") (Calendar._ymd2ord 2025 11 4)
                  (open_session (Sample.store "finished" "paid"))
                  (Some "2025-01-15") (Some "2025-03-10") "2025-01-15" "2025-03-10"
                  (Calendar._ymd2ord 2025 1 15) (Calendar._ymd2ord 2025 3 10)
                  eq_refl eq_refl eq_refl
                  ltac:(vm_compute; split; discriminate)))
           ltac:(vm_compute; discriminate) ltac:(vm_compute; discriminate) 1000%nat).
Defined.

(** X6. With the granularity quarter and no bounds, the revenue series never
    returns, whatever the day it is called on (from day 361 of year 1 on):
    the range starts 360 days back, and the loop sticks on the first day of
    the last month of that day's quarter, which is not after today. *)
Theorem get_revenue_by_period_quarter_default_never_returns
    (strptime_date : string -> result Calendar.date)
    (strftime : Calendar.date -> string -> string)
    (isoformat : Calendar.date -> string)
    (today : Calendar.date) (db : Session) (fuel : nat) :
  representable today -> 361 <= today ->
  get_revenue_by_period strptime_date strftime isoformat fuel today db "quarter" None None
  = OutOfFuel.
Proof.
  intros R Hlo.
  assert (representable (today - 360)) as Rs.
  { revert R. unfold representable, Calendar._MAXORDINAL. lia. }
  unfold get_revenue_by_period, series_range.
  cbn [both_given String.eqb Ascii.eqb Bool.eqb andb].
  change (4 * 90) with 360.
  rewrite (sub_days_representable _ _ Rs). cbn [bind].
  destruct (quarter_last_month_start_fields (today - 360) Rs) as (_ & [_ Hi] & _).
  apply series_loop_quarter_diverges; [exact Rs | lia |].
  revert Hi. generalize (quarter_last_month_start (today - 360)). lia.
Qed.

Lemma get_revenue_by_period_quarter_default_never_returns_witness :
  get_revenue_by_period (fun _ => Raise ValueError) (fun _ _ => "") (fun _ => "") 1000
    (Calendar._ymd2ord 2025 11 4) (open_session (Sample.store "finished" "paid"))
    "quarter" None None
  = OutOfFuel.
Proof.
  exact (get_revenue_by_period_quarter_default_never_returns
           (fun _ => Raise ValueError) (fun _ _ => "") (fun _ => "") (Calendar._ymd2ord 2025 11 4)
           (open_session (Sample.store "finished" "paid")) 1000
           ltac:(vm_compute; split; discriminate) ltac:(vm_compute; discriminate)).
Defined.
(** *** The revenue series: year *)

Lemma next_year_start_eq (d : Calendar.date) :
  next_year_start d = Calendar._ymd2ord (Calendar.year d + 1) 1 1.
Proof. reflexivity. Qed.

Lemma year_mono (a b : Calendar.date) :
  representable a -> representable b -> a <= b -> Calendar.year a <= Calendar.year b.
Proof.
  intros Ra Rb Hle. pose proof (month_index_mono a b Ra Rb Hle) as M.
  rewrite (month_index_eq a), (month_index_eq b) in M.
  destruct (date_fields a Ra) as [(_ & Bma & _) _].
  destruct (date_fields b Rb) as [(_ & Bmb & _) _].
  cal_lia.
Qed.

Lemma valid_december_31 (y : Z) : 1 <= y <= 9999 -> valid_ymd y 12 31.
Proof.
  intro Hy. split; [exact Hy |]. split; [lia |].
  unfold Calendar._days_in_month. eval_tables. split_ifs; lia.
Qed.

Lemma next_year_start_fields (d : Calendar.date) :
  representable d -> Calendar.year d < 9999 ->
  representable (next_year_start d)
  /\ d < next_year_start d
  /\ Calendar.year (next_year_start d) = Calendar.year d + 1
  /\ Calendar.month (next_year_start d) = 1
  /\ Calendar.day (next_year_start d) = 1.
Proof.
  intros R Hy. destruct (date_fields d R) as [(By & Bm & _) _].
  rewrite (next_year_start_eq d).
  assert (valid_ymd (Calendar.year d + 1) 1 1) as V1 by (apply valid_first_day; lia).
  destruct (ymd_fields _ _ _ V1) as (-> & -> & ->).
  pose proof (ymd2ord_range _ _ _ V1) as R1.
  split; [exact R1 |]. split; [| repeat split].
  destruct (Z.lt_ge_cases d (Calendar._ymd2ord (Calendar.year d + 1) 1 1)) as [L | G];
    [exact L | exfalso].
  pose proof (date_ge_month_start d (Calendar.year d + 1) 1 R ltac:(lia) ltac:(lia) G) as C.
  rewrite (month_index_eq d) in C. cal_lia.
Qed.

(** The next year starts on or before [end_] exactly when [end_] lies in a
    later year. *)
Lemma next_year_start_le (current end_ : Calendar.date) :
  representable current -> representable end_ -> Calendar.year current < 9999 ->
  next_year_start current <= end_ <-> Calendar.year current < Calendar.year end_.
Proof.
  intros R Re Hy.
  destruct (next_year_start_fields current R Hy) as (Rn & Hlt & Hyn & _).
  split; intro H.
  - pose proof (year_mono (next_year_start current) end_ Rn Re H) as M.
    rewrite Hyn in M. lia.
  - destruct (date_fields current R) as [(By & _ & _) _].
    destruct (date_fields end_ Re) as [(Bye & Bme & _) _].
    rewrite (next_year_start_eq current).
    apply (month_start_le_date end_ (Calendar.year current + 1) 1 Re); [lia | lia |].
    rewrite (month_index_eq end_). cal_lia.
Qed.

Section SeriesYear.

Variable strftime : Calendar.date -> string -> string.
Variable isoformat : Calendar.date -> string.

Lemma series_body_year (st : Store) (end_ current : Calendar.date) :
  representable current -> Calendar.year current < 9999 ->
  series_body strftime isoformat st "year" end_ current
  = Ok ([year_point isoformat st current], next_year_start current).
Proof.
  intros R Hy. destruct (date_fields current R) as [(By & _ & _) _].
  unfold series_body. cbn [String.eqb Ascii.eqb Bool.eqb andb].
  rewrite (mkdate_valid _ _ _ (valid_december_31 (Calendar.year current) By)). cbn [bind].
  rewrite (first_of_month_valid (Calendar.year current + 1) 1) by lia.
  cbn [bind]. rewrite <- (next_year_start_eq current). unfold year_point. reflexivity.
Qed.

Lemma series_loop_year (st : Store) (end_ : Calendar.date) :
  representable end_ -> Calendar.year end_ < 9999 ->
  forall (n : nat) (current : Calendar.date) (data_points : list DataPoint),
    representable current ->
    Z.of_nat n = (if current <=? end_
                  then Calendar.year end_ - Calendar.year current + 1 else 0) ->
    series_loop strftime isoformat (S n) st "year" end_ current data_points
    = Returned (data_points ++ map (year_point isoformat st) (year_starts n current)).
Proof.
  intros Re Hye. induction n as [| n IH]; intros current data_points R Hn.
  - destruct (current <=? end_) eqn:E.
    + apply Z.leb_le in E. pose proof (year_mono current end_ R Re E).
      exfalso. lia.
    + apply Z.leb_gt in E. rewrite (series_loop_past_end _ _ _ _ _ _ _ _ E).
      cbn [year_starts map]. rewrite app_nil_r. reflexivity.
  - destruct (current <=? end_) eqn:E; [| exfalso; lia].
    rewrite series_loop_succ, E. apply Z.leb_le in E.
    pose proof (year_mono current end_ R Re E) as Hmi.
    assert (Calendar.year current < 9999) as Hy by lia.
    rewrite (series_body_year st end_ current R Hy).
    destruct (next_year_start_fields current R Hy) as (Rn & Hlt & Hyn & _).
    pose proof (next_year_start_le current end_ R Re Hy) as Hle.
    rewrite (IH (next_year_start current) _ Rn).
    + rewrite <- app_assoc. reflexivity.
    + rewrite Hyn. destruct (next_year_start current <=? end_) eqn:E'.
      * lia.
      * apply Z.leb_gt in E'. lia.
Qed.

End SeriesYear.

(** The dates of [year_starts]: after the first, the first days of the
    years that follow, one by one. *)
Lemma year_starts_nth (n : nat) :
  forall (current : Calendar.date) (i : nat) (d : Calendar.date),
    representable current ->
    Calendar.year current + Z.of_nat n <= 10000 ->
    nth_error (year_starts n current) i = Some d ->
    representable d
    /\ Calendar.year d = Calendar.year current + Z.of_nat i
    /\ (i <> 0%nat -> Calendar.month d = 1 /\ Calendar.day d = 1).
Proof.
  induction n as [| n IH]; intros current i d R Hn H.
  - destruct i; discriminate H.
  - destruct i as [| i]; cbn [year_starts nth_error] in H.
    + injection H as <-. split; [exact R |]. split; [lia | intro N; contradiction N; reflexivity].
    + destruct n as [| n']; [destruct i; discriminate H |].
      assert (Calendar.year current < 9999) as Hy by lia.
      destruct (next_year_start_fields current R Hy) as (Rn & _ & Hyn & Hm1 & Hd1).
      destruct (IH (next_year_start current) i d Rn ltac:(rewrite Hyn; lia) H)
        as (Rd & Hi & Hday).
      split; [exact Rd |]. split; [rewrite Hi, Hyn; lia |]. intros _.
      destruct i as [| i'].
      * cbn [year_starts nth_error] in H. injection H as <-. split; assumption.
      * apply Hday. discriminate.
Qed.

(** X7. With the granularity year and bounds that parse to dates start and
    end (end before year 9999), the revenue series returns one point for
    each calendar year from that of start to that of end, none when start
    is after end. The first point begins on start itself, every later one
    on 1 January, and each carries the paid revenue from its first day to
    31 December of its year, which for the last point may lie after end. *)
Theorem get_revenue_by_period_year
    (strptime_date : string -> result Calendar.date)
    (strftime : Calendar.date -> string -> string)
    (isoformat : Calendar.date -> string)
    (today : Calendar.date) (db : Session) (start_date end_date : option string)
    (s e : string) (start end_ : Calendar.date) (extra : nat) :
  both_given start_date end_date = Some (s, e) ->
  strptime_date s = Ok start -> strptime_date e = Ok end_ ->
  representable start -> representable end_ -> Calendar.year end_ < 9999 ->
  let n := Z.to_nat (if start <=? end_
                     then Calendar.year end_ - Calendar.year start + 1 else 0) in
  get_revenue_by_period strptime_date strftime isoformat (S n + extra) today db "year"
                        start_date end_date
  = Returned (map (fun d =>
                     {| dp_date := isoformat d;
                        dp_revenue := revenue_between (working db) d
                                        (Calendar._ymd2ord (Calendar.year d) 12 31);
                        dp_label := PyStr.str (Calendar.year d) |})
                  (year_starts n start))
  /\ forall (i : nat) (d : Calendar.date),
       nth_error (year_starts n start) i = Some d ->
       Calendar.year d = Calendar.year start + Z.of_nat i
       /\ (i <> 0%nat -> Calendar.month d = 1 /\ Calendar.day d = 1).
Proof.
  intros Hb Hs He Rs Re Hy n.
  assert (Z.of_nat n = (if start <=? end_
                        then Calendar.year end_ - Calendar.year start + 1 else 0)) as Hn.
  { subst n. destruct (start <=? end_) eqn:E; [| reflexivity].
    apply Z.leb_le in E. pose proof (year_mono start end_ Rs Re E). lia. }
  split.
  - unfold get_revenue_by_period, series_range. rewrite Hb, Hs, He. cbn [bind].
    apply series_loop_more_fuel.
    exact (series_loop_year strftime isoformat (working db) end_ Re Hy n start [] Rs Hn).
  - intros i d H.
    assert (Calendar.year start + Z.of_nat n <= 10000) as Hbound.
    { rewrite Hn. destruct (start <=? end_).
      - lia.
      - assert (n = 0%nat) as N by lia. rewrite N in H. destruct i; discriminate H. }
    destruct (year_starts_nth n start i d Rs Hbound H) as (_ & Hi & Hd).
    split; assumption.
Qed.

Lemma get_revenue_by_period_year_witness :
  get_revenue_by_period
    (fun s => if String.eqb s "2023-06-15" then Ok (Calendar._ymd2ord 2023 6 15)
              else if String.eqb s "2025-03-10" then Ok (Calendar._ymd2ord 2025 3 10)
              else Raise ValueError)
    (fun _ _ => "") (fun _ => "") 4 (Calendar._ymd2ord 2025 11 4)
    (open_session (Sample.store "finished" "paid")) "year"
    (Some "2023-06-15") (Some "2025-03-10")
  = Returned [ {| dp_date := ""; dp_revenue := 0; dp_label := "2023" |};
               {| dp_date := ""; dp_revenue := 0; dp_label := "2024" |};
               {| dp_date := ""; dp_revenue := 50; dp_label := "2025" |} ].
Proof.
  exact (proj1 (get_revenue_by_period_year
                  (fun s => if String.eqb s "2023-06-15" then Ok (Calendar._ymd2ord 2023 6 15)
                            else if String.eqb s "2025-03-10" then Ok (Calendar._ymd2ord 2025 3 10)
                            else Raise ValueError)
                  (fun _ _ => "") (fun _ => "") (Calendar._ymd2ord 2025 11 4)
                  (open_session (Sample.store "finished" "paid"))
                  (Some "2023-06-15") (Some "2025-03-10") "2023-06-15" "2025-03-10"
                  (Calendar._ymd2ord 2023 6 15) (Calendar._ymd2ord 2025 3 10) 0
                  eq_refl eq_refl eq_refl
                  ltac:(vm_compute; split; discriminate)
                  ltac:(vm_compute; split; discriminate)
                  ltac:(vm_compute; reflexivity))).
Defined.
(** *** Inactive clients and the login *)

Lemma first_none {A : Type} (p : A -> bool) (rows : list A) (x : A) :
  first p rows = None -> In x rows -> p x = false.
Proof. unfold first. intros H Hin. exact (find_none p rows H x Hin). Qed.

Lemma first_in {A : Type} (p : A -> bool) (rows : list A) (x : A) :
  first p rows = Some x -> In x rows.
Proof. intro H. apply find_some in H. tauto. Qed.

Lemma first_exists {A : Type} (p : A -> bool) (rows : list A) (x : A) :
  In x rows -> p x = true -> exists y, first p rows = Some y.
Proof.
  intros Hin Hp. destruct (first p rows) as [y |] eqn:F; [exists y; reflexivity |].
  rewrite (first_none p rows x F Hin) in Hp. discriminate Hp.
Qed.

Lemma update_first_twice {A : Type} (p : A -> bool) (f g : A -> A) (rows : list A) :
  (forall r, p r = true -> p (f r) = true) ->
  update_first p g (update_first p f rows) = update_first p (fun r => g (f r)) rows.
Proof.
  intro Hp. induction rows as [| r rows IH]; cbn [update_first]; [reflexivity |].
  destruct (p r) eqn:E; cbn [update_first].
  - rewrite (Hp r E). reflexivity.
  - rewrite E, IH. reflexivity.
Qed.

(** With unique ids, the row of a given id is the only one it names. *)
Lemma unique_id_first (rows : list Client.t) (client_id : Z) (x y : Client.t) :
  NoDup (map Client.id rows) ->
  first (fun c => Client.id c =? client_id) rows = Some x ->
  In y rows -> Client.id y = client_id -> y = x.
Proof.
  unfold first. induction rows as [| r rows IH]; cbn [map find In]; [discriminate |].
  intros Hnd F Hin Hy. apply NoDup_cons_iff in Hnd. destruct Hnd as [Hr Hnd].
  destruct (Client.id r =? client_id) eqn:E.
  - injection F as <-. apply Z.eqb_eq in E.
    destruct Hin as [-> | Hin]; [reflexivity |].
    exfalso. apply Hr. rewrite E, <- Hy. apply in_map. exact Hin.
  - destruct Hin as [<- | Hin]; [apply Z.eqb_neq in E; contradiction |].
    exact (IH Hnd F Hin Hy).
Qed.

Lemma get_client_first (db : Session) (client_id : Z) (c : Client.t) :
  get_client db client_id = Ok c <->
  first (fun c0 => Client.id c0 =? client_id) (clients (working db)) = Some c.
Proof.
  unfold get_client.
  destruct (first (fun c0 => Client.id c0 =? client_id) (clients (working db))).
  - split; intros [= ->]; reflexivity.
  - split; discriminate.
Qed.

Lemma in_update_first_unique (rows : list Client.t) (client_id : Z)
    (f : Client.t -> Client.t) (x y : Client.t) :
  NoDup (map Client.id rows) ->
  first (fun c => Client.id c =? client_id) rows = Some x ->
  In y (update_first (fun c => Client.id c =? client_id) f rows) ->
  (In y rows /\ Client.id y <> client_id) \/ y = f x.
Proof.
  unfold first. induction rows as [| r rows IH]; cbn [map find update_first]; [discriminate |].
  intros Hnd F Hin. apply NoDup_cons_iff in Hnd. destruct Hnd as [Hr Hnd].
  destruct (Client.id r =? client_id) eqn:E.
  - injection F as <-. apply Z.eqb_eq in E. destruct Hin as [<- | Hin]; [right; reflexivity |].
    left. split; [right; exact Hin |].
    intro E'. apply Hr. rewrite E, <- E'. apply in_map. exact Hin.
  - apply Z.eqb_neq in E. destruct Hin as [<- | Hin].
    + left. split; [left; reflexivity | exact E].
    + destruct (IH Hnd F Hin) as [[H1 H2] | H]; [left; split; [right; exact H1 | exact H2] |].
      right. exact H.
Qed.

Lemma in_update_first_updated {A : Type} (p : A -> bool) (f : A -> A) (rows : list A)
    (x : A) :
  first p rows = Some x -> In (f x) (update_first p f rows).
Proof.
  unfold first. induction rows as [| r rows IH]; cbn [find update_first]; [discriminate |].
  destruct (p r).
  - intros [= ->]. left. reflexivity.
  - intro F. right. exact (IH F).
Qed.

Lemma first_unique_match {A : Type} (q : A -> bool) (rows : list A) (x : A) :
  In x rows -> q x = true -> (forall y, In y rows -> q y = true -> y = x) ->
  first q rows = Some x.
Proof.
  intros Hin Hq Hu. destruct (first_exists q rows x Hin Hq) as (y & F).
  rewrite F. f_equal. apply Hu; [exact (first_in _ _ _ F) | exact (first_some_holds _ _ _ F)].
Qed.

Lemma first_no_match {A : Type} (q : A -> bool) (rows : list A) :
  (forall y, In y rows -> q y = false) -> first q rows = None.
Proof.
  intro H. destruct (first q rows) as [y |] eqn:F; [| reflexivity].
  pose proof (first_some_holds _ _ _ F) as T. rewrite (H y (first_in _ _ _ F)) in T.
  discriminate T.
Qed.

(** X8. Inactivating and reactivating a client. For an active client,
    [inactivate_client] commits the row as inactive; the route
    [reactivate] then brings back the table as it was, but for the update
    time of that row, whereas on a client that is active it answers 400
    and changes nothing. With distinct ids and an identifier (CPF or phone
    of the client) that no other active client holds, the login finds the
    client before, answers 404 while the client is inactive, and finds the
    client again after. *)
Theorem inactivate_then_reactivate (now now' : Calendar.datetime) (db : Session)
    (client_id : Z) (c : Client.t) (login_data : ClientLogin) :
  NoDup (map Client.id (clients (working db))) ->
  get_client db client_id = Ok c -> Client.is_active c = true ->
  let db1 := fst (inactivate_client now db client_id) in
  let db2 := fst (reactivate_client now' db1 client_id) in
  let identifier := PyStr.to_string (_only_digits (cl_identifier login_data)) in
  reactivate_client now' db client_id
  = (db, Raise (HTTPException 400 "Cliente já está ativo"))
  /\ snd (inactivate_client now db client_id) = Ok tt
  /\ get_client db1 client_id = Ok (set_client_inactive now c)
  /\ committed db1 = working db1
  /\ snd (reactivate_client now' db1 client_id) = Ok "Cliente reativado com sucesso"
  /\ clients (working db2)
     = update_first (fun c0 => Client.id c0 =? client_id) (set_client_active now')
                    (clients (working db))
  /\ committed db2 = working db2
  /\ (identifier = Client.cpf c \/ identifier = Client.phone c ->
      (forall c0, In c0 (clients (working db)) -> Client.id c0 <> client_id ->
                  Client.is_active c0 = true ->
                  Client.cpf c0 <> identifier /\ Client.phone c0 <> identifier) ->
      login_client db login_data = Ok c
      /\ login_client db1 login_data
         = Raise (HTTPException HTTP_404_NOT_FOUND "Cliente não encontrado")
      /\ login_client db2 login_data = Ok (set_client_active now' c)).
Proof.
  intros Uid G Hact. cbv zeta.
  pose proof (proj1 (get_client_first db client_id c) G) as F.
  pose proof (first_in _ _ _ F) as Hin.
  assert (Client.id c = client_id) as Hid
    by (apply Z.eqb_eq; exact (first_some_holds _ _ _ F)).
  set (p := fun c0 : Client.t => Client.id c0 =? client_id) in *.
  assert (get_client (fst (inactivate_client now db client_id)) client_id
          = Ok (set_client_inactive now c)) as G1.
  { unfold inactivate_client. rewrite G. cbn [fst]. apply get_client_first.
    unfold commit, with_clients. cbn [working clients].
    apply first_update_first; [exact F |]. apply Z.eqb_eq. exact Hid. }
  assert (clients (working (fst (inactivate_client now db client_id)))
          = update_first p (set_client_inactive now) (clients (working db))) as C1.
  { unfold inactivate_client. rewrite G. reflexivity. }
  assert (clients (working (fst (reactivate_client now'
                                   (fst (inactivate_client now db client_id)) client_id)))
          = update_first p (set_client_active now') (clients (working db))) as C2.
  { unfold reactivate_client at 1. rewrite G1. cbn [set_client_inactive Client.is_active fst].
    unfold commit, with_clients. cbn [working clients]. rewrite C1.
    fold p. rewrite update_first_twice; [reflexivity |].
    intros r Hr. exact Hr. }
  split; [unfold reactivate_client; rewrite G, Hact; reflexivity |].
  split; [unfold inactivate_client; rewrite G; reflexivity |].
  split; [exact G1 |].
  split; [unfold inactivate_client; rewrite G; reflexivity |].
  split; [unfold reactivate_client; rewrite G1; reflexivity |].
  split; [exact C2 |].
  split; [unfold reactivate_client; rewrite G1; reflexivity |].
  intros Hident Hothers.
  assert (forall y, In y (clients (working db)) -> Client.id y <> client_id ->
                    login_match (PyStr.to_string (_only_digits (cl_identifier login_data))) y = false) as Hno.
  { intros y Hy Hne. unfold login_match.
    destruct (Client.is_active y) eqn:Ay; [| reflexivity].
    destruct (Hothers y Hy Hne Ay) as [N1 N2]. cbn [Bool.eqb andb].
    apply orb_false_iff. split; apply String.eqb_neq; assumption. }
  assert ((String.eqb (Client.cpf c) (PyStr.to_string (_only_digits (cl_identifier login_data)))
           || String.eqb (Client.phone c)
                (PyStr.to_string (_only_digits (cl_identifier login_data))))
          = true) as Hkey.
  { apply orb_true_iff.
    destruct Hident as [-> | ->]; [left | right]; apply String.eqb_refl. }
  unfold login_client. rewrite C1, C2. split; [| split].
  - rewrite (first_unique_match _ _ c Hin); [reflexivity | |].
    + unfold login_match. rewrite Hact, Hkey. reflexivity.
    + intros y Hy Hm. destruct (Z.eq_dec (Client.id y) client_id) as [E | N].
      * exact (unique_id_first _ client_id c y Uid F Hy E).
      * rewrite (Hno y Hy N) in Hm. discriminate Hm.
  - rewrite first_no_match; [reflexivity |].
    intros y Hy. destruct (in_update_first_unique _ _ _ c y Uid F Hy) as [[H1 H2] | ->].
    + exact (Hno y H1 H2).
    + reflexivity.
  - rewrite (first_unique_match _ _ (set_client_active now' c)); [reflexivity | | |].
    + apply in_update_first_updated. exact F.
    + unfold login_match. cbn [set_client_active Client.is_active Client.cpf Client.phone].
      rewrite Hkey. reflexivity.
    + intros y Hy Hm. destruct (in_update_first_unique _ _ _ c y Uid F Hy) as [[H1 H2] | ->].
      * rewrite (Hno y H1 H2) in Hm. discriminate Hm.
      * reflexivity.
Qed.

Lemma inactivate_then_reactivate_witness :
  login_client (fst (inactivate_client 7 (open_session (Sample.store "waiting" "pending")) 1))
               {| cl_identifier := PyStr.of_ascii "529.982.247-25" |}
  = Raise (HTTPException HTTP_404_NOT_FOUND "Cliente não encontrado").
Proof.
  refine (proj1 (proj2 (proj2 (proj2 (proj2 (proj2 (proj2 (proj2 (proj2
            (inactivate_then_reactivate 7 8 (open_session (Sample.store "waiting" "pending"))
               1 Sample.ana {| cl_identifier := PyStr.of_ascii "529.982.247-25" |} _ _ _))))))) _ _))).
  - cbn. repeat constructor; cbn; intuition discriminate.
  - reflexivity.
  - reflexivity.
  - left. vm_compute. reflexivity.
  - intros c0 Hin Hne Ha. cbn in Hin.
    destruct Hin as [<- | [<- | []]]; [contradiction Hne; reflexivity | discriminate Ha].
Defined.
